(** * ADetailer: the detection-to-inpainting post-processing script

    A shallow embedding of [scripts/!adetailer.py] (class
    [AfterDetailerScript]) and the properties of its orchestration:
    parameter resolution for the img2img sub-job, the always-on script
    filter, the per-mask loop with its seed advancement, and the entry
    points [process] / [postprocess_image].

    Python objects are modelled by records, dynamically typed values by
    [pyval], exceptions by [exn] inside a state-and-error monad whose state
    records every call made to the external collaborators (the detector
    backends, the regeneration engine [process_images], [images.save_image],
    [print]). *)

From Stdlib Require Import ZArith Lia Ascii String.
From stdpp Require Import gmap strings list pretty.

Set Warnings "-register-all,-clear-no-such-hyp".
Local Open Scope string_scope.
Local Open Scope list_scope.
Local Open Scope Z_scope.

(** ** Python values, formatted text and exceptions *)

Module Py.

(** The dynamically typed values that reach the script from the UI state,
    from [opts.data] and from [cmd_opts]. *)
Inductive pyval : Type :=
| PyNone
| PyBool (b : bool)
| PyInt (z : Z)
| PyStr (s : string)
| PyList (l : list pyval)
| PyTuple (l : list pyval)
| PyDict (d : list (string * pyval)).

(** [bool(v)] *)
Definition truthy (v : pyval) : bool :=
  match v with
  | PyNone => false
  | PyBool b => b
  | PyInt z => negb (z =? 0)
  | PyStr s => negb (String.eqb s EmptyString)
  | PyList l | PyTuple l => match l with [] => false | _ => true end
  | PyDict d => match d with [] => false | _ => true end
  end.

(** [isinstance(v, bool)] *)
Definition isinstance_bool (v : pyval) : bool :=
  match v with PyBool _ => true | _ => false end.

(** [d.get(k)] on a [dict] kept as an insertion-ordered association list. *)
Fixpoint dict_get {A} (d : list (string * A)) (k : string) : option A :=
  match d with
  | [] => None
  | (k', v) :: d' => if String.eqb k' k then Some v else dict_get d' k
  end.

(** [k in d] *)
Definition dict_contains {A} (d : list (string * A)) (k : string) : bool :=
  match dict_get d k with Some _ => true | None => false end.

(** [list(d.keys())] *)
Definition dict_keys {A} (d : list (string * A)) : list string := d.*1.

(** The exception classes the script raises or handles, with Python's
    built-in hierarchy: [LookupError] is the parent of [IndexError] and
    [KeyError]; [ValueError], [TypeError], [AttributeError] and
    [ImportError] are direct children of [Exception].  [CValidationError] is pydantic's, a child of
    [ValueError]; [CExternal] stands for any class a collaborator raises
    that derives from [Exception] only. *)
Inductive pyclass : Type :=
| CException
| CValueError
| CValidationError
| CTypeError
| CAttributeError
| CLookupError
| CIndexError
| CKeyError
| CImportError
| CExternal (name : string).

Definition parent (c : pyclass) : option pyclass :=
  match c with
  | CException => None
  | CValidationError => Some CValueError
  | CIndexError | CKeyError => Some CLookupError
  | _ => Some CException
  end.

Definition pyclass_eqb (c d : pyclass) : bool :=
  match c, d with
  | CException, CException | CValueError, CValueError
  | CValidationError, CValidationError | CTypeError, CTypeError
  | CAttributeError, CAttributeError | CLookupError, CLookupError
  | CIndexError, CIndexError | CKeyError, CKeyError
  | CImportError, CImportError => true
  | CExternal a, CExternal b => String.eqb a b
  | _, _ => false
  end.

(** [issubclass(c, d)]; the hierarchy above has depth two. *)
Definition issubclass (c d : pyclass) : bool :=
  pyclass_eqb c d ||
  match parent c with
  | Some c1 =>
      pyclass_eqb c1 d ||
      match parent c1 with Some c2 => pyclass_eqb c2 d | None => false end
  | None => false
  end.

(** The result of an f-string, kept symbolic: literal pieces and formatted
    values ([{v}], [{v!r}], [{type(v)}]) in order; [Dedent] is
    [textwrap.dedent], [Traceback] is [traceback.format_exc()] for the
    exception being handled.  How [repr] prints a value
    is Python's business; which value is printed where is the script's. *)
Inductive text : Type :=
| Lit (s : string)
| Str (v : pyval)
| Repr (v : pyval)
| TypeOf (v : pyval)
| Cat (a b : text)
| Join (sep : string) (parts : list text)
| Dedent (a : text)
| Traceback (c : pyclass) (msg : text).

(** [occurs t u]: the piece [t] is one of the pieces concatenated in [u]. *)
Fixpoint occurs (t u : text) : Prop :=
  t = u \/
  match u with
  | Cat a b => occurs t a \/ occurs t b
  | Dedent a => occurs t a
  | _ => False
  end.

Record exn : Type := Exn { exn_class : pyclass; exn_msg : text }.

(** [except cls as e] matches [e] *)
Definition isinstance_exn (e : exn) (cls : pyclass) : bool :=
  issubclass (exn_class e) cls.

(** The outcome of a call: a value or a raised exception. *)
Inductive result (A : Type) : Type :=
| Ok (a : A)
| Raise (e : exn).
Global Arguments Ok {A} a.
Global Arguments Raise {A} e.

(** [l[i]] for a Python [int] index: negative indices count from the end,
    anything outside [-len, len) raises [IndexError]. *)
Definition getitem {A} (l : list A) (i : Z) : result A :=
  let n := Z.of_nat (length l) in
  let k := if i <? 0 then i + n else i in
  if (k <? 0) || (n <=? k) then
    Raise (Exn CIndexError (Lit "list index out of range"))
  else
    match l !! Z.to_nat k with
    | Some x => Ok x
    | None => Raise (Exn CIndexError (Lit "list index out of range"))
    end.

(** [len(x)] where [x] may be [None]. *)
Definition len_opt {A} (x : option (list A)) : result Z :=
  match x with
  | Some l => Ok (Z.of_nat (length l))
  | None => Raise (Exn CTypeError (Lit "object of type 'NoneType' has no len()"))
  end.

(** [bool(x)] where [x] is a list or [None]. *)
Definition truthy_list {A} (x : option (list A)) : bool :=
  match x with
  | Some (_ :: _) => true
  | _ => false
  end.

Definition nl : string := String (ascii_of_nat 10) EmptyString.

End Py.
Import Py.

(** ** String helpers: [str.lower], [str.startswith], [str.split],
    [str.strip], [pathlib.Path.stem]

    Strings are sequences of 8-bit characters; the helpers follow Python on
    ASCII text. *)

Module Str.

(** [c.lower()] on an ASCII letter *)
Definition lower_ascii (c : ascii) : ascii :=
  let n := nat_of_ascii c in
  if (65 <=? n)%nat && (n <=? 90)%nat then ascii_of_nat (n + 32) else c.

(** [s.lower()] *)
Fixpoint lower (s : string) : string :=
  match s with
  | EmptyString => EmptyString
  | String c s' => String (lower_ascii c) (lower s')
  end.

(** [s.startswith(pre)] *)
Definition startswith (s pre : string) : bool := String.prefix pre s.

(** [c.isspace()] for a character below 256: tab, newline, vertical tab,
    form feed, carriage return, the four separators 28..31, the blank, the
    next-line control 133 and the no-break space 160.  White space above
    255 (such as the ideographic space) is outside the strings modelled
    here. *)
Definition isspace (c : ascii) : bool :=
  let n := nat_of_ascii c in
  ((9 <=? n)%nat && (n <=? 13)%nat) || ((28 <=? n)%nat && (n <=? 32)%nat) ||
  (n =? 133)%nat || (n =? 160)%nat.

(** [s.lstrip()] *)
Fixpoint lstrip (s : string) : string :=
  match s with
  | EmptyString => EmptyString
  | String c s' => if isspace c then lstrip s' else s
  end.

(** [s.strip()] *)
Definition strip (s : string) : string :=
  String.rev (lstrip (String.rev (lstrip s))).

(** [s.split(sep)] for a one-character separator: the pieces between the
    separators, empty pieces included; never the empty list. *)
Fixpoint split_go (sep : ascii) (cur : string) (s : string) : list string :=
  match s with
  | EmptyString => [String.rev cur]
  | String c s' =>
      if Ascii.eqb c sep then String.rev cur :: split_go sep EmptyString s'
      else split_go sep (String c cur) s'
  end.
Definition split (sep : ascii) (s : string) : list string :=
  split_go sep EmptyString s.

(** [s.rfind(c)]: the index of the last [c], scanning from position [pos]. *)
Fixpoint rfind_go (c : ascii) (s : string) (pos : nat) (found : option nat)
  : option nat :=
  match s with
  | EmptyString => found
  | String a s' =>
      rfind_go c s' (S pos) (if Ascii.eqb a c then Some pos else found)
  end.
Definition rfind (c : ascii) (s : string) : option nat := rfind_go c s 0%nat None.

(** [PurePosixPath(p).name]: the last component that is neither empty nor
    a single dot; the empty string when there is none. *)
Definition path_name (p : string) : string :=
  let keep c := negb (String.eqb c EmptyString) && negb (String.eqb c ".") in
  List.last (List.filter keep (split "/" p)) EmptyString.

(** [PurePosixPath(p).stem]: the name without its last suffix; a leading
    or a trailing dot starts no suffix. *)
Definition path_stem (p : string) : string :=
  let name := path_name p in
  match rfind "." name with
  | Some i =>
      if (0 <? i)%nat && (i <? String.length name - 1)%nat
      then String.substring 0 i name
      else name
  | None => name
  end.

(** [str(PurePosixPath(dir, name))] for a [name] that is one plain
    component: the root of [dir] (one slash, or two when [dir] starts with
    exactly two), then the components of [dir] that are neither empty nor
    a single dot and [name], joined by single slashes.  A trailing slash,
    a doubled slash and a dot component of [dir] thus disappear, and an
    empty [dir] gives [name] alone. *)
Definition path_root (p : string) : string :=
  if String.prefix "///" p then "/"
  else if String.prefix "//" p then "//"
  else if String.prefix "/" p then "/"
  else EmptyString.
Definition path_parts (p : string) : list string :=
  let keep c := negb (String.eqb c EmptyString) && negb (String.eqb c ".") in
  List.filter keep (split "/" p).
Definition path_under (dir name : string) : string :=
  path_root dir +:+ String.concat "/" (path_parts dir ++ [name]).

End Str.

(** ** Module-level helpers *)

(** [ordinal(n)] *)
Definition ordinal (n : Z) : string :=
  pretty n +:+
  (if (11 <=? n `mod` 100) && (n `mod` 100 <=? 13) then "th"
   else match n `mod` 10 with
        | 1 => "st"
        | 2 => "nd"
        | 3 => "rd"
        | _ => "th"
        end).

(** [suffix(n, c)] *)
Definition suffix (n : Z) (c : string) : string :=
  if n =? 0 then EmptyString else c +:+ ordinal (n + 1).

(** [getattr(ns, name, False)] on an attribute namespace such as [cmd_opts] *)
Definition getattr_default (ns : gmap string pyval) (name : string) (d : pyval)
  : pyval :=
  default d (ns !! name).

(** [AfterDetailerScript.get_ultralytics_device] *)
Definition get_ultralytics_device (platform_system : string)
    (cmd_opts : gmap string pyval) : string :=
  let device := EmptyString in
  if String.eqb platform_system "Darwin" then device
  else
    let device :=
      if existsb (fun vram => truthy (getattr_default cmd_opts vram (PyBool false)))
                 ["lowvram"; "medvram"]
      then "cpu" else device in
    device.

(** ** Data model *)

(** The opaque data of the host application: images (PIL images, masks
    included), Python floats, the loaded checkpoint, and the state of
    everything outside the script (file system, GPU, random sources). *)
Class HostTypes : Type := {
  Image : Type;
  PyFloat : Type;
  SdModel : Type;
  Ext : Type;
}.

(** An always-on script of the host's [ScriptRunner], known by the file
    that defines it. *)
Record Script : Type := { filename : string }.

(** [modules.scripts.ScriptRunner], as far as the script touches it. *)
Record ScriptRunner : Type := { alwayson_scripts : list Script }.

(** [controlnet_ext.ControlNetExt], as far as the script touches it. *)
Record ControlNetExt : Type := { cn_available : bool }.

Section DataModel.
Context `{HostTypes}.

(** [adetailer.ADetailerArgs]: one validated detection-and-inpainting stage. *)
Record ADetailerArgs : Type := {
  ad_model : string;
  ad_prompt : string;
  ad_negative_prompt : string;
  ad_conf : PyFloat;
  ad_dilate_erode : Z;
  ad_x_offset : Z;
  ad_y_offset : Z;
  ad_mask_blur : Z;
  ad_denoising_strength : PyFloat;
  ad_inpaint_full_res : bool;
  ad_inpaint_full_res_padding : Z;
  ad_use_inpaint_width_height : bool;
  ad_inpaint_width : Z;
  ad_inpaint_height : Z;
  ad_use_steps : bool;
  ad_steps : Z;
  ad_use_cfg_scale : bool;
  ad_cfg_scale : PyFloat;
  ad_controlnet_model : string;
  ad_controlnet_weight : PyFloat;
}.

(** [StableDiffusionProcessing] and its subclass
    [StableDiffusionProcessingImg2Img]: the parent job [p] and the sub-jobs
    the script builds are objects of this one shape.  The last two fields
    are the attributes the script attaches itself; [None] means the
    attribute is not there. *)
Record Processing : Type := {
  prompt : string;
  negative_prompt : string;
  all_prompts : option (list string);
  all_negative_prompts : option (list string);
  seed : Z;
  subseed : Z;
  all_seeds : option (list Z);
  all_subseeds : option (list Z);
  subseed_strength : PyFloat;
  seed_resize_from_h : Z;
  seed_resize_from_w : Z;
  sampler_name : string;
  batch_size : Z;
  n_iter : Z;
  steps : Z;
  cfg_scale : PyFloat;
  width : Z;
  height : Z;
  tiling : bool;
  styles : list string;
  sd_model : SdModel;
  outpath_samples : string;
  outpath_grids : string;
  extra_generation_params : gmap string pyval;
  do_not_save_samples : bool;
  do_not_save_grid : bool;
  scripts : option ScriptRunner;
  script_args : option (list pyval);
  init_images : list Image;
  resize_mode : Z;
  denoising_strength : option PyFloat;
  mask : option Image;
  image_mask : option Image;
  mask_blur : Z;
  inpainting_fill : Z;
  inpaint_full_res : bool;
  inpaint_full_res_padding : Z;
  inpainting_mask_invert : Z;
  _disable_adetailer : option bool;
  _idx : option Z;
}.

(** [p.image_mask = v] *)
Definition set_image_mask (v : option Image) (p : Processing) : Processing :=
  {| prompt := prompt p; negative_prompt := negative_prompt p;
    all_prompts := all_prompts p;
    all_negative_prompts := all_negative_prompts p; seed := seed p;
    subseed := subseed p; all_seeds := all_seeds p;
    all_subseeds := all_subseeds p; subseed_strength := subseed_strength p;
    seed_resize_from_h := seed_resize_from_h p;
    seed_resize_from_w := seed_resize_from_w p;
    sampler_name := sampler_name p; batch_size := batch_size p;
    n_iter := n_iter p; steps := steps p; cfg_scale := cfg_scale p;
    width := width p; height := height p; tiling := tiling p;
    styles := styles p; sd_model := sd_model p;
    outpath_samples := outpath_samples p; outpath_grids := outpath_grids p;
    extra_generation_params := extra_generation_params p;
    do_not_save_samples := do_not_save_samples p;
    do_not_save_grid := do_not_save_grid p; scripts := scripts p;
    script_args := script_args p; init_images := init_images p;
    resize_mode := resize_mode p; denoising_strength := denoising_strength p;
    mask := mask p; image_mask := v; mask_blur := mask_blur p;
    inpainting_fill := inpainting_fill p;
    inpaint_full_res := inpaint_full_res p;
    inpaint_full_res_padding := inpaint_full_res_padding p;
    inpainting_mask_invert := inpainting_mask_invert p;
    _disable_adetailer := _disable_adetailer p; _idx := _idx p |}.

(** [p.init_images = v] *)
Definition set_init_images (v : list Image) (p : Processing) : Processing :=
  {| prompt := prompt p; negative_prompt := negative_prompt p;
    all_prompts := all_prompts p;
    all_negative_prompts := all_negative_prompts p; seed := seed p;
    subseed := subseed p; all_seeds := all_seeds p;
    all_subseeds := all_subseeds p; subseed_strength := subseed_strength p;
    seed_resize_from_h := seed_resize_from_h p;
    seed_resize_from_w := seed_resize_from_w p;
    sampler_name := sampler_name p; batch_size := batch_size p;
    n_iter := n_iter p; steps := steps p; cfg_scale := cfg_scale p;
    width := width p; height := height p; tiling := tiling p;
    styles := styles p; sd_model := sd_model p;
    outpath_samples := outpath_samples p; outpath_grids := outpath_grids p;
    extra_generation_params := extra_generation_params p;
    do_not_save_samples := do_not_save_samples p;
    do_not_save_grid := do_not_save_grid p; scripts := scripts p;
    script_args := script_args p; init_images := v;
    resize_mode := resize_mode p; denoising_strength := denoising_strength p;
    mask := mask p; image_mask := image_mask p; mask_blur := mask_blur p;
    inpainting_fill := inpainting_fill p;
    inpaint_full_res := inpaint_full_res p;
    inpaint_full_res_padding := inpaint_full_res_padding p;
    inpainting_mask_invert := inpainting_mask_invert p;
    _disable_adetailer := _disable_adetailer p; _idx := _idx p |}.

(** [p.seed = v] *)
Definition set_seed (v : Z) (p : Processing) : Processing :=
  {| prompt := prompt p; negative_prompt := negative_prompt p;
    all_prompts := all_prompts p;
    all_negative_prompts := all_negative_prompts p; seed := v;
    subseed := subseed p; all_seeds := all_seeds p;
    all_subseeds := all_subseeds p; subseed_strength := subseed_strength p;
    seed_resize_from_h := seed_resize_from_h p;
    seed_resize_from_w := seed_resize_from_w p;
    sampler_name := sampler_name p; batch_size := batch_size p;
    n_iter := n_iter p; steps := steps p; cfg_scale := cfg_scale p;
    width := width p; height := height p; tiling := tiling p;
    styles := styles p; sd_model := sd_model p;
    outpath_samples := outpath_samples p; outpath_grids := outpath_grids p;
    extra_generation_params := extra_generation_params p;
    do_not_save_samples := do_not_save_samples p;
    do_not_save_grid := do_not_save_grid p; scripts := scripts p;
    script_args := script_args p; init_images := init_images p;
    resize_mode := resize_mode p; denoising_strength := denoising_strength p;
    mask := mask p; image_mask := image_mask p; mask_blur := mask_blur p;
    inpainting_fill := inpainting_fill p;
    inpaint_full_res := inpaint_full_res p;
    inpaint_full_res_padding := inpaint_full_res_padding p;
    inpainting_mask_invert := inpainting_mask_invert p;
    _disable_adetailer := _disable_adetailer p; _idx := _idx p |}.

(** [p.subseed = v] *)
Definition set_subseed (v : Z) (p : Processing) : Processing :=
  {| prompt := prompt p; negative_prompt := negative_prompt p;
    all_prompts := all_prompts p;
    all_negative_prompts := all_negative_prompts p; seed := seed p;
    subseed := v; all_seeds := all_seeds p; all_subseeds := all_subseeds p;
    subseed_strength := subseed_strength p;
    seed_resize_from_h := seed_resize_from_h p;
    seed_resize_from_w := seed_resize_from_w p;
    sampler_name := sampler_name p; batch_size := batch_size p;
    n_iter := n_iter p; steps := steps p; cfg_scale := cfg_scale p;
    width := width p; height := height p; tiling := tiling p;
    styles := styles p; sd_model := sd_model p;
    outpath_samples := outpath_samples p; outpath_grids := outpath_grids p;
    extra_generation_params := extra_generation_params p;
    do_not_save_samples := do_not_save_samples p;
    do_not_save_grid := do_not_save_grid p; scripts := scripts p;
    script_args := script_args p; init_images := init_images p;
    resize_mode := resize_mode p; denoising_strength := denoising_strength p;
    mask := mask p; image_mask := image_mask p; mask_blur := mask_blur p;
    inpainting_fill := inpainting_fill p;
    inpaint_full_res := inpaint_full_res p;
    inpaint_full_res_padding := inpaint_full_res_padding p;
    inpainting_mask_invert := inpainting_mask_invert p;
    _disable_adetailer := _disable_adetailer p; _idx := _idx p |}.

(** [p.scripts = v] *)
Definition set_scripts (v : option ScriptRunner) (p : Processing) : Processing :=
  {| prompt := prompt p; negative_prompt := negative_prompt p;
    all_prompts := all_prompts p;
    all_negative_prompts := all_negative_prompts p; seed := seed p;
    subseed := subseed p; all_seeds := all_seeds p;
    all_subseeds := all_subseeds p; subseed_strength := subseed_strength p;
    seed_resize_from_h := seed_resize_from_h p;
    seed_resize_from_w := seed_resize_from_w p;
    sampler_name := sampler_name p; batch_size := batch_size p;
    n_iter := n_iter p; steps := steps p; cfg_scale := cfg_scale p;
    width := width p; height := height p; tiling := tiling p;
    styles := styles p; sd_model := sd_model p;
    outpath_samples := outpath_samples p; outpath_grids := outpath_grids p;
    extra_generation_params := extra_generation_params p;
    do_not_save_samples := do_not_save_samples p;
    do_not_save_grid := do_not_save_grid p; scripts := v;
    script_args := script_args p; init_images := init_images p;
    resize_mode := resize_mode p; denoising_strength := denoising_strength p;
    mask := mask p; image_mask := image_mask p; mask_blur := mask_blur p;
    inpainting_fill := inpainting_fill p;
    inpaint_full_res := inpaint_full_res p;
    inpaint_full_res_padding := inpaint_full_res_padding p;
    inpainting_mask_invert := inpainting_mask_invert p;
    _disable_adetailer := _disable_adetailer p; _idx := _idx p |}.

(** [p.script_args = v] *)
Definition set_script_args (v : option (list pyval)) (p : Processing) : Processing :=
  {| prompt := prompt p; negative_prompt := negative_prompt p;
    all_prompts := all_prompts p;
    all_negative_prompts := all_negative_prompts p; seed := seed p;
    subseed := subseed p; all_seeds := all_seeds p;
    all_subseeds := all_subseeds p; subseed_strength := subseed_strength p;
    seed_resize_from_h := seed_resize_from_h p;
    seed_resize_from_w := seed_resize_from_w p;
    sampler_name := sampler_name p; batch_size := batch_size p;
    n_iter := n_iter p; steps := steps p; cfg_scale := cfg_scale p;
    width := width p; height := height p; tiling := tiling p;
    styles := styles p; sd_model := sd_model p;
    outpath_samples := outpath_samples p; outpath_grids := outpath_grids p;
    extra_generation_params := extra_generation_params p;
    do_not_save_samples := do_not_save_samples p;
    do_not_save_grid := do_not_save_grid p; scripts := scripts p;
    script_args := v; init_images := init_images p;
    resize_mode := resize_mode p; denoising_strength := denoising_strength p;
    mask := mask p; image_mask := image_mask p; mask_blur := mask_blur p;
    inpainting_fill := inpainting_fill p;
    inpaint_full_res := inpaint_full_res p;
    inpaint_full_res_padding := inpaint_full_res_padding p;
    inpainting_mask_invert := inpainting_mask_invert p;
    _disable_adetailer := _disable_adetailer p; _idx := _idx p |}.

(** [p._disable_adetailer = v] *)
Definition set_disable_adetailer (v : option bool) (p : Processing) : Processing :=
  {| prompt := prompt p; negative_prompt := negative_prompt p;
    all_prompts := all_prompts p;
    all_negative_prompts := all_negative_prompts p; seed := seed p;
    subseed := subseed p; all_seeds := all_seeds p;
    all_subseeds := all_subseeds p; subseed_strength := subseed_strength p;
    seed_resize_from_h := seed_resize_from_h p;
    seed_resize_from_w := seed_resize_from_w p;
    sampler_name := sampler_name p; batch_size := batch_size p;
    n_iter := n_iter p; steps := steps p; cfg_scale := cfg_scale p;
    width := width p; height := height p; tiling := tiling p;
    styles := styles p; sd_model := sd_model p;
    outpath_samples := outpath_samples p; outpath_grids := outpath_grids p;
    extra_generation_params := extra_generation_params p;
    do_not_save_samples := do_not_save_samples p;
    do_not_save_grid := do_not_save_grid p; scripts := scripts p;
    script_args := script_args p; init_images := init_images p;
    resize_mode := resize_mode p; denoising_strength := denoising_strength p;
    mask := mask p; image_mask := image_mask p; mask_blur := mask_blur p;
    inpainting_fill := inpainting_fill p;
    inpaint_full_res := inpaint_full_res p;
    inpaint_full_res_padding := inpaint_full_res_padding p;
    inpainting_mask_invert := inpainting_mask_invert p;
    _disable_adetailer := v; _idx := _idx p |}.

(** [p._idx = v] *)
Definition set_idx (v : option Z) (p : Processing) : Processing :=
  {| prompt := prompt p; negative_prompt := negative_prompt p;
    all_prompts := all_prompts p;
    all_negative_prompts := all_negative_prompts p; seed := seed p;
    subseed := subseed p; all_seeds := all_seeds p;
    all_subseeds := all_subseeds p; subseed_strength := subseed_strength p;
    seed_resize_from_h := seed_resize_from_h p;
    seed_resize_from_w := seed_resize_from_w p;
    sampler_name := sampler_name p; batch_size := batch_size p;
    n_iter := n_iter p; steps := steps p; cfg_scale := cfg_scale p;
    width := width p; height := height p; tiling := tiling p;
    styles := styles p; sd_model := sd_model p;
    outpath_samples := outpath_samples p; outpath_grids := outpath_grids p;
    extra_generation_params := extra_generation_params p;
    do_not_save_samples := do_not_save_samples p;
    do_not_save_grid := do_not_save_grid p; scripts := scripts p;
    script_args := script_args p; init_images := init_images p;
    resize_mode := resize_mode p; denoising_strength := denoising_strength p;
    mask := mask p; image_mask := image_mask p; mask_blur := mask_blur p;
    inpainting_fill := inpainting_fill p;
    inpaint_full_res := inpaint_full_res p;
    inpaint_full_res_padding := inpaint_full_res_padding p;
    inpainting_mask_invert := inpainting_mask_invert p;
    _disable_adetailer := _disable_adetailer p; _idx := v |}.

(** [p.extra_generation_params = v] *)
Definition set_extra_generation_params (v : gmap string pyval) (p : Processing) : Processing :=
  {| prompt := prompt p; negative_prompt := negative_prompt p;
    all_prompts := all_prompts p;
    all_negative_prompts := all_negative_prompts p; seed := seed p;
    subseed := subseed p; all_seeds := all_seeds p;
    all_subseeds := all_subseeds p; subseed_strength := subseed_strength p;
    seed_resize_from_h := seed_resize_from_h p;
    seed_resize_from_w := seed_resize_from_w p;
    sampler_name := sampler_name p; batch_size := batch_size p;
    n_iter := n_iter p; steps := steps p; cfg_scale := cfg_scale p;
    width := width p; height := height p; tiling := tiling p;
    styles := styles p; sd_model := sd_model p;
    outpath_samples := outpath_samples p; outpath_grids := outpath_grids p;
    extra_generation_params := v;
    do_not_save_samples := do_not_save_samples p;
    do_not_save_grid := do_not_save_grid p; scripts := scripts p;
    script_args := script_args p; init_images := init_images p;
    resize_mode := resize_mode p; denoising_strength := denoising_strength p;
    mask := mask p; image_mask := image_mask p; mask_blur := mask_blur p;
    inpainting_fill := inpainting_fill p;
    inpaint_full_res := inpaint_full_res p;
    inpaint_full_res_padding := inpaint_full_res_padding p;
    inpainting_mask_invert := inpainting_mask_invert p;
    _disable_adetailer := _disable_adetailer p; _idx := _idx p |}.


(** [ultralytics_predict] / [mediapipe_predict] return a [PredictOutput]. *)
Record PredictOutput : Type := {
  masks : list Image;
  preview : option Image;
}.

(** [process_images] returns a [Processed]. *)
Record Processed : Type := { images : list Image }.

(** The keyword arguments of one [images.save_image] call (the job [p]
    itself, passed along as [p=p], is left out). *)
Record SaveImage : Type := {
  sv_image : option Image;
  sv_path : string;
  sv_basename : string;
  sv_seed : Z;
  sv_prompt : string;
  sv_extension : string;
  sv_info : string;
  sv_suffix : string;
}.

(** What the script does to the outside, in the order it does it. *)
Inductive event : Type :=
| EvPrint (to_stderr : bool) (t : text)
| EvMediapipe (model : string) (image : Image) (conf : PyFloat)
    (out : result PredictOutput)
| EvUltralytics (model_path : string) (image : Image) (conf : PyFloat)
    (device : string) (out : result PredictOutput)
| EvProcessImages (job : Processing) (out : result Processed)
| EvSaveImage (call : SaveImage) (out : result unit)
| EvWriteText (path : string) (content : string) (out : result unit).

(** The mutable objects a call of the script works on: the parent job [p],
    [pp.image], [self.controlnet_ext], the outside world, and the trace of
    events so far. *)
Record State : Type := {
  st_p : Processing;
  st_image : Image;
  st_cn : option ControlNetExt;
  st_ext : Ext;
  st_trace : list event;
}.

End DataModel.

(** ** The state-and-exception monad *)

Section Monad.
Context `{HostTypes}.

Definition M (A : Type) : Type := State -> result A * State.

Definition ret {A} (a : A) : M A := fun st => (Ok a, st).

Definition raise {A} (e : exn) : M A := fun st => (Raise e, st).

Definition bind {A B} (m : M A) (k : A -> M B) : M B :=
  fun st =>
    match m st with
    | (Ok a, st') => k a st'
    | (Raise e, st') => (Raise e, st')
    end.

(** A pure computation that may raise. *)
Definition lift {A} (r : result A) : M A := fun st => (r, st).

(** [try: m except cls: handler] *)
Definition try_except {A} (m : M A) (cls : pyclass) (handler : exn -> M A)
  : M A :=
  fun st =>
    match m st with
    | (Raise e, st') =>
        if isinstance_exn e cls then handler e st' else (Raise e, st')
    | r => r
    end.

Definition get_p : M Processing := fun st => (Ok (st_p st), st).

Definition put_p (p : Processing) : M unit := fun st =>
  (Ok tt, {| st_p := p; st_image := st_image st; st_cn := st_cn st;
             st_ext := st_ext st; st_trace := st_trace st |}).

Definition get_image : M Image := fun st => (Ok (st_image st), st).

Definition put_image (i : Image) : M unit := fun st =>
  (Ok tt, {| st_p := st_p st; st_image := i; st_cn := st_cn st;
             st_ext := st_ext st; st_trace := st_trace st |}).

Definition get_cn : M (option ControlNetExt) := fun st => (Ok (st_cn st), st).

Definition put_cn (c : option ControlNetExt) : M unit := fun st =>
  (Ok tt, {| st_p := st_p st; st_image := st_image st; st_cn := c;
             st_ext := st_ext st; st_trace := st_trace st |}).

(** Append an event to the trace. *)
Definition emit (ev : event) : M unit := fun st =>
  (Ok tt, {| st_p := st_p st; st_image := st_image st; st_cn := st_cn st;
             st_ext := st_ext st; st_trace := st_trace st ++ [ev] |}).

(** Call a collaborator: it reads and changes the outside world, and the
    call is recorded with its outcome. *)
Definition call {A} (f : Ext -> result A * Ext) (record : result A -> event)
  : M A :=
  fun st =>
    let '(r, e) := f (st_ext st) in
    (r, {| st_p := st_p st; st_image := st_image st; st_cn := st_cn st;
           st_ext := e; st_trace := st_trace st ++ [record r] |}).

(** Call a collaborator that leaves nothing in the trace. *)
Definition call_silent {A} (f : Ext -> result A * Ext) : M A :=
  fun st =>
    let '(r, e) := f (st_ext st) in
    (r, {| st_p := st_p st; st_image := st_image st; st_cn := st_cn st;
           st_ext := e; st_trace := st_trace st |}).

(** [print(t)] / [print(t, file=sys.stderr)] *)
Definition print (t : text) : M unit := emit (EvPrint false t).
Definition print_stderr (t : text) : M unit := emit (EvPrint true t).

(** [r >>= k] on plain results *)
Definition rbind {A B} (r : result A) (k : A -> result B) : result B :=
  match r with
  | Ok a => k a
  | Raise e => Raise e
  end.

End Monad.

Notation "'let*' x ':=' m 'in' k" := (bind m (fun x => k))
  (at level 10, x name, m at level 100, k at level 200).
Notation "'let*' ' pat ':=' m 'in' k" := (bind m (fun x => match x with pat => k end))
  (at level 10, pat pattern, m at level 100, k at level 200).
Notation "m ';;' k" := (bind m (fun _ => k))
  (at level 100, k at level 200, right associativity).
Notation "'let?' x ':=' r 'in' k" := (rbind r (fun x => k))
  (at level 10, x name, r at level 100, k at level 200).

(** ** The environment of the script *)

(** Module-level state of the script and the functions it imports.  None
    of them is defined in [scripts/!adetailer.py]: the [adetailer] package
    ([enable_check], [ADetailerArgs], the predictors, [mask_preprocess],
    [get_models]), [controlnet_ext], pydantic, and the host's [modules]
    ([process_images], [create_infotext], [images.save_image], [opts],
    [cmd_opts]).  Calls that touch the outside world take and return
    [Ext]. *)
Class Host `{HostTypes} : Type := {
  (** [model_mapping = get_models(adetailer_dir)]: model name to file *)
  model_mapping : list (string * string);
  (** [opts.data] and [opts.samples_format] *)
  opts_data : gmap string pyval;
  opts_samples_format : string;
  (** [cmd_opts], [platform.system()], [data_path] *)
  cmd_opts : gmap string pyval;
  platform_system : string;
  data_path : string;
  (** [controlnet_ext.controlnet_exists], [adetailer.__version__],
      [ALL_ARGS.attrs] *)
  controlnet_exists : bool;
  version : string;
  ALL_ARGS_attrs : list string;
  (** [adetailer.enable_check], applied to the unpacked [args_] *)
  enable_check : list pyval -> result bool;
  (** [ADetailerArgs] applied to the unpacked [dict] [d]: pydantic
      validation *)
  ADetailerArgs_init : list (string * pyval) -> result ADetailerArgs;
  (** [args.extra_params(suffix=s)] *)
  args_extra_params : ADetailerArgs -> string -> gmap string pyval;
  (** [mediapipe_predict(name, image, conf)] and
      [ultralytics_predict(path, image, conf, device=d)], both run while
      [ChangeTorchLoad] has swapped [torch.load] *)
  mediapipe_predict :
    string -> Image -> PyFloat -> Ext -> result PredictOutput * Ext;
  ultralytics_predict :
    string -> Image -> PyFloat -> string -> Ext -> result PredictOutput * Ext;
  (** [adetailer.common.mask_preprocess(masks)] *)
  mask_preprocess : list Image -> list Image;
  (** [ControlNetExt.init_controlnet()]: the outcome and the object after
      the call *)
  init_controlnet :
    ControlNetExt -> Ext -> (result unit * ControlNetExt) * Ext;
  (** Modelled from the spec: [ControlNetExt.update_scripts_args(p, model,
      weight)] is the pass-through to the conditioning extension; it hands
      the job's [script_args] to that extension, which rewrites them in
      place, and touches nothing else of the job. *)
  update_scripts_args :
    ControlNetExt -> option (list pyval) -> string -> PyFloat -> Ext ->
    result (option (list pyval)) * Ext;
  (** [modules.processing.process_images(p)].  The job shares the
      parent's [extra_generation_params] and [styles] objects; the engine is
      taken not to change them, nor [images.save_image] the job it is
      passed: a call changes the outside world only. *)
  process_images : Processing -> Ext -> result Processed * Ext;
  (** [modules.processing.create_infotext(p, p.all_prompts, p.all_seeds,
      p.all_subseeds, None, 0, 0)] *)
  create_infotext : Processing -> result string;
  (** [modules.images.save_image(...)] *)
  images_save_image : SaveImage -> Ext -> result unit * Ext;
  (** [Path.write_text(content, encoding="utf-8")] *)
  write_text : string -> string -> Ext -> result unit * Ext;
}.

(** ** The script *)

Section Script.
Context `{Host}.

(** [bool(s)] for a [str] *)
Definition str_truthy (s : string) : bool := negb (String.eqb s EmptyString).

(** [opts.data.get(key, d)] *)
Definition opts_get (key : string) (d : pyval) : pyval :=
  default d (opts_data !! key).

(** [is_ad_enabled] *)
Definition is_ad_enabled (args_ : list pyval) : result bool :=
  let len := Z.of_nat (length args_) in
  if (len =? 0) ||
     ((len =? 1) && from_option isinstance_bool false (args_ !! 0%nat))
  then
    let message :=
      Cat (Lit (nl +:+
                "                       [-] ADetailer: Not enough arguments passed to ADetailer."
                +:+ nl +:+
                "                           input: "))
          (Cat (Repr (PyTuple args_))
               (Lit (nl +:+ "                       "))) in
    Raise (Exn CValueError (Dedent message))
  else enable_check args_.

(** [ADetailerArgs] applied to the unpacked [arg_dict]: unpacking anything
    but a mapping is a [TypeError] of Python's own. *)
Definition construct_args (arg_dict : pyval) : result ADetailerArgs :=
  match arg_dict with
  | PyDict d => ADetailerArgs_init d
  | _ => Raise (Exn CTypeError (Lit "argument after ** must be a mapping"))
  end.

(** The per-field dump of the [ValueError] branch of [get_args]. *)
Definition validation_message (n : Z) (arg_dict : pyval) (e : exn) : text :=
  let head :=
    Cat (Lit ("[-] ADetailer: ValidationError when validating " +:+ ordinal n
              +:+ " arguments: "))
        (Cat (exn_msg e) (Lit nl)) in
  let line attr :=
    let arg :=
      match arg_dict with
      | PyDict d => default PyNone (dict_get d attr)
      | _ => PyNone
      end in
    let dtype := TypeOf arg in
    let shown := match arg with PyNone => Lit "DEFAULT" | _ => Repr arg end in
    Cat (Lit ("    " +:+ attr +:+ ": ")) (Cat shown (Cat (Lit " (") (Cat dtype (Lit ")")))) in
  Join nl (head :: map line ALL_ARGS_attrs).

(** The body of the [for n, arg_dict in enumerate(args, 1)] loop of
    [get_args], from index [n] on. *)
Fixpoint get_args_from (n : Z) (args : list pyval) : result (list ADetailerArgs) :=
  match args with
  | [] => Ok []
  | arg_dict :: rest =>
      let? inp :=
        match construct_args arg_dict with
        | Ok inp => Ok inp
        | Raise e =>
            if isinstance_exn e CValueError then
              Raise (Exn CValueError (validation_message n arg_dict e))
            else if isinstance_exn e CTypeError then
              Raise (Exn CTypeError
                (Cat (Lit ("[-] ADetailer: " +:+ ordinal n +:+
                           " - Non-mapping arguments are sent: "))
                     (Cat (Repr arg_dict) (Cat (Lit nl) (exn_msg e)))))
            else Raise e
        end in
      let? all_inputs := get_args_from (n + 1) rest in
      Ok (inp :: all_inputs)
  end.

(** [get_args] *)
Definition get_args (args_ : list pyval) : result (list ADetailerArgs) :=
  let? a0 := getitem args_ 0 in
  let args := if isinstance_bool a0 then drop 1 args_ else args_ in
  get_args_from 1 args.

(** The [for n, args in enumerate(arg_list)] loop of [extra_params]:
    [params.update(...)] lets the newer entries win. *)
Fixpoint extra_params_from (n : Z) (arg_list : list ADetailerArgs)
    (params : gmap string pyval) : gmap string pyval :=
  match arg_list with
  | [] => params
  | args :: rest =>
      extra_params_from (n + 1) rest
        (args_extra_params args (suffix n " ") ∪ params)
  end.

(** [extra_params] *)
Definition extra_params (arg_list : list ADetailerArgs) : gmap string pyval :=
  let params := extra_params_from 0 arg_list ∅ in
  <["ADetailer version" := PyStr version]> params.

(** [i = p._idx] *)
Definition read_idx (p : Processing) : result Z :=
  match _idx p with
  | Some i => Ok i
  | None =>
      Raise (Exn CAttributeError (Lit "object has no attribute '_idx'"))
  end.

(** The chain [get_prompt] and [get_seed] apply to each of the four
    per-image lists:
    [base if not all_ else all_[i] if i < len(all_) else all_[i % len(all_)]] *)
Definition per_image {A} (all_ : option (list A)) (base : A) (i : Z) : result A :=
  if negb (truthy_list all_) then Ok base
  else
    let l := default [] all_ in
    if i <? Z.of_nat (length l) then getitem l i
    else
      let j := i `mod` Z.of_nat (length l) in
      getitem l j.

(** [get_prompt] *)
Definition get_prompt (p : Processing) (args : ADetailerArgs)
  : result (string * string) :=
  let? i := read_idx p in
  let? prompt :=
    if str_truthy (ad_prompt args) then Ok (ad_prompt args)
    else per_image (all_prompts p) (prompt p) i in
  let? negative_prompt :=
    if str_truthy (ad_negative_prompt args) then Ok (ad_negative_prompt args)
    else per_image (all_negative_prompts p) (negative_prompt p) i in
  Ok (prompt, negative_prompt).

(** [get_seed] *)
Definition get_seed (p : Processing) : result (Z * Z) :=
  let? i := read_idx p in
  let? seed := per_image (all_seeds p) (seed p) i in
  let? subseed := per_image (all_subseeds p) (subseed p) i in
  Ok (seed, subseed).

(** [get_width_height] *)
Definition get_width_height (p : Processing) (args : ADetailerArgs) : Z * Z :=
  if ad_use_inpaint_width_height args
  then (ad_inpaint_width args, ad_inpaint_height args)
  else (width p, height p).

(** [get_steps] *)
Definition get_steps (p : Processing) (args : ADetailerArgs) : Z :=
  if ad_use_steps args then ad_steps args else steps p.

(** [get_cfg_scale] *)
Definition get_cfg_scale (p : Processing) (args : ADetailerArgs) : PyFloat :=
  if ad_use_cfg_scale args then ad_cfg_scale args else cfg_scale p.

(** [infotext] *)
Definition infotext (p : Processing) : result string := create_infotext p.

(** [write_params_txt] *)
Definition write_params_txt (p : Processing) : M unit :=
  let* infotext := lift (infotext p) in
  let params_txt := Str.path_under data_path "params.txt" in
  call (write_text params_txt infotext) (EvWriteText params_txt infotext).

(** The set comprehension of [script_filter]: every comma-separated piece
    of [ad_script_names], as written and stripped. *)
Definition script_names (ad_script_names : string) : gset string :=
  list_to_set
    (flat_map (fun script_name => [script_name; Str.strip script_name])
              (Str.split "," ad_script_names)).

(** [script_filter]: the job's runner is a shallow copy of the parent's,
    so the parent's list of always-on scripts is left as it was. *)
Definition script_filter (p : Processing) (args : ADetailerArgs)
  : result (option ScriptRunner) :=
  let script_runner := scripts p in
  let ad_only_seleted_scripts := opts_get "ad_only_seleted_scripts" (PyBool true) in
  if negb (truthy ad_only_seleted_scripts) then Ok script_runner
  else
    let default_names :=
      "dynamic_prompting,dynamic_thresholding,wildcards,wildcard_recursive" in
    match opts_get "ad_script_names" (PyStr default_names) with
    | PyStr ad_script_names =>
        let script_names_set := script_names ad_script_names in
        let script_names_set :=
          if negb (String.eqb (ad_controlnet_model args) "None")
          then {["controlnet"]} ∪ script_names_set
          else script_names_set in
        match script_runner with
        | Some runner =>
            let filtered_alwayson :=
              List.filter
                (fun script_object =>
                   let filepath := filename script_object in
                   let filename := Str.path_stem filepath in
                   bool_decide (filename ∈ script_names_set))
                (alwayson_scripts runner) in
            Ok (Some {| alwayson_scripts := filtered_alwayson |})
        | None =>
            Raise (Exn CAttributeError
                     (Lit "'NoneType' object has no attribute 'alwayson_scripts'"))
        end
    | _ => Raise (Exn CAttributeError (Lit "object has no attribute 'split'"))
    end.

(** [self.controlnet_ext.init_controlnet()] on the object held in
    [self.controlnet_ext] *)
Definition run_init_controlnet : M unit := fun st =>
  match st_cn st with
  | Some c =>
      let '((r, c'), e) := init_controlnet c (st_ext st) in
      (r, {| st_p := st_p st; st_image := st_image st; st_cn := Some c';
             st_ext := e; st_trace := st_trace st |})
  | None =>
      raise (Exn CAttributeError
               (Lit "'NoneType' object has no attribute 'init_controlnet'")) st
  end.

(** [init_controlnet_ext]; [ControlNetExt()] starts out unavailable. *)
Definition init_controlnet_ext : M unit :=
  let* cn := get_cn in
  match cn with
  | Some _ => ret tt
  | None =>
      put_cn (Some {| cn_available := false |}) ;;
      if controlnet_exists then
        try_except run_init_controlnet CImportError
          (fun e =>
             let error := Traceback (exn_class e) (exn_msg e) in
             print_stderr
               (Cat (Lit ("[-] ADetailer: ControlNetExt init failed:" +:+ nl)) error))
      else ret tt
  end.

(** [update_controlnet_args], returning the job it was given after the
    extension has worked on it. *)
Definition update_controlnet_args (p : Processing) (args : ADetailerArgs)
  : M Processing :=
  let* cn := get_cn in
  (match cn with None => init_controlnet_ext | Some _ => ret tt end) ;;
  let* cn := get_cn in
  match cn with
  | Some c =>
      if cn_available c && negb (String.eqb (ad_controlnet_model args) "None")
      then
        let* script_args' :=
          call_silent
            (update_scripts_args c (script_args p) (ad_controlnet_model args)
               (ad_controlnet_weight args)) in
        ret (set_script_args script_args' p)
      else ret p
  | None => ret p
  end.

(** [get_i2i_p].  The attributes the constructor of
    [StableDiffusionProcessingImg2Img] is not given start at its defaults:
    no per-image lists, no scripts, [image_mask] equal to [mask]. *)
Definition get_i2i_p (p : Processing) (args : ADetailerArgs) (image : Image)
  : M Processing :=
  let* '(prompt_, negative_prompt_) := lift (get_prompt p args) in
  let* '(seed_, subseed_) := lift (get_seed p) in
  let '(width_, height_) := get_width_height p args in
  let steps_ := get_steps p args in
  let cfg_scale_ := get_cfg_scale p args in
  let sampler_name_ := sampler_name p in
  let sampler_name_ :=
    if bool_decide (sampler_name_ ∈ ["PLMS"; "UniPC"]) then "Euler"
    else sampler_name_ in
  let i2i :=
    {| init_images := [image];
       resize_mode := 0;
       denoising_strength := Some (ad_denoising_strength args);
       mask := None;
       mask_blur := ad_mask_blur args;
       inpainting_fill := 1;
       inpaint_full_res := ad_inpaint_full_res args;
       inpaint_full_res_padding := ad_inpaint_full_res_padding args;
       inpainting_mask_invert := 0;
       sd_model := sd_model p;
       outpath_samples := outpath_samples p;
       outpath_grids := outpath_grids p;
       prompt := prompt_;
       negative_prompt := negative_prompt_;
       styles := styles p;
       seed := seed_;
       subseed := subseed_;
       subseed_strength := subseed_strength p;
       seed_resize_from_h := seed_resize_from_h p;
       seed_resize_from_w := seed_resize_from_w p;
       sampler_name := sampler_name_;
       batch_size := 1;
       n_iter := 1;
       steps := steps_;
       cfg_scale := cfg_scale_;
       width := width_;
       height := height_;
       tiling := tiling p;
       extra_generation_params := extra_generation_params p;
       do_not_save_samples := true;
       do_not_save_grid := true;
       all_prompts := None;
       all_negative_prompts := None;
       all_seeds := None;
       all_subseeds := None;
       scripts := None;
       script_args := None;
       image_mask := None;
       _disable_adetailer := None;
       _idx := None |} in
  let* script_runner := lift (script_filter p args) in
  let i2i := set_scripts script_runner i2i in
  let i2i := set_script_args (script_args p) i2i in
  let i2i := set_disable_adetailer (Some true) i2i in
  if negb (String.eqb (ad_controlnet_model args) "None")
  then update_controlnet_args i2i args
  else ret i2i.

(** [save_image] *)
Definition save_image (p : Processing) (image : option Image)
    (condition : string) (suffix : string) : M unit :=
  let* i := lift (read_idx p) in
  let* '(seed_, _) := lift (get_seed p) in
  if truthy (opts_get condition (PyBool false)) then
    let* prompt_ :=
      lift (let? n := len_opt (all_prompts p) in
            if i <? n then getitem (default [] (all_prompts p)) i
            else Ok (prompt p)) in
    let* info := lift (infotext p) in
    let kwargs :=
      {| sv_image := image;
         sv_path := outpath_samples p;
         sv_basename := EmptyString;
         sv_seed := seed_;
         sv_prompt := prompt_;
         sv_extension := opts_samples_format;
         sv_info := info;
         sv_suffix := suffix |} in
    call (images_save_image kwargs) (EvSaveImage kwargs)
  else ret tt.

(** [get_ad_model] *)
Definition get_ad_model (name : string) : result string :=
  if negb (dict_contains model_mapping name) then
    let msg :=
      Cat (Lit "[-] ADetailer: Model ")
          (Cat (Repr (PyStr name))
               (Cat (Lit " not found. Available models: ")
                    (Str (PyList (map PyStr (dict_keys model_mapping)))))) in
    Raise (Exn CValueError msg)
  else
    match dict_get model_mapping name with
    | Some path => Ok path
    | None => Raise (Exn CKeyError (Repr (PyStr name)))
    end.

(** [getattr(p, "_disable_adetailer", False)] as a condition *)
Definition adetailer_disabled (p : Processing) : bool :=
  default false (_disable_adetailer p).

(** [process] *)
Definition process (args_ : list pyval) : M unit :=
  let* p := get_p in
  if adetailer_disabled p then ret tt
  else
    let* enabled := lift (is_ad_enabled args_) in
    if enabled then
      let* arg_list := lift (get_args args_) in
      let extra_params_ := extra_params arg_list in
      put_p (set_extra_generation_params
               (extra_params_ ∪ extra_generation_params p) p)
    else ret tt.

(** [self.ultralytics_device], set once in [__init__] *)
Definition ultralytics_device : string :=
  get_ultralytics_device platform_system cmd_opts.

(** [range(n)] *)
Definition range (n : nat) : list Z := map Z.of_nat (seq 0 n).

(** The [for j in range(steps)] loop of [_postprocess_image], over the
    indices still to come; [p2] and [processed] are the loop's variables.
    Each round ends with [p2 = copy(i2i)]: the next job starts from the
    built job again, so nothing the engine did to the job it was handed
    reaches the next call. *)
Fixpoint mask_loop (i2i : Processing) (seed_ subseed_ : Z) (masks_ : list Image)
    (js : list Z) (p2 : Processing) (processed : option Processed)
  : M (option Processed) :=
  match js with
  | [] => ret processed
  | j :: js' =>
      let* m := lift (getitem masks_ j) in
      let p2 := set_image_mask (Some m) p2 in
      let* processed := call (process_images p2) (EvProcessImages p2) in
      let p2 := i2i in
      let* image0 := lift (getitem (images processed) 0) in
      let p2 := set_init_images [image0] p2 in
      let p2 := set_seed (seed_ + j + 1) p2 in
      let p2 := set_subseed (subseed_ + j + 1) p2 in
      mask_loop i2i seed_ subseed_ masks_ js' p2 (Some processed)
  end.

(** [_postprocess_image]: [True] if the image was processed. *)
Definition _postprocess_image (args : ADetailerArgs) (n : Z) : M bool :=
  let* p := get_p in
  let* i := lift (read_idx p) in
  let* image := get_image in
  let* i2i := get_i2i_p p args image in
  let* '(seed_, subseed_) := lift (get_seed p) in
  let is_mediapipe := Str.startswith (Str.lower (ad_model args)) "mediapipe" in
  let* pred :=
    if is_mediapipe then
      call (mediapipe_predict (ad_model args) image (ad_conf args))
           (EvMediapipe (ad_model args) image (ad_conf args))
    else
      let* ad_model_ := lift (get_ad_model (ad_model args)) in
      call (ultralytics_predict ad_model_ image (ad_conf args) ultralytics_device)
           (EvUltralytics ad_model_ image (ad_conf args) ultralytics_device) in
  let masks_ := mask_preprocess (masks pred) in
  match masks_ with
  | [] =>
      print (Cat (Lit "[-] ADetailer: nothing detected on image ")
                 (Cat (Str (PyInt (i + 1)))
                      (Lit (" with " +:+ ordinal (n + 1) +:+ " settings.")))) ;;
      ret false
  | _ :: _ =>
      save_image p (preview pred) "ad_save_previews"
                 ("-ad-preview" +:+ suffix n "-") ;;
      let steps_ := length masks_ in
      (if is_mediapipe then
         print (Cat (Lit "mediapipe: ")
                    (Cat (Str (PyInt (Z.of_nat steps_))) (Lit " detected.")))
       else ret tt) ;;
      let p2 := i2i in
      let* processed := mask_loop i2i seed_ subseed_ masks_ (range steps_) p2 None in
      match processed with
      | Some processed =>
          let* image0 := lift (getitem (images processed) 0) in
          put_image image0 ;;
          ret true
      | None => ret false
      end
  end.

(** The [for n, args in enumerate(arg_list)] loop of [postprocess_image],
    from index [n] on. *)
Fixpoint stage_loop (n : Z) (arg_list : list ADetailerArgs) (is_processed : bool)
  : M bool :=
  match arg_list with
  | [] => ret is_processed
  | args :: rest =>
      if String.eqb (ad_model args) "None" then stage_loop (n + 1) rest is_processed
      else
        let* done_ := _postprocess_image args n in
        stage_loop (n + 1) rest (is_processed || done_)
  end.

(** [postprocess_image] *)
Definition postprocess_image (args_ : list pyval) : M unit :=
  let* p := get_p in
  if adetailer_disabled p then ret tt
  else
    let* enabled := lift (is_ad_enabled args_) in
    if negb enabled then ret tt
    else
      put_p (set_idx (Some (default (-1) (_idx p) + 1)) p) ;;
      let* init_image := get_image in
      let* arg_list := lift (get_args args_) in
      let* is_processed := stage_loop 0 arg_list false in
      (if is_processed then
         let* p := get_p in
         save_image p (Some init_image) "ad_save_images_before" "-ad-before"
       else ret tt) ;;
      try_except
        (let* p := get_p in
         let* i := lift (read_idx p) in
         let* n := lift (len_opt (all_prompts p)) in
         if i =? n - 1 then write_params_txt p else ret tt)
        CException
        (fun _ => ret tt).

End Script.

(** ** The UI: state handlers, widgets and settings

    The state of one tab is a [dict] from attribute names to widget
    values; both handlers change it in place and return it. *)

Section Handlers.
Context `{Host}.

(** [d[k] = v] on a [dict] kept as an insertion-ordered association list:
    a key that is already there keeps its place, a new one goes last. *)
Fixpoint dict_set {A} (d : list (string * A)) (k : string) (v : A)
  : list (string * A) :=
  match d with
  | [] => [(k, v)]
  | (k', v') :: d' =>
      if String.eqb k' k then (k', v) :: d' else (k', v') :: dict_set d' k v
  end.

(** [on_widget_change] *)
Definition on_widget_change (state : list (string * pyval)) (value : pyval)
    (attr : string) : list (string * pyval) :=
  dict_set state attr value.

(** The [for attr, value in zip(attrs, values)] loop of
    [on_generate_click]: [zip] stops at the shorter of the two. *)
Fixpoint on_generate_click_from (attrs : list string) (values : list pyval)
    (state : list (string * pyval)) : list (string * pyval) :=
  match attrs, values with
  | attr :: attrs', value :: values' =>
      on_generate_click_from attrs' values' (dict_set state attr value)
  | _, _ => state
  end.

(** [on_generate_click] *)
Definition on_generate_click (state : list (string * pyval))
    (values : list pyval) : list (string * pyval) :=
  on_generate_click_from ALL_ARGS_attrs values state.

(** The list comprehension of [Widgets.tolist], over the attribute names
    still to come: the widgets are attributes of the object [w], read by
    name; a missing one is an AttributeError. *)
Fixpoint tolist_from {W} (attrs : list string) (w : list (string * W))
  : result (list W) :=
  match attrs with
  | [] => Ok []
  | attr :: rest =>
      match dict_get w attr with
      | Some widget =>
          let? widgets := tolist_from rest w in
          Ok (widget :: widgets)
      | None =>
          Raise (Exn CAttributeError
                   (Lit ("'Widgets' object has no attribute '" +:+ attr +:+ "'")))
      end
  end.

(** [Widgets.tolist] *)
Definition tolist {W} (w : list (string * W)) : result (list W) :=
  tolist_from ALL_ARGS_attrs w.

(** [num_models] of [ui]: the number of tabs *)
Definition ui_num_models : pyval := opts_get "ad_max_models" (PyInt 2).

(** [shared.OptionInfo], as far as [on_ui_settings] fills it in: the
    default and the label. *)
Record OptionInfo : Type := { oi_default : pyval; oi_label : string }.

(** [on_ui_settings], on the host's table of registered options:
    [shared.opts.add_option(key, info)] stores [info] under [key]. *)
Definition on_ui_settings (data_labels : list (string * OptionInfo))
  : list (string * OptionInfo) :=
  let data_labels :=
    dict_set data_labels "ad_max_models"
      {| oi_default := PyInt 2; oi_label := "Max models" |} in
  let data_labels :=
    dict_set data_labels "ad_save_previews"
      {| oi_default := PyBool false; oi_label := "Save mask previews" |} in
  let data_labels :=
    dict_set data_labels "ad_save_images_before"
      {| oi_default := PyBool false; oi_label := "Save images before ADetailer" |} in
  let data_labels :=
    dict_set data_labels "ad_only_seleted_scripts"
      {| oi_default := PyBool true;
         oi_label := "Apply only selected scripts to ADetailer" |} in
  dict_set data_labels "ad_script_names"
    {| oi_default :=
         PyStr "dynamic_prompting,dynamic_thresholding,wildcards,wildcard_recursive";
       oi_label := "Script names to apply to ADetailer (separated by comma)" |}.

End Handlers.

(** The host [h] after the user has saved the options [o]: [opts.data]
    is replaced, everything else stays. *)
Definition with_opts_data `{HostTypes} (h : Host) (o : gmap string pyval) : Host :=
  {| model_mapping := model_mapping (Host := h);
     opts_data := o;
     opts_samples_format := opts_samples_format (Host := h);
     cmd_opts := cmd_opts (Host := h);
     platform_system := platform_system (Host := h);
     data_path := data_path (Host := h);
     controlnet_exists := controlnet_exists (Host := h);
     version := version (Host := h);
     ALL_ARGS_attrs := ALL_ARGS_attrs (Host := h);
     enable_check := enable_check (Host := h);
     ADetailerArgs_init := ADetailerArgs_init (Host := h);
     args_extra_params := args_extra_params (Host := h);
     mediapipe_predict := mediapipe_predict (Host := h);
     ultralytics_predict := ultralytics_predict (Host := h);
     mask_preprocess := mask_preprocess (Host := h);
     init_controlnet := init_controlnet (Host := h);
     update_scripts_args := update_scripts_args (Host := h);
     process_images := process_images (Host := h);
     create_infotext := create_infotext (Host := h);
     images_save_image := images_save_image (Host := h);
     write_text := write_text (Host := h) |}.

(** ** Reading a trace *)

Section Traces.
Context `{HostTypes}.

(** The calls to the regeneration engine, in order, with their outcomes. *)
Definition engine_calls (tr : list event) : list (Processing * result Processed) :=
  omap (fun ev => match ev with
                  | EvProcessImages job out => Some (job, out)
                  | _ => None
                  end) tr.

(** The jobs handed to the regeneration engine, in order. *)
Definition engine_jobs (tr : list event) : list Processing :=
  (engine_calls tr).*1.

(** The detector calls, in order: the image looked at and the outcome. *)
Definition detections (tr : list event) : list (Image * result PredictOutput) :=
  omap (fun ev => match ev with
                  | EvMediapipe _ image _ out => Some (image, out)
                  | EvUltralytics _ image _ _ out => Some (image, out)
                  | _ => None
                  end) tr.

(** The lines printed on standard output, in order. *)
Definition stdout_lines (tr : list event) : list text :=
  omap (fun ev => match ev with
                  | EvPrint false t => Some t
                  | _ => None
                  end) tr.

(** The [images.save_image] calls, in order. *)
Definition saved_images (tr : list event) : list SaveImage :=
  omap (fun ev => match ev with
                  | EvSaveImage kwargs _ => Some kwargs
                  | _ => None
                  end) tr.

(** Detector and engine calls are the core of a run; prints and saved
    files are diagnostics. *)
Definition is_core (ev : event) : bool :=
  match ev with
  | EvMediapipe _ _ _ _ | EvUltralytics _ _ _ _ _ | EvProcessImages _ _ => true
  | _ => false
  end.
Definition core (tr : list event) : list event := List.filter is_core tr.

(** The first image of an engine outcome, [processed.images[0]]. *)
Definition output_image (out : result Processed) : option Image :=
  match out with
  | Ok r => head (images r)
  | Raise _ => None
  end.

End Traces.

(** ** A small host to run the script on

    Images are numbers, the detectors answer by model name, the engine
    paints the mask number into the image number; the outside world counts
    the calls made to it. *)

Module Demo.

#[export] Instance types : HostTypes :=
  {| Image := Z; PyFloat := Z; SdModel := unit; Ext := nat |}.

Definition str_field (d : list (string * pyval)) (k : string) (dflt : string)
  : string :=
  match dict_get d k with
  | Some (PyStr s) => s
  | _ => dflt
  end.

Definition args_of_dict (d : list (string * pyval)) : ADetailerArgs :=
  {| ad_model := str_field d "ad_model" "None";
     ad_prompt := str_field d "ad_prompt" EmptyString;
     ad_negative_prompt := str_field d "ad_negative_prompt" EmptyString;
     ad_conf := 30;
     ad_dilate_erode := 32;
     ad_x_offset := 0;
     ad_y_offset := 0;
     ad_mask_blur := 4;
     ad_denoising_strength := 40;
     ad_inpaint_full_res := true;
     ad_inpaint_full_res_padding := 0;
     ad_use_inpaint_width_height := false;
     ad_inpaint_width := 512;
     ad_inpaint_height := 512;
     ad_use_steps := false;
     ad_steps := 28;
     ad_use_cfg_scale := false;
     ad_cfg_scale := 7;
     ad_controlnet_model := str_field d "ad_controlnet_model" "None";
     ad_controlnet_weight := 100 |}.

(** The mediapipe backend finds two regions (and one empty mask, which
    [mask_preprocess] drops); the face model finds one; every other model
    finds nothing. *)
Definition detect_mediapipe (image : Z) : PredictOutput :=
  {| masks := [image + 1; 0; image + 2]; preview := Some (image + 9) |}.
Definition detect_ultralytics (path : string) (image : Z) : PredictOutput :=
  if String.eqb path "/models/adetailer/face_yolov8n.pt"
  then {| masks := [image + 7]; preview := Some (image + 9) |}
  else {| masks := []; preview := None |}.

Definition paint (job : Processing) : Processed :=
  {| images := [10 * List.hd 0 (init_images job) + default 0 (image_mask job)] |}.

#[export] Instance host (opts : gmap string pyval) : Host :=
  {| model_mapping :=
       [("face_yolov8n.pt", "/models/adetailer/face_yolov8n.pt");
        ("hand_yolov8n.pt", "/models/adetailer/hand_yolov8n.pt")];
     opts_data := opts;
     opts_samples_format := "png";
     cmd_opts := ∅;
     platform_system := "Linux";
     data_path := "/data";
     controlnet_exists := true;
     version := "23.6.2";
     ALL_ARGS_attrs := ["ad_model"; "ad_prompt"; "ad_negative_prompt"];
     enable_check args_ :=
       Ok (match args_ with PyBool b :: _ => b | _ => true end);
     ADetailerArgs_init d := Ok (args_of_dict d);
     args_extra_params a sfx := {[ "ADetailer model" +:+ sfx := PyStr (ad_model a) ]};
     mediapipe_predict _ image _ e := (Ok (detect_mediapipe image), S e);
     ultralytics_predict path image _ _ e := (Ok (detect_ultralytics path image), S e);
     mask_preprocess ms := List.filter (fun m => negb (m =? 0)) ms;
     init_controlnet _ e := ((Ok tt, {| cn_available := true |}), S e);
     update_scripts_args _ script_args_ _ _ e := (Ok script_args_, S e);
     process_images job e := (Ok (paint job), S e);
     create_infotext p := Ok (prompt p);
     images_save_image _ e := (Ok tt, S e);
     write_text _ _ e := (Ok tt, S e) |}.

(** A txt2img parent job in a batch of three prompts and seeds. *)
Definition parent : Processing :=
  {| prompt := "a portrait";
     negative_prompt := "blurry";
     all_prompts := Some ["a portrait"; "a portrait, smiling"; "a portrait, profile"];
     all_negative_prompts := Some ["blurry"; "blurry"; "blurry"];
     seed := 1000;
     subseed := 2000;
     all_seeds := Some [1000; 1001; 1002];
     all_subseeds := Some [2000; 2001; 2002];
     subseed_strength := 0;
     seed_resize_from_h := 0;
     seed_resize_from_w := 0;
     sampler_name := "UniPC";
     batch_size := 1;
     n_iter := 3;
     steps := 20;
     cfg_scale := 7;
     width := 512;
     height := 768;
     tiling := false;
     styles := [];
     sd_model := tt;
     outpath_samples := "outputs/txt2img-images";
     outpath_grids := "outputs/txt2img-grids";
     extra_generation_params := ∅;
     do_not_save_samples := false;
     do_not_save_grid := false;
     scripts :=
       Some {| alwayson_scripts :=
                 [ {| filename := "/ext/dynamic-prompts/scripts/dynamic_prompting.py" |};
                   {| filename := "/ext/wildcards/scripts/wildcards.py" |};
                   {| filename := "/ext/adetailer/scripts/!adetailer.py" |};
                   {| filename := "/ext/sd-webui-controlnet/scripts/controlnet.py" |} ] |};
     script_args := Some [PyBool true];
     init_images := [];
     resize_mode := 0;
     denoising_strength := None;
     mask := None;
     image_mask := None;
     mask_blur := 0;
     inpainting_fill := 0;
     inpaint_full_res := false;
     inpaint_full_res_padding := 0;
     inpainting_mask_invert := 0;
     _disable_adetailer := None;
     _idx := None |}.

Definition start (p : Processing) (image : Z) : State :=
  {| st_p := p; st_image := image; st_cn := None; st_ext := 0%nat; st_trace := [] |}.

(** The UI state of two stages: mediapipe first, then the face model. *)
Definition two_stages : list pyval :=
  [ PyBool true;
    PyDict [("ad_model", PyStr "mediapipe_face_full")];
    PyDict [("ad_model", PyStr "face_yolov8n.pt")] ].

(** Two stages whose detectors find nothing. *)
Definition empty_stages : list pyval :=
  [ PyBool true;
    PyDict [("ad_model", PyStr "hand_yolov8n.pt")];
    PyDict [("ad_model", PyStr "hand_yolov8n.pt"); ("ad_prompt", PyStr "a hand")] ].

(** The parent job while image number [i] of the batch is post-processed. *)
Definition parent_at (i : Z) : Processing := set_idx (Some i) parent.

(** A parent job on a host without the wildcards extension. *)
Definition parent_without_wildcards : Processing :=
  set_scripts
    (Some {| alwayson_scripts :=
               [ {| filename := "/ext/dynamic-prompts/scripts/dynamic_prompting.py" |};
                 {| filename := "/ext/adetailer/scripts/!adetailer.py" |};
                 {| filename := "/ext/sd-webui-controlnet/scripts/controlnet.py" |} ] |})
    (parent_at 0).

(** [opts.data] with the allow-list reduced to the wildcards script. *)
Definition wildcards_only : gmap string pyval :=
  {[ "ad_script_names" := PyStr "wildcards" ]}.

Definition mediapipe_stage : ADetailerArgs :=
  args_of_dict [("ad_model", PyStr "mediapipe_face_full")].

Definition face_stage : ADetailerArgs :=
  args_of_dict [("ad_model", PyStr "face_yolov8n.pt")].

Definition controlnet_stage : ADetailerArgs :=
  args_of_dict [("ad_model", PyStr "face_yolov8n.pt");
                ("ad_controlnet_model", PyStr "control_v11p_sd15_inpaint")].

Definition unknown_stage : ADetailerArgs :=
  args_of_dict [("ad_model", PyStr "eyes_yolov8n.pt")].

(** The job built for image 5 of the batch (the list of three prompts is
    read at 5 mod 3 = 2), on the default options. *)
Definition build5 : result Processing * State :=
  get_i2i_p (H0 := host ∅) (parent_at 5) mediapipe_stage 5 (start (parent_at 5) 5).
Definition job5 : Processing :=
  match build5.1 with
  | Ok job => job
  | Raise _ => parent
  end.

(** The job built for a stage with a ControlNet model, under the
    allow-list "wildcards": on the usual parent, and on the parent of a
    host without the wildcards extension. *)
Definition build_cn (p : Processing) : result Processing * State :=
  get_i2i_p (H0 := host wildcards_only) p controlnet_stage 5 (start p 5).
Definition job_cn (p : Processing) : Processing :=
  match (build_cn p).1 with
  | Ok job => job
  | Raise _ => parent
  end.

(** One stage on image 1 of the batch; the whole pipeline on two stages
    that detect two masks and one; the pipeline on stages that detect
    nothing; a stage whose model is not registered. *)
Definition stage_run1 : result bool * State :=
  _postprocess_image (H0 := host ∅) mediapipe_stage 0 (start (parent_at 1) 5).
Definition pipeline_two : result unit * State :=
  postprocess_image (H0 := host ∅) two_stages (start parent 5).
Definition pipeline_empty : result unit * State :=
  postprocess_image (H0 := host ∅) empty_stages (start parent 5).
Definition stage_unknown : result bool * State :=
  _postprocess_image (H0 := host ∅) unknown_stage 0 (start (parent_at 0) 5).

End Demo.

(** ** Vocabulary of the properties *)

Section Vocabulary.
Context `{Host}.

(** The names of the always-on scripts active on a job: the stems of
    their files, as [script_filter] reads them. *)
Definition active_extensions (job : Processing) : gset string :=
  match scripts job with
  | Some runner =>
      list_to_set (map (fun s => Str.path_stem (filename s)) (alwayson_scripts runner))
  | None => ∅
  end.

(** [print(..., file=sys.stderr)] events *)
Definition is_stderr_print (ev : event) : Prop :=
  match ev with
  | EvPrint true _ => True
  | _ => False
  end.

(** A stretch of a run that leaves the parent job and the working image
    alone and adds nothing to the trace but messages on [stderr]. *)
Definition quiet (st st' : State) : Prop :=
  st_p st' = st_p st /\ st_image st' = st_image st /\
  exists pre, st_trace st' = st_trace st ++ pre /\ Forall is_stderr_print pre.

(** A job [get_i2i_p] can return for the parent [p], the stage [args] and
    the working image [image]. *)
Definition built (p : Processing) (args : ADetailerArgs) (image : Image)
    (job : Processing) : Prop :=
  exists st st', get_i2i_p p args image st = (Ok job, st').

(** The job the mask loop hands to the engine for mask number [j]: the
    built job [i2i] with that mask, the current working image and the
    seeds advanced by [j]. *)
Definition job_for (i2i : Processing) (seed_ subseed_ : Z)
    (images_in : list Image) (m : Image) (j : Z) : Processing :=
  set_image_mask (Some m)
    (set_subseed (subseed_ + j)
       (set_seed (seed_ + j) (set_init_images images_in i2i))).

(** A run of engine calls over the masks from number [j] on, starting
    from the images [images_in]: each call gets the job for its mask, works
    on the first image the call before it returned, and a call that fails
    or returns no image is the last. *)
Fixpoint chain (i2i : Processing) (seed_ subseed_ : Z) (masks_ : list Image)
    (j : nat) (images_in : list Image)
    (calls : list (Processing * result Processed)) : Prop :=
  match calls with
  | [] => True
  | (job, out) :: rest =>
      (exists m, masks_ !! j = Some m /\
                 job = job_for i2i seed_ subseed_ images_in m (Z.of_nat j)) /\
      match output_image out with
      | Some image => chain i2i seed_ subseed_ masks_ (S j) [image] rest
      | None => rest = []
      end
  end.

(** The events of a list of engine calls. *)
Definition engine_events (calls : list (Processing * result Processed))
  : list event :=
  map (fun c => EvProcessImages c.1 c.2) calls.

(** The image the working image has become after the calls: the output
    of the last one. *)
Definition final_image (image : Image)
    (calls : list (Processing * result Processed)) : Image :=
  match last calls with
  | Some (_, out) => default image (output_image out)
  | None => image
  end.

(** The jobs the script hands to the engine for the stage [args] of the
    parent [p]: a job [get_i2i_p] built, or such a job as the mask loop
    passes it on, with a mask, a working image and advanced seeds. *)
Definition regeneration_job (p : Processing) (args : ADetailerArgs)
    (job : Processing) : Prop :=
  exists image i2i,
    built p args image i2i /\
    (job = i2i \/
     exists seed_ subseed_ images_in m j,
       job = job_for i2i seed_ subseed_ images_in m j).

(** [ev] is the detector call of the stage [args] on [image], with
    outcome [out]: the mediapipe backend under the model's own name, or the
    generic backend with the registered model file and the selected
    device. *)
Definition is_detection (args : ADetailerArgs) (image : Image)
    (out : result PredictOutput) (ev : event) : Prop :=
  match ev with
  | EvMediapipe model image' conf out' =>
      Str.startswith (Str.lower (ad_model args)) "mediapipe" = true /\
      model = ad_model args /\ image' = image /\ conf = ad_conf args /\ out' = out
  | EvUltralytics path image' conf device out' =>
      Str.startswith (Str.lower (ad_model args)) "mediapipe" = false /\
      dict_get model_mapping (ad_model args) = Some path /\
      image' = image /\ conf = ad_conf args /\ device = ultralytics_device /\
      out' = out
  | _ => False
  end.

(** An engine call that returned an image. *)
Definition call_ok (c : Processing * result Processed) : Prop :=
  is_Some (output_image c.2).

(** The ways one stage ([_postprocess_image] for the stage [args], parent
    job [p], working image [image]) can go, as its outcome, the working
    image it leaves, and the events it adds:
    - it raises before the detector is called;
    - the detector raises;
    - the detector finds nothing: one line is printed and the stage
      returns [False];
    - the detector finds masks: diagnostics (the preview, a line for the
      mediapipe backend), then the chain of engine calls. *)
Inductive stage_shape (args : ADetailerArgs) (p : Processing) (image : Image)
  : result bool -> Image -> list event -> Prop :=
| stage_aborted e pre :
    Forall is_stderr_print pre ->
    stage_shape args p image (Raise e) image pre
| stage_detector_failed e pre d :
    Forall is_stderr_print pre ->
    is_detection args image (Raise e) d ->
    stage_shape args p image (Raise e) image (pre ++ [d])
| stage_nothing_detected pre d pred msg :
    Forall is_stderr_print pre ->
    is_detection args image (Ok pred) d ->
    mask_preprocess (masks pred) = [] ->
    stage_shape args p image (Ok false) image (pre ++ [d; EvPrint false msg])
| stage_regenerating res final pre d pred diag i2i seed_ subseed_ calls :
    Forall is_stderr_print pre ->
    is_detection args image (Ok pred) d ->
    mask_preprocess (masks pred) <> [] ->
    core diag = [] ->
    built p args image i2i ->
    get_seed p = Ok (seed_, subseed_) ->
    chain i2i seed_ subseed_ (mask_preprocess (masks pred)) 0 [image] calls ->
    (length calls <= length (mask_preprocess (masks pred)))%nat ->
    (forall b, res = Ok b ->
       b = true /\ length calls = length (mask_preprocess (masks pred)) /\
       Forall call_ok calls /\ final = final_image image calls) ->
    (forall e, res = Raise e -> final = image) ->
    stage_shape args p image res final (pre ++ d :: diag ++ engine_events calls).

(** A detector call that came back with nothing usable: the processed
    mask sequence is empty. *)
Definition empty_detection (d : Image * result PredictOutput) : Prop :=
  exists pred, d.2 = Ok pred /\ mask_preprocess (masks pred) = [].

(** The stages [postprocess_image] runs: those whose model is not the
    "None" sentinel. *)
Definition active_stages (arg_list : list ADetailerArgs) : list ADetailerArgs :=
  List.filter (fun args => negb (String.eqb (ad_model args) "None")) arg_list.

(** The state [postprocess_image] starts its stages from: the image
    counter of the parent job moved on by one. *)
Definition next_image (st : State) : State :=
  {| st_p := set_idx (Some (default (-1) (_idx (st_p st)) + 1)) (st_p st);
     st_image := st_image st; st_cn := st_cn st; st_ext := st_ext st;
     st_trace := st_trace st |}.

End Vocabulary.

(** ** Vocabulary of the properties of a whole run *)

Section RunVocabulary.
Context `{Host}.

(** The job of the stage [args] can be built for the parent job [p]:
    [get_i2i_p] returns, on whatever image and from whatever state. *)
Definition can_be_built (p : Processing) (args : ADetailerArgs) : Prop :=
  forall image st, exists job st', get_i2i_p p args image st = (Ok job, st').

(** Detection for the stage [args] on [image] yields an empty mask
    sequence: the backend the model name selects (for the generic backend,
    with the file the registry holds for the model and the device of the
    script) answers, whatever the state of the outside world, and no mask
    is left once its masks are processed. *)
Definition finds_nothing (args : ADetailerArgs) (image : Image) : Prop :=
  forall e,
    if Str.startswith (Str.lower (ad_model args)) "mediapipe" then
      exists pred e',
        mediapipe_predict (ad_model args) image (ad_conf args) e = (Ok pred, e') /\
        mask_preprocess (masks pred) = []
    else
      exists path pred e',
        dict_get model_mapping (ad_model args) = Some path /\
        ultralytics_predict path image (ad_conf args) ultralytics_device e
          = (Ok pred, e') /\
        mask_preprocess (masks pred) = [].

(** The detector or engine call [ev] raised [e]. *)
Definition failed (ev : event) (e : exn) : Prop :=
  match ev with
  | EvMediapipe _ _ _ out | EvUltralytics _ _ _ _ out => out = Raise e
  | EvProcessImages _ out => out = Raise e
  | _ => False
  end.

(** [kw] are the keyword arguments [save_image] passes on for the job
    [p], the image [image] and the suffix [sfx], which it does only when
    the option [condition] is set. *)
Definition save_call (p : Processing) (image : option Image)
    (condition sfx : string) (kw : SaveImage) : Prop :=
  truthy (opts_get condition (PyBool false)) = true /\
  sv_image kw = image /\ sv_suffix kw = sfx /\
  sv_path kw = outpath_samples p /\ sv_basename kw = EmptyString /\
  sv_extension kw = opts_samples_format /\
  (exists subseed_, get_seed p = Ok (sv_seed kw, subseed_)) /\
  infotext p = Ok (sv_info kw).

(** The events the stages of [postprocess_image] and its snapshot of the
    image before the stages can leave, for the job [p], the image [image0]
    the run started from and the validated stages [arg_list]: messages,
    the detector call of a stage, engine calls, and the two kinds of saved
    images; never a file written. *)
Definition stage_event (p : Processing) (image0 : Image)
    (arg_list : list ADetailerArgs) (ev : event) : Prop :=
  match ev with
  | EvPrint _ _ => True
  | EvMediapipe _ _ _ _ | EvUltralytics _ _ _ _ _ =>
      exists args image out,
        args ∈ arg_list /\ ad_model args <> "None" /\
        is_detection args image out ev
  | EvProcessImages _ _ => True
  | EvSaveImage kw _ =>
      save_call p (Some image0) "ad_save_images_before" "-ad-before" kw \/
      exists n preview_,
        (n < length arg_list)%nat /\
        save_call p preview_ "ad_save_previews"
                  ("-ad-preview" +:+ suffix (Z.of_nat n) "-") kw
  | EvWriteText _ _ _ => False
  end.

(** An event of the kind [Pev] that fits the outcome [r] of the run it
    belongs to: no detector or engine call raised in a run that returned,
    and what such a call raised is what the run raised. *)
Definition fits {A} (Pev : event -> Prop) (r : result A) (ev : event) : Prop :=
  Pev ev /\
  match r with
  | Ok _ => forall e, ~ failed ev e
  | Raise e => forall e', failed ev e' -> e' = e
  end.

(** Every run of [m] from [st] adds to the trace only events that fit its
    outcome. *)
Definition traced {A} (Pev : event -> Prop) (m : M A) (st : State) : Prop :=
  forall r st',
    m st = (r, st') ->
    exists new, st_trace st' = st_trace st ++ new /\ Forall (fits Pev r) new.

(** The attributes of a regeneration job that depend on the parent job
    and the stage only: not on the image, the mask or the seeds. *)
Definition stage_settings (p : Processing) (args : ADetailerArgs)
    (job : Processing) : Prop :=
  (width job = (get_width_height p args).1 /\
   height job = (get_width_height p args).2 /\
   steps job = get_steps p args /\ cfg_scale job = get_cfg_scale p args) /\
  (denoising_strength job = Some (ad_denoising_strength args) /\
   mask_blur job = ad_mask_blur args /\
   inpaint_full_res job = ad_inpaint_full_res args /\
   inpaint_full_res_padding job = ad_inpaint_full_res_padding args) /\
  (batch_size job = 1 /\ n_iter job = 1 /\
   do_not_save_samples job = true /\ do_not_save_grid job = true /\
   resize_mode job = 0 /\ mask job = None /\ inpainting_fill job = 1 /\
   inpainting_mask_invert job = 0) /\
  (sd_model job = sd_model p /\ outpath_samples job = outpath_samples p /\
   outpath_grids job = outpath_grids p /\ styles job = styles p /\
   subseed_strength job = subseed_strength p /\
   seed_resize_from_h job = seed_resize_from_h p /\
   seed_resize_from_w job = seed_resize_from_w p /\ tiling job = tiling p /\
   extra_generation_params job = extra_generation_params p) /\
  (all_prompts job = None /\ all_negative_prompts job = None /\
   all_seeds job = None /\ all_subseeds job = None /\ _idx job = None).

End RunVocabulary.

(** ** More hosts and inputs to run the script on *)

Module Demo2.

(** The state of a tab before Generate is pressed, and after it was
    pressed with two widget values. *)
Definition tab_state : list (string * pyval) :=
  [("ad_prompt", PyStr "old"); ("is_api", PyBool false)].
Definition clicked : list (string * pyval) :=
  on_generate_click (H0 := Demo.host ∅) tab_state
    [PyStr "face_yolov8n.pt"; PyStr "new"].

(** The widgets of a tab, known by a number each, and the value each
    holds when Generate is pressed. *)
Definition widgets : list (string * nat) :=
  [("ad_negative_prompt", 3%nat); ("ad_model", 1%nat); ("ad_prompt", 2%nat)].
Definition value_of (widget : nat) : pyval := PyInt (Z.of_nat widget).

(** The first host with its options, its validation, its engine, the
    import of ControlNet and the file system replaced. *)
Definition variant (opts : gmap string pyval)
    (validate : list (string * pyval) -> result ADetailerArgs)
    (engine : Processing -> nat -> result Processed * nat)
    (import_cn : ControlNetExt -> nat -> (result unit * ControlNetExt) * nat)
    (write : string -> string -> nat -> result unit * nat)
  : Host (H := Demo.types) :=
  {| model_mapping := model_mapping (Host := Demo.host ∅);
     opts_data := opts;
     opts_samples_format := opts_samples_format (Host := Demo.host ∅);
     cmd_opts := cmd_opts (Host := Demo.host ∅);
     platform_system := platform_system (Host := Demo.host ∅);
     data_path := data_path (Host := Demo.host ∅);
     controlnet_exists := controlnet_exists (Host := Demo.host ∅);
     version := version (Host := Demo.host ∅);
     ALL_ARGS_attrs := ALL_ARGS_attrs (Host := Demo.host ∅);
     enable_check := enable_check (Host := Demo.host ∅);
     ADetailerArgs_init := validate;
     args_extra_params := args_extra_params (Host := Demo.host ∅);
     mediapipe_predict := mediapipe_predict (Host := Demo.host ∅);
     ultralytics_predict := ultralytics_predict (Host := Demo.host ∅);
     mask_preprocess := mask_preprocess (Host := Demo.host ∅);
     init_controlnet := import_cn;
     update_scripts_args := update_scripts_args (Host := Demo.host ∅);
     process_images := engine;
     create_infotext := create_infotext (Host := Demo.host ∅);
     images_save_image := images_save_image (Host := Demo.host ∅);
     write_text := write |}.

(** A host that saves previews and the image before the stages, whose
    validation wants a model name, whose ControlNet extension cannot be
    imported, and whose data directory cannot be written. *)
Definition strict_validate (d : list (string * pyval)) : result ADetailerArgs :=
  match dict_get d "ad_model" with
  | Some (PyStr _) => Ok (Demo.args_of_dict d)
  | _ => Raise (Exn CValidationError (Lit "ad_model: field required"))
  end.
Definition failing_import (c : ControlNetExt) (e : nat)
  : (result unit * ControlNetExt) * nat :=
  ((Raise (Exn CImportError (Lit "No module named 'scripts.external_code'")), c),
   S e).
Definition failing_write (path content : string) (e : nat) : result unit * nat :=
  (Raise (Exn (CExternal "PermissionError") (Lit path)), S e).
Definition strict_host : Host (H := Demo.types) :=
  variant {[ "ad_save_previews" := PyBool true;
             "ad_save_images_before" := PyBool true ]}
          strict_validate (process_images (Host := Demo.host ∅))
          failing_import failing_write.

(** A host whose engine runs out of memory on the mask number 7, the
    second mask of the mediapipe stage on the image 5. *)
Definition oom_engine (job : Processing (H := Demo.types)) (e : nat)
  : result Processed * nat :=
  if default 0 (image_mask job) =? 7
  then (Raise (Exn (CExternal "OutOfMemoryError") (Lit "CUDA out of memory")), S e)
  else (Ok (Demo.paint job), S e).
Definition oom_host : Host (H := Demo.types) :=
  variant ∅ (fun d => Ok (Demo.args_of_dict d)) oom_engine
          (init_controlnet (Host := Demo.host ∅)) (write_text (Host := Demo.host ∅)).

(** [process] on the two stages of the first host. *)
Definition process_two : result unit * State :=
  process (H0 := Demo.host ∅) Demo.two_stages (Demo.start Demo.parent 5).

(** The mediapipe stage and the whole pipeline on the host whose engine
    fails; the pipeline on the saving host, for the first and for the last
    image of the batch of three. *)
Definition stage_oom : result bool * State :=
  _postprocess_image (H0 := oom_host) Demo.mediapipe_stage 0
    (Demo.start (Demo.parent_at 1) 5).
Definition pipeline_oom : result unit * State :=
  postprocess_image (H0 := oom_host) Demo.two_stages (Demo.start Demo.parent 5).
Definition pipeline_last : result unit * State :=
  postprocess_image (H0 := strict_host) Demo.two_stages
    (Demo.start (Demo.parent_at 1) 5).

End Demo2.

(** * Properties *)

(** ** The helpers on small inputs *)

Example ordinal_examples :
  ordinal 1 = "1st" /\ ordinal 2 = "2nd" /\ ordinal 3 = "3rd" /\
  ordinal 4 = "4th" /\ ordinal 11 = "11th" /\ ordinal 112 = "112th" /\
  ordinal 21 = "21st" /\ suffix 0 " " = EmptyString /\ suffix 1 "-" = "-2nd".
Proof. vm_compute. repeat split. Qed.

Example string_examples :
  Str.split "," "a,,b" = ["a"; EmptyString; "b"] /\
  Str.split "," EmptyString = [EmptyString] /\
  Str.strip "  wild cards  " = "wild cards" /\
  Str.lower "MediaPipe_Face" = "mediapipe_face" /\
  Str.startswith "mediapipe_face" "mediapipe" = true /\
  Str.startswith "media" "mediapipe" = false.
Proof. vm_compute. repeat split. Qed.

Example path_stem_examples :
  Str.path_stem "/ext/scripts/wildcards.py" = "wildcards" /\
  Str.path_stem "scripts/!adetailer.py" = "!adetailer" /\
  Str.path_stem "a/b/.hidden" = ".hidden" /\
  Str.path_stem "a.tar.gz" = "a.tar" /\
  Str.path_stem "dir/name." = "name." /\
  Str.path_stem "dir/" = "dir".
Proof. vm_compute. repeat split. Qed.

Example path_under_examples :
  Str.path_under "/data" "params.txt" = "/data/params.txt" /\
  Str.path_under "/data/" "params.txt" = "/data/params.txt" /\
  Str.path_under "/srv//webui/./" "params.txt" = "/srv/webui/params.txt" /\
  Str.path_under "webui/.." "params.txt" = "webui/../params.txt" /\
  Str.path_under "//host/share" "params.txt" = "//host/share/params.txt" /\
  Str.path_under "///data" "params.txt" = "/data/params.txt" /\
  Str.path_under "/" "params.txt" = "/params.txt" /\
  Str.path_under "." "params.txt" = "params.txt" /\
  Str.path_under EmptyString "params.txt" = "params.txt".
Proof. repeat split; reflexivity. Qed.

Example getitem_examples :
  getitem [10; 20; 30] 2 = Ok 30 /\
  getitem [10; 20; 30] (-1) = Ok 30 /\
  getitem [10; 20; 30] (-3) = Ok 10 /\
  isinstance_exn (Exn CIndexError (Lit "list index out of range")) CLookupError = true /\
  (exists e, getitem [10; 20; 30] 3 = Raise e) /\
  (exists e, getitem [10; 20; 30] (-4) = Raise e).
Proof. vm_compute. repeat split; eexists; reflexivity. Qed.

Example script_names_default :
  script_names "dynamic_prompting, wildcards"
  = {[ "dynamic_prompting"; " wildcards"; "wildcards" ]}.
Proof.
  unfold script_names.
  change (Str.split "," "dynamic_prompting, wildcards")
    with ["dynamic_prompting"; " wildcards"].
  simpl flat_map.
  change (Str.strip "dynamic_prompting") with "dynamic_prompting".
  change (Str.strip " wildcards") with "wildcards".
  set_solver.
Qed.

(** ** Device selection *)

(** C8, as amended.  On Darwin the device is the empty string (backend
    auto-detection) whatever the memory flags say; elsewhere it is "cpu"
    when [lowvram] or [medvram] is set and the empty string when neither
    is. *)
Theorem get_ultralytics_device_policy (platform_system : string)
    (cmd_opts : gmap string pyval) :
  let flag name := truthy (getattr_default cmd_opts name (PyBool false)) in
  let device := get_ultralytics_device platform_system cmd_opts in
  (platform_system = "Darwin" -> device = EmptyString) /\
  (platform_system <> "Darwin" ->
   flag "lowvram" = true \/ flag "medvram" = true -> device = "cpu") /\
  (platform_system <> "Darwin" ->
   flag "lowvram" = false -> flag "medvram" = false -> device = EmptyString).
Proof.
  cbv zeta. unfold get_ultralytics_device.
  destruct (String.eqb_spec platform_system "Darwin") as [-> | Hne].
  - split; [reflexivity | split; intros Hd; contradiction].
  - simpl existsb. rewrite orb_false_r. split; [intros; contradiction |].
    split.
    + intros _ [-> | ->]; [reflexivity | rewrite orb_true_r; reflexivity].
    + intros _ -> ->. reflexivity.
Qed.

(** C8, as stated, fails on Darwin: with [lowvram] set the device is the
    empty string, not "cpu". *)
Lemma get_ultralytics_device_darwin_lowvram :
  get_ultralytics_device "Darwin" {[ "lowvram" := PyBool true ]} = EmptyString /\
  get_ultralytics_device "Darwin" {[ "lowvram" := PyBool true ]} <> "cpu".
Proof. split; [reflexivity | discriminate]. Qed.

(** ** The monad: how a bound computation came to its outcome *)

Section MonadFacts.
Context `{HostTypes}.

Lemma bind_inv {A B} (m : M A) (k : A -> M B) st res st' :
  bind m k st = (res, st') ->
  (exists a st1, m st = (Ok a, st1) /\ k a st1 = (res, st')) \/
  (exists e, m st = (Raise e, st') /\ res = Raise e).
Proof.
  unfold bind. destruct (m st) as [[a | e] st1]; intros Hk.
  - left. eauto.
  - right. inversion Hk; subst. eauto.
Qed.

Lemma lift_inv {A} (r : result A) st res st' :
  lift r st = (res, st') -> r = res /\ st' = st.
Proof. unfold lift. intros Hl. inversion Hl. auto. Qed.

Lemma rbind_Ok_inv {A B} (r : result A) (k : A -> result B) b :
  rbind r k = Ok b -> exists a, r = Ok a /\ k a = Ok b.
Proof. destruct r as [a | e]; simpl; [eauto | discriminate]. Qed.

End MonadFacts.

(** Take a run of [let* x := m in k] apart: [m] returned and [k] went on,
    or [m] raised. *)
Ltac bind_cases Hrun a st1 Hm :=
  apply bind_inv in Hrun as [(a & st1 & Hm & Hrun) | (? & Hm & Hrun)];
  [| match type of Hrun with
     | ?r = _ => first [is_var r; subst r | discriminate Hrun
                       | injection Hrun as <-]
     end].

Ltac lift_cases Hm :=
  apply lift_inv in Hm as [Hm ->].

(** ** Parameter resolution *)

Section Resolution.
Context `{Host}.

Lemma getitem_mod {A} (l : list A) (i : Z) (x : A) :
  l <> [] ->
  (if i <? Z.of_nat (length l) then getitem l i
   else getitem l (i `mod` Z.of_nat (length l))) = Ok x ->
  l !! Z.to_nat (i `mod` Z.of_nat (length l)) = Some x.
Proof.
  intros Hl. set (n := Z.of_nat (length l)).
  assert (0 < n) as Hn by (subst n; destruct l; [congruence | simpl length; lia]).
  pose proof (Z.mod_pos_bound i n Hn) as Hb.
  assert (forall k, 0 <= k < n -> getitem l k = Ok x -> l !! Z.to_nat k = Some x)
    as Hin.
  { intros k Hk. unfold getitem. fold n.
    destruct (Z.ltb_spec k 0) as [? | _]; [lia |].
    destruct (Z.ltb_spec k 0) as [? | _]; [lia |].
    destruct (Z.leb_spec n k) as [? | _]; [lia |]. simpl orb. cbv iota.
    destruct (l !! Z.to_nat k); [congruence | discriminate]. }
  destruct (Z.ltb_spec i n) as [Hlt | Hge]; [| apply Hin; lia].
  destruct (Z.ltb_spec i 0) as [Hneg | Hpos].
  - unfold getitem. fold n. destruct (Z.ltb_spec i 0) as [_ | ?]; [| lia].
    destruct (Z.ltb_spec (i + n) 0) as [Hlow | Hok]; [discriminate |].
    destruct (Z.leb_spec n (i + n)) as [? | _]; [lia |]. simpl orb. cbv iota.
    replace (i `mod` n) with (i + n)
      by (apply Z.mod_unique with (q := -1); lia).
    destruct (l !! Z.to_nat (i + n)); [congruence | discriminate].
  - rewrite Z.mod_small by lia. apply Hin. lia.
Qed.

(** What the per-image chain selects: the base value when there is no
    list (or an empty one), the entry at [i mod len] otherwise. *)
Lemma per_image_selects {A} (all_ : option (list A)) (base x : A) (i : Z) :
  per_image all_ base i = Ok x ->
  (truthy_list all_ = false -> x = base) /\
  (forall l, all_ = Some l -> l <> [] ->
             l !! Z.to_nat (i `mod` Z.of_nat (length l)) = Some x).
Proof.
  unfold per_image. destruct all_ as [[| a l] |]; simpl truthy_list; simpl negb; cbv iota.
  - intros [= <-]. split; [reflexivity | intros l [= <-] Hl; congruence].
  - intros Hsel. split; [discriminate |]. intros l' [= <-] Hl.
    apply getitem_mod; assumption.
  - intros [= <-]. split; [reflexivity | discriminate].
Qed.

End Resolution.

(** ** Building the sub-job *)

Section Builder.
Context `{Host}.

Lemma quiet_refl st : quiet st st.
Proof.
  repeat split. exists []. rewrite app_nil_r. split; [reflexivity | constructor].
Qed.

Lemma quiet_trans st1 st2 st3 : quiet st1 st2 -> quiet st2 st3 -> quiet st1 st3.
Proof.
  intros (Hp1 & Hi1 & pre1 & Ht1 & Hq1) (Hp2 & Hi2 & pre2 & Ht2 & Hq2).
  repeat split; [congruence | congruence |].
  exists (pre1 ++ pre2). rewrite Ht2, Ht1, app_assoc. split; [reflexivity |].
  apply Forall_app; split; assumption.
Qed.

Lemma call_silent_quiet {A} (f : Ext -> result A * Ext) st (r : result A) st' :
  call_silent f st = (r, st') -> quiet st st'.
Proof.
  unfold call_silent. destruct (f (st_ext st)) as [r0 e]. intros [= <- <-].
  repeat split; simpl. exists []. rewrite app_nil_r.
  split; [reflexivity | constructor].
Qed.

Lemma init_controlnet_ext_quiet st res st' :
  init_controlnet_ext st = (res, st') -> quiet st st'.
Proof.
  unfold init_controlnet_ext. intros Hrun.
  bind_cases Hrun cn st1 Hcn; [| inversion Hcn].
  inversion Hcn; subst cn st1; clear Hcn.
  destruct (st_cn st); [inversion Hrun; subst; apply quiet_refl |].
  bind_cases Hrun u st1 Hput; [| inversion Hput].
  inversion Hput; subst u st1; clear Hput.
  destruct controlnet_exists; [| inversion Hrun; subst; repeat split; simpl;
    exists []; rewrite app_nil_r; split; [reflexivity | constructor]].
  unfold try_except, run_init_controlnet in Hrun. simpl in Hrun.
  destruct (init_controlnet _ (st_ext st)) as [[[u | e] c'] ext'].
  - inversion Hrun; subst. repeat split; simpl.
    exists []. rewrite app_nil_r. split; [reflexivity | constructor].
  - destruct (isinstance_exn e CImportError).
    + inversion Hrun; subst. repeat split; simpl.
      eexists. split; [reflexivity |]. repeat constructor.
    + inversion Hrun; subst. repeat split; simpl.
      exists []. rewrite app_nil_r. split; [reflexivity | constructor].
Qed.

(** The conditioning extension changes nothing of a job but its
    [script_args]. *)
Lemma update_controlnet_args_run job args st res st' :
  update_controlnet_args job args st = (res, st') ->
  quiet st st' /\
  forall job', res = Ok job' ->
    job' = job \/ exists script_args', job' = set_script_args script_args' job.
Proof.
  unfold update_controlnet_args. intros Hrun.
  bind_cases Hrun cn st1 Hcn; [| inversion Hcn].
  inversion Hcn; subst cn st1; clear Hcn.
  bind_cases Hrun u st1 Hinit.
  2: { split; [| discriminate].
       destruct (st_cn st); [inversion Hinit |].
       eapply init_controlnet_ext_quiet; eassumption. }
  assert (quiet st st1) as Hq1.
  { destruct (st_cn st); [inversion Hinit; subst; apply quiet_refl |].
    eapply init_controlnet_ext_quiet; eassumption. }
  clear Hinit.
  bind_cases Hrun cn st2 Hcn; [| inversion Hcn].
  inversion Hcn; subst cn st2; clear Hcn.
  destruct (st_cn st1) as [c |].
  2: { inversion Hrun; subst. split; [assumption | intros ? [= <-]; auto]. }
  destruct (cn_available c && negb (String.eqb (ad_controlnet_model args) "None")).
  2: { inversion Hrun; subst. split; [assumption | intros ? [= <-]; auto]. }
  bind_cases Hrun sa st2 Hcall; apply call_silent_quiet in Hcall.
  - inversion Hrun; subst.
    split; [eapply quiet_trans; eassumption | intros ? [= <-]; eauto].
  - split; [eapply quiet_trans; eassumption | discriminate].
Qed.

(** What [get_i2i_p] does and what it returns: nothing reaches the trace
    but messages on [stderr], and the job's fields are the resolved
    parameters. *)
Lemma get_i2i_p_run p args image st res st' :
  get_i2i_p p args image st = (res, st') ->
  quiet st st' /\
  forall job, res = Ok job ->
    exists prompt_ negative_prompt_ seed_ subseed_ script_runner,
      get_prompt p args = Ok (prompt_, negative_prompt_) /\
      get_seed p = Ok (seed_, subseed_) /\
      script_filter p args = Ok script_runner /\
      prompt job = prompt_ /\ negative_prompt job = negative_prompt_ /\
      seed job = seed_ /\ subseed job = subseed_ /\
      scripts job = script_runner /\
      sampler_name job =
        (if bool_decide (sampler_name p ∈ ["PLMS"; "UniPC"]) then "Euler"
         else sampler_name p) /\
      _disable_adetailer job = Some true /\
      init_images job = [image] /\ image_mask job = None.
Proof.
  unfold get_i2i_p. intros Hrun.
  bind_cases Hrun pr st1 Hp; lift_cases Hp;
    [| split; [apply quiet_refl | discriminate]].
  destruct pr as [prompt_ negative_prompt_].
  bind_cases Hrun sd st1 Hs; lift_cases Hs;
    [| split; [apply quiet_refl | discriminate]].
  destruct sd as [seed_ subseed_].
  destruct (get_width_height p args) as [width_ height_].
  bind_cases Hrun sr st1 Hf; lift_cases Hf;
    [| split; [apply quiet_refl | discriminate]].
  match type of Hrun with context [set_disable_adetailer _ ?j] =>
    set (i2i := set_disable_adetailer (Some true) j) in * end.
  assert (forall job, job = i2i \/ (exists sa, job = set_script_args sa i2i) ->
    exists prompt_0 negative_prompt_0 seed_0 subseed_0 script_runner,
      get_prompt p args = Ok (prompt_0, negative_prompt_0) /\
      get_seed p = Ok (seed_0, subseed_0) /\
      script_filter p args = Ok script_runner /\
      prompt job = prompt_0 /\ negative_prompt job = negative_prompt_0 /\
      seed job = seed_0 /\ subseed job = subseed_0 /\
      scripts job = script_runner /\
      sampler_name job =
        (if bool_decide (sampler_name p ∈ ["PLMS"; "UniPC"]) then "Euler"
         else sampler_name p) /\
      _disable_adetailer job = Some true /\
      init_images job = [image] /\ image_mask job = None) as Hfields.
  { intros job Hjob.
    exists prompt_, negative_prompt_, seed_, subseed_, sr.
    split; [assumption |]. split; [assumption |]. split; [assumption |].
    destruct Hjob as [-> | [sa ->]]; repeat split; reflexivity. }
  destruct (negb (String.eqb (ad_controlnet_model args) "None")).
  - apply update_controlnet_args_run in Hrun as [Hq Hjob].
    split; [assumption |]. intros job ->. apply Hfields. auto.
  - inversion Hrun; subst. split; [apply quiet_refl |].
    intros job [= <-]. apply Hfields. auto.
Qed.

End Builder.

(** ** The mask loop *)

Section MaskLoop.
Context `{Host}.

Lemma getitem_nat {A} (l : list A) (k : nat) (r : result A) :
  getitem l (Z.of_nat k) = r ->
  match r with
  | Ok x => l !! k = Some x
  | Raise _ => l !! k = None
  end.
Proof.
  unfold getitem. destruct (Z.ltb_spec (Z.of_nat k) 0) as [? | _]; [lia |].
  destruct (Z.ltb_spec (Z.of_nat k) 0) as [? | _]; [lia |]. simpl orb.
  rewrite Nat2Z.id.
  destruct (Z.leb_spec (Z.of_nat (length l)) (Z.of_nat k)) as [Hge | Hlt].
  - intros <-. apply lookup_ge_None. lia.
  - destruct (l !! k) eqn:Hk; intros <-; [reflexivity |].
    apply lookup_ge_None in Hk. lia.
Qed.

Lemma getitem_0 {A} (l : list A) (r : result A) :
  getitem l 0 = r ->
  match r with
  | Ok x => head l = Some x
  | Raise _ => head l = None
  end.
Proof.
  intros Hr. apply (getitem_nat l 0%nat) in Hr.
  destruct r; rewrite <- head_lookup in Hr; assumption.
Qed.

(** A job is the loop's first job when its seeds and images are the ones
    [get_i2i_p] gave it. *)
Lemma first_loop_job (i2i : Processing) seed_ subseed_ images_in :
  seed i2i = seed_ -> subseed i2i = subseed_ -> init_images i2i = images_in ->
  i2i = set_subseed (subseed_ + Z.of_nat 0)
          (set_seed (seed_ + Z.of_nat 0) (set_init_images images_in i2i)).
Proof.
  intros <- <- <-. simpl Z.of_nat. rewrite !Z.add_0_r. destruct i2i. reflexivity.
Qed.

Lemma call_run {A} (f : Ext -> result A * Ext) (record : result A -> event)
    st (r : result A) st' :
  call f record st = (r, st') ->
  st_p st' = st_p st /\ st_image st' = st_image st /\
  st_trace st' = st_trace st ++ [record r].
Proof.
  unfold call. destruct (f (st_ext st)) as [r0 e]. intros [= <- <-].
  repeat split.
Qed.

(** The loop over the masks from number [a] on. *)
Lemma mask_loop_run i2i seed_ subseed_ masks_ len :
  forall a p2 processed images_in st res st',
    p2 = set_subseed (subseed_ + Z.of_nat a)
           (set_seed (seed_ + Z.of_nat a) (set_init_images images_in i2i)) ->
    mask_loop i2i seed_ subseed_ masks_ (map Z.of_nat (seq a len)) p2 processed st
      = (res, st') ->
    exists calls,
      st_trace st' = st_trace st ++ engine_events calls /\
      st_p st' = st_p st /\ st_image st' = st_image st /\
      chain i2i seed_ subseed_ masks_ a images_in calls /\
      (length calls <= len)%nat /\
      forall final, res = Ok final ->
        length calls = len /\
        match last calls with
        | Some (_, out) =>
            exists r image, out = Ok r /\ final = Some r /\ head (images r) = Some image
        | None => final = processed
        end.
Proof.
  induction len as [| len IH]; intros a p2 processed images_in st res st' Hp2 Hrun.
  - simpl in Hrun. inversion Hrun; subst. exists []. simpl.
    rewrite app_nil_r. repeat split; try reflexivity. congruence.
  - simpl in Hrun. subst p2.
    bind_cases Hrun m st1 Hm; lift_cases Hm.
    2: { exists []. simpl. rewrite app_nil_r.
         repeat split; try reflexivity; try lia; discriminate. }
    apply getitem_nat in Hm.
    bind_cases Hrun r st1 Hcall; apply call_run in Hcall as (Hp & Hi & Ht).
    2: { eexists [(_, Raise _)]. simpl. rewrite Ht.
         repeat split; try reflexivity; try congruence; try lia; try discriminate.
         exists m. split; [assumption | reflexivity]. }
    bind_cases Hrun image0 st2 Himg; lift_cases Himg.
    2: { apply getitem_0 in Himg.
         eexists [(_, Ok r)]. simpl. rewrite Ht, Himg.
         repeat split; try reflexivity; try congruence; try lia; try discriminate.
         exists m. split; [assumption | reflexivity]. }
    apply getitem_0 in Himg.
    eapply (IH (S a) _ _ [image0]) in Hrun.
    2: { rewrite Nat2Z.inj_succ. unfold Z.succ.
         rewrite !Z.add_assoc. destruct i2i; reflexivity. }
    destruct Hrun as (calls & Ht' & Hp' & Hi' & Hchain & Hlen & Hfinal).
    eexists ((_, Ok r) :: calls).
    split; [rewrite Ht', Ht; simpl; rewrite <- app_assoc; reflexivity |].
    split; [congruence |]. split; [congruence |].
    split.
    { simpl. rewrite Himg. split; [| assumption].
      exists m. split; [assumption | reflexivity]. }
    split; [simpl; lia |].
    intros final Hres. destruct (Hfinal final Hres) as [Hl Hlast].
    split; [simpl; lia |].
    destruct calls as [| c calls].
    + simpl in Hlast. simpl last. cbv beta iota. eauto.
    + rewrite last_cons_cons.
      destruct (last (c :: calls)) eqn:Hc; [exact Hlast |].
      apply last_None in Hc. discriminate.
Qed.

End MaskLoop.

(** ** One stage *)

Section Stage.
Context `{Host}.

Lemma emit_run ev st r st' :
  emit ev st = (r, st') ->
  r = Ok tt /\ st_p st' = st_p st /\ st_image st' = st_image st /\
  st_trace st' = st_trace st ++ [ev].
Proof. unfold emit. intros [= <- <-]. repeat split. Qed.

(** [save_image] adds at most the record of one saved file. *)
Lemma save_image_run p image condition sfx st res st' :
  save_image p image condition sfx st = (res, st') ->
  st_p st' = st_p st /\ st_image st' = st_image st /\
  exists diag, st_trace st' = st_trace st ++ diag /\ core diag = [] /\
               stdout_lines diag = [].
Proof.
  unfold save_image. intros Hrun.
  assert (st_p st = st_p st /\ st_image st = st_image st /\
          exists diag, st_trace st = st_trace st ++ diag /\ core diag = [] /\
                       stdout_lines diag = [])
    as Hsame.
  { repeat split. exists []. rewrite app_nil_r. repeat split. }
  bind_cases Hrun i st1 Hi; lift_cases Hi; [| exact Hsame].
  bind_cases Hrun sd st1 Hs; lift_cases Hs; [| exact Hsame].
  destruct sd as [seed_ ?].
  destruct (truthy _); [| inversion Hrun; subst; exact Hsame].
  bind_cases Hrun pr st1 Hp; lift_cases Hp; [| exact Hsame].
  bind_cases Hrun info st1 Hinfo; lift_cases Hinfo; [| exact Hsame].
  apply call_run in Hrun as (Hp' & Hi' & Ht).
  repeat split; try assumption. eexists. split; [exact Ht | split; reflexivity].
Qed.

(** In a chain, every call but the last returned an image; when the
    last did too, all of them did. *)
Lemma chain_all_ok i2i seed_ subseed_ masks_ calls :
  forall j images_in,
    chain i2i seed_ subseed_ masks_ j images_in calls ->
    (forall c, last calls = Some c -> call_ok c) ->
    Forall call_ok calls.
Proof.
  induction calls as [| [job out] calls IH]; intros j images_in Hchain Hlast.
  - constructor.
  - destruct Hchain as [_ Hrest]. destruct calls as [| c calls].
    + constructor; [apply Hlast; reflexivity | constructor].
    + assert (call_ok (job, out)) as Hok.
      { unfold call_ok. simpl. destruct (output_image out); [eauto | discriminate]. }
      constructor; [assumption |].
      destruct Hok as [image Himage]. simpl in Himage. rewrite Himage in Hrest.
      eapply IH; [exact Hrest |].
      intros c' Hc'. apply Hlast. rewrite last_cons_cons. exact Hc'.
Qed.

(** The detector call of a stage: one event, with the outcome of the
    call; or, when the model is not registered, no call at all. *)
Lemma detector_call_run args image st r st' :
  (if Str.startswith (Str.lower (ad_model args)) "mediapipe" then
     call (mediapipe_predict (ad_model args) image (ad_conf args))
          (EvMediapipe (ad_model args) image (ad_conf args))
   else
     let* ad_model_ := lift (get_ad_model (ad_model args)) in
     call (ultralytics_predict ad_model_ image (ad_conf args) ultralytics_device)
          (EvUltralytics ad_model_ image (ad_conf args) ultralytics_device)) st
  = (r, st') ->
  (exists d,
     st_trace st' = st_trace st ++ [d] /\ st_p st' = st_p st /\
     st_image st' = st_image st /\ is_detection args image r d) \/
  (st' = st /\ exists e, r = Raise e).
Proof.
  assert (forall path, get_ad_model (ad_model args) = Ok path ->
                       dict_get model_mapping (ad_model args) = Some path)
    as Hreg.
  { intros path. unfold get_ad_model.
    destruct (negb (dict_contains model_mapping (ad_model args)));
      [discriminate |].
    destruct (dict_get model_mapping (ad_model args));
      [congruence | discriminate]. }
  destruct (Str.startswith (Str.lower (ad_model args)) "mediapipe") eqn:Hmp;
    intros Hrun.
  - left. apply call_run in Hrun as (Hp & Hi & Ht).
    eexists. repeat (split; [eassumption |]). simpl. auto.
  - bind_cases Hrun path st1 Hpath; lift_cases Hpath.
    + left. apply call_run in Hrun as (Hp & Hi & Ht).
      eexists. repeat (split; [eassumption |]). simpl. auto 10.
    + right. eauto.
Qed.

(** Every run of [_postprocess_image] has one of the four shapes, and
    leaves the parent job as it was. *)
Lemma stage_run args n st res st' :
  _postprocess_image args n st = (res, st') ->
  exists new,
    st_trace st' = st_trace st ++ new /\ st_p st' = st_p st /\
    stage_shape args (st_p st) (st_image st) res (st_image st') new.
Proof.
  unfold _postprocess_image. intros Hrun.
  assert (forall e, exists new,
    st_trace st = st_trace st ++ new /\ st_p st = st_p st /\
    stage_shape args (st_p st) (st_image st) (Raise e) (st_image st) new)
    as Haborted.
  { intros e. exists []. rewrite app_nil_r. repeat split. constructor. constructor. }
  bind_cases Hrun p st1 Hp; [| inversion Hp].
  inversion Hp; subst p st1; clear Hp.
  bind_cases Hrun i st1 Hi; lift_cases Hi; [| apply Haborted].
  bind_cases Hrun image st1 Him; [| inversion Him].
  inversion Him; subst image st1; clear Him.
  bind_cases Hrun i2i st1 Hbuild.
  2: { apply get_i2i_p_run in Hbuild as [(Hqp & Hqi & pre & Hqt & Hpre) _].
       exists pre. rewrite Hqi. repeat split; try assumption. constructor. assumption. }
  pose proof Hbuild as Hbuilt.
  apply get_i2i_p_run in Hbuild as [(Hqp & Hqi & pre & Hqt & Hpre) Hfields].
  destruct (Hfields i2i eq_refl)
    as (pr & npr & seed_ & subseed_ & sr & _ & Hseed & _ & _ & _ & Hs & Hss & _ & _ & _ & Hinit & _).
  clear Hfields.
  bind_cases Hrun sd st2 Hsd; lift_cases Hsd.
  2: { congruence. }
  rewrite Hseed in Hsd. injection Hsd as <-.
  (* the detector call *)
  bind_cases Hrun pd st2 Hcall;
    apply detector_call_run in Hcall
      as [(d & Ht2 & Hp2 & Hi2 & Hd) | (-> & e & Hraise)];
    try discriminate Hraise.
  2: { exists (pre ++ [d]).
       split; [rewrite Ht2, Hqt, <- app_assoc; reflexivity |].
       split; [congruence |]. rewrite Hi2, Hqi.
       constructor; assumption. }
  2: { exists pre. rewrite Hqi. repeat split; try assumption.
       constructor. assumption. }
  destruct (mask_preprocess (masks pd)) as [| m0 ms] eqn:Hmasks.
  { (* nothing detected *)
    bind_cases Hrun u st3 Hprint; apply emit_run in Hprint as (Hu & Hp3 & Hi3 & Ht3);
      [| discriminate].
    inversion Hrun; subst res st3; clear Hrun.
    eexists (pre ++ [d; _]).
    split; [rewrite Ht3, Ht2, Hqt, <- !app_assoc; reflexivity |].
    split; [congruence |]. rewrite Hi3, Hi2, Hqi.
    econstructor; eassumption. }
  set (masks_ := m0 :: ms) in *.
  assert (masks_ <> []) as Hne by (subst masks_; discriminate).
  assert (built (st_p st) args (st_image st) i2i) as Hb by (exists st, st1; exact Hbuilt).
  (* the preview *)
  bind_cases Hrun u st3 Hsave;
    apply save_image_run in Hsave as (Hp3 & Hi3 & diag1 & Ht3 & Hc1 & _).
  2: { exists (pre ++ d :: diag1 ++ engine_events []).
       split; [rewrite Ht3, Ht2, Hqt; simpl; rewrite app_nil_r, <- !app_assoc;
               reflexivity |].
       split; [congruence |].
       rewrite Hi3, Hi2, Hqi.
       eapply stage_regenerating with (pred := pd) (i2i := i2i);
         try eassumption; try rewrite Hmasks; try eassumption.
       - exact I.
       - simpl. lia.
       - discriminate.
       - reflexivity. }
  (* the line printed for the mediapipe backend *)
  bind_cases Hrun u' st4 Hprint.
  2: { destruct (Str.startswith (Str.lower (ad_model args)) "mediapipe").
       - apply emit_run in Hprint as (Hu & _). discriminate.
       - inversion Hprint. }
  assert (exists diag2,
    st_trace st4 = st_trace st3 ++ diag2 /\ core diag2 = [] /\
    st_p st4 = st_p st3 /\ st_image st4 = st_image st3)
    as (diag2 & Ht4 & Hc2 & Hp4 & Hi4).
  { destruct (Str.startswith (Str.lower (ad_model args)) "mediapipe").
    - apply emit_run in Hprint as (_ & Hp4 & Hi4 & Ht4).
      eexists [_]. repeat split; first [eassumption | reflexivity].
    - inversion Hprint; subst. exists []. rewrite app_nil_r. repeat split. }
  clear Hprint.
  assert (core (diag1 ++ diag2) = []) as Hc12.
  { unfold core in *. rewrite List.filter_app, Hc1, Hc2. reflexivity. }
  (* the loop over the masks *)
  bind_cases Hrun processed st5 Hml;
    (eapply (mask_loop_run _ _ _ _ _ 0%nat _ _ [st_image st]) in Hml;
     [| apply first_loop_job; assumption]);
    destruct Hml as (calls & Ht5 & Hp5 & Hi5 & Hchain & Hlen & Hfinal);
    rewrite ?length_map, ?length_seq in Hlen.
  - (* it ran to its end *)
    destruct (Hfinal processed eq_refl) as [Hfull Hlast]. clear Hfinal.
    destruct (last calls) as [[job out] |] eqn:Hlc.
    2: { apply last_None in Hlc. subst calls. simpl in Hfull.
         subst masks_. discriminate. }
    destruct Hlast as (r & image & -> & -> & Hhead).
    bind_cases Hrun image0 st6 Himg0; lift_cases Himg0.
    2: { apply getitem_0 in Himg0. congruence. }
    apply getitem_0 in Himg0. rewrite Hhead in Himg0. injection Himg0 as <-.
    bind_cases Hrun u2 st6 Hput; [| inversion Hput].
    inversion Hput; subst u2 st6; clear Hput.
    inversion Hrun; subst res st'; clear Hrun.
    exists (pre ++ d :: (diag1 ++ diag2) ++ engine_events calls).
    split; [simpl; rewrite Ht5, Ht4, Ht3, Ht2, Hqt, <- !app_assoc; reflexivity |].
    split; [simpl; congruence |]. simpl st_image at 2.
    eapply stage_regenerating with (pred := pd) (i2i := i2i);
      try eassumption; try rewrite Hmasks; try eassumption.
    + intros b [= <-]. repeat split.
      * assumption.
      * eapply chain_all_ok; [exact Hchain |].
        intros c Hc. rewrite Hlc in Hc. injection Hc as <-.
        unfold call_ok. simpl. rewrite Hhead. eauto.
      * unfold final_image. rewrite Hlc. simpl. rewrite Hhead. reflexivity.
    + discriminate.
  - (* it raised *)
    clear Hfinal.
    exists (pre ++ d :: (diag1 ++ diag2) ++ engine_events calls).
    split; [rewrite Ht5, Ht4, Ht3, Ht2, Hqt, <- !app_assoc; reflexivity |].
    split; [congruence |].
    rewrite Hi5, Hi4, Hi3, Hi2, Hqi.
    eapply stage_regenerating with (pred := pd) (i2i := i2i);
      try eassumption; try rewrite Hmasks; try eassumption.
    + discriminate.
    + reflexivity.
Qed.

End Stage.

(** ** Reading the trace of a stage *)

Section Reading.
Context `{Host}.

Lemma engine_calls_app (tr1 tr2 : list event) :
  engine_calls (tr1 ++ tr2) = engine_calls tr1 ++ engine_calls tr2.
Proof. apply omap_app. Qed.

Lemma detections_app (tr1 tr2 : list event) :
  detections (tr1 ++ tr2) = detections tr1 ++ detections tr2.
Proof. apply omap_app. Qed.

Lemma core_app (tr1 tr2 : list event) : core (tr1 ++ tr2) = core tr1 ++ core tr2.
Proof. apply List.filter_app. Qed.

Lemma engine_jobs_app (tr1 tr2 : list event) :
  engine_jobs (tr1 ++ tr2) = engine_jobs tr1 ++ engine_jobs tr2.
Proof. unfold engine_jobs. rewrite engine_calls_app. apply fmap_app. Qed.

(** A stretch without core events has neither engine nor detector calls. *)
Lemma core_nil_read (tr : list event) :
  core tr = [] -> engine_calls tr = [] /\ detections tr = [].
Proof.
  induction tr as [| ev tr IH]; [split; reflexivity |].
  unfold core. simpl List.filter.
  destruct ev; simpl is_core; cbv iota; try discriminate;
    intros Hc; destruct (IH Hc) as [He Hd]; split; assumption.
Qed.

Lemma stderr_prints_core (pre : list event) :
  Forall is_stderr_print pre -> core pre = [].
Proof.
  induction 1 as [| ev pre Hev _ IH]; [reflexivity |].
  destruct ev as [[] ? | | | | |]; simpl in Hev; try contradiction. exact IH.
Qed.

Lemma detection_read args image out d :
  is_detection args image out d ->
  core [d] = [d] /\ engine_calls [d] = [] /\ detections [d] = [(image, out)].
Proof.
  destruct d; simpl; try contradiction.
  - intros (_ & _ & -> & _ & ->). repeat split.
  - intros (_ & _ & -> & _ & _ & ->). repeat split.
Qed.

Lemma engine_events_read (calls : list (Processing * result Processed)) :
  core (engine_events calls) = engine_events calls /\
  engine_calls (engine_events calls) = calls /\
  detections (engine_events calls) = [].
Proof.
  induction calls as [| [job out] calls (IHc & IHe & IHd)]; [repeat split |].
  repeat split.
  - unfold core in *. simpl. f_equal. exact IHc.
  - change (engine_calls (engine_events ((job, out) :: calls)))
      with ((job, out) :: engine_calls (engine_events calls)).
    f_equal. exact IHe.
  - exact IHd.
Qed.

(** What a stage leaves in the trace, read through [detections],
    [engine_calls] and [core]. *)
Lemma stage_reading args p image res final new :
  stage_shape args p image res final new ->
  (detections new = [] /\ core new = [] /\ engine_calls new = [] /\
   (exists e, res = Raise e) /\ final = image) \/
  (exists d out calls,
     is_detection args image out d /\
     detections new = [(image, out)] /\
     core new = d :: engine_events calls /\
     engine_calls new = calls /\
     match out with
     | Raise e => res = Raise e /\ calls = [] /\ final = image
     | Ok pred =>
         let masks_ := mask_preprocess (masks pred) in
         (masks_ = [] -> res = Ok false /\ calls = [] /\ final = image) /\
         (masks_ <> [] ->
          exists i2i seed_ subseed_,
            built p args image i2i /\
            get_seed p = Ok (seed_, subseed_) /\
            chain i2i seed_ subseed_ masks_ 0 [image] calls /\
            (length calls <= length masks_)%nat /\
            (forall b, res = Ok b ->
               b = true /\ length calls = length masks_ /\
               Forall call_ok calls /\ final = final_image image calls) /\
            (forall e, res = Raise e -> final = image))
     end).
Proof.
  intros Hshape. destruct Hshape as
    [e pre Hpre | e pre d Hpre Hd | pre d pred msg Hpre Hd Hm
    | res final pre d pred diag i2i seed_ subseed_ calls Hpre Hd Hm Hdiag Hb Hs Hc Hl Hok Hraise].
  - left. apply stderr_prints_core in Hpre.
    destruct (core_nil_read _ Hpre) as [He Hdt]. eauto 10.
  - right. exists d, (Raise e), [].
    apply stderr_prints_core in Hpre. destruct (core_nil_read _ Hpre) as [He Hdt].
    destruct (detection_read _ _ _ _ Hd) as (Hc1 & He1 & Hd1).
    rewrite detections_app, core_app, engine_calls_app, Hpre, He, Hdt, Hc1, He1, Hd1.
    repeat split; assumption.
  - right. exists d, (Ok pred), [].
    apply stderr_prints_core in Hpre. destruct (core_nil_read _ Hpre) as [He Hdt].
    destruct (detection_read _ _ _ _ Hd) as (Hc1 & He1 & Hd1).
    change [d; EvPrint false msg] with ([d] ++ [EvPrint false msg]).
    rewrite !detections_app, !core_app, !engine_calls_app, Hpre, He, Hdt, Hc1, He1, Hd1.
    split; [assumption |]. repeat split; try reflexivity.
    intros Hne. contradiction.
  - right. exists d, (Ok pred), calls.
    apply stderr_prints_core in Hpre. destruct (core_nil_read _ Hpre) as [He Hdt].
    destruct (detection_read _ _ _ _ Hd) as (Hc1 & He1 & Hd1).
    destruct (core_nil_read _ Hdiag) as [He2 Hd2].
    destruct (engine_events_read calls) as (Hc3 & He3 & Hd3).
    change (d :: diag ++ engine_events calls)
      with ([d] ++ diag ++ engine_events calls).
    rewrite !detections_app, !core_app, !engine_calls_app,
      Hpre, He, Hdt, Hc1, He1, Hd1, Hdiag, He2, Hd2, Hc3, He3, Hd3.
    split; [assumption |]. repeat split; try reflexivity.
    + contradiction.
    + contradiction.
    + contradiction.
    + intros _. exists i2i, seed_, subseed_.
      repeat (split; [assumption |]). assumption.
Qed.

(** The jobs of a chain, one by one. *)
Lemma chain_lookup i2i seed_ subseed_ masks_ calls :
  forall j images_in k job out,
    chain i2i seed_ subseed_ masks_ j images_in calls ->
    calls !! k = Some (job, out) ->
    exists m images_k,
      masks_ !! (j + k)%nat = Some m /\
      job = job_for i2i seed_ subseed_ images_k m (Z.of_nat (j + k)).
Proof.
  induction calls as [| [job0 out0] calls IH]; intros j images_in k job out Hchain Hk.
  - discriminate.
  - destruct Hchain as [(m & Hm & Hjob) Hrest]. destruct k as [| k].
    + injection Hk as <- <-. exists m, images_in. rewrite Nat.add_0_r. auto.
    + simpl in Hk. destruct (output_image out0) as [image |].
      * replace (j + S k)%nat with (S j + k)%nat by lia.
        eapply IH; eassumption.
      * subst calls. discriminate.
Qed.

End Reading.

(** ** The claims about one stage and its jobs *)

Section Claims.
Context `{Host}.

Lemma chain_seeds i2i seed_ subseed_ masks_ calls :
  forall j images_in,
    chain i2i seed_ subseed_ masks_ j images_in calls ->
    seed <$> calls.*1 = (fun k => seed_ + Z.of_nat k) <$> seq j (length calls) /\
    subseed <$> calls.*1 = (fun k => subseed_ + Z.of_nat k) <$> seq j (length calls).
Proof.
  induction calls as [| [job out] calls IH]; intros j images_in Hchain.
  - split; reflexivity.
  - destruct Hchain as [(m & _ & ->) Hrest].
    assert (exists j' images', chain i2i seed_ subseed_ masks_ j' images' calls /\
                               (calls <> [] -> j' = S j)) as (j' & images' & Hc & Hj).
    { destruct (output_image out) as [image |].
      - exists (S j), [image]. auto.
      - subst calls. exists j, []. split; [exact I | congruence]. }
    destruct (IH _ _ Hc) as [IHs IHss].
    destruct calls as [| c calls]; [split; reflexivity |].
    rewrite (Hj ltac:(discriminate)) in IHs, IHss.
    split; simpl; f_equal; assumption.
Qed.

(** C1.  Within one stage the jobs handed to the engine carry the seed
    and subseed selected for the current image, advanced by one per mask:
    job number [k] (from 0) has seed [S + k] and subseed [T + k], so each
    job's seed and subseed are those of the job before it plus one.  When
    the stage runs to its end there is exactly one job per processed mask:
    for [M] masks there are [M] jobs, their seeds are
    [S, S+1, ..., S+M-1] and their subseeds [T, T+1, ..., T+M-1]. *)
Theorem seed_advancement args n st res st' seed_ subseed_ :
  get_seed (st_p st) = Ok (seed_, subseed_) ->
  _postprocess_image args n st = (res, st') ->
  exists new,
    st_trace st' = st_trace st ++ new /\
    (forall k job, engine_jobs new !! k = Some job ->
       seed job = seed_ + Z.of_nat k /\ subseed job = subseed_ + Z.of_nat k) /\
    (forall k job next,
       engine_jobs new !! k = Some job -> engine_jobs new !! S k = Some next ->
       seed next = seed job + 1 /\ subseed next = subseed job + 1) /\
    (forall b, res = Ok b ->
       exists image pred,
         detections new = [(image, Ok pred)] /\
         length (engine_jobs new) = length (mask_preprocess (masks pred)) /\
         seed <$> engine_jobs new =
           (fun k => seed_ + Z.of_nat k)
             <$> seq 0 (length (mask_preprocess (masks pred))) /\
         subseed <$> engine_jobs new =
           (fun k => subseed_ + Z.of_nat k)
             <$> seq 0 (length (mask_preprocess (masks pred)))).
Proof.
  intros Hseed Hrun. apply stage_run in Hrun as (new & Ht & _ & Hshape).
  exists new. split; [exact Ht |].
  assert ((forall k job, engine_jobs new !! k = Some job ->
             seed job = seed_ + Z.of_nat k /\ subseed job = subseed_ + Z.of_nat k) /\
          (forall b, res = Ok b ->
             exists image pred,
               detections new = [(image, Ok pred)] /\
               length (engine_jobs new) = length (mask_preprocess (masks pred)) /\
               seed <$> engine_jobs new =
                 (fun k => seed_ + Z.of_nat k)
                   <$> seq 0 (length (mask_preprocess (masks pred))) /\
               subseed <$> engine_jobs new =
                 (fun k => subseed_ + Z.of_nat k)
                   <$> seq 0 (length (mask_preprocess (masks pred)))))
    as [Hjobs Hall].
  { apply stage_reading in Hshape
      as [(Hd & _ & He & (e & ->) & _) | (d & out & calls & _ & Hd & _ & He & Hout)].
    - unfold engine_jobs. rewrite He. split; [intros k job Hk; discriminate |].
      discriminate.
    - unfold engine_jobs. rewrite He. destruct out as [pred | e].
      + cbv zeta in Hout. destruct Hout as [Hempty Hfull].
        destruct (mask_preprocess (masks pred)) as [| m0 ms] eqn:Hm.
        * destruct (Hempty eq_refl) as (-> & -> & _).
          split; [intros k job Hk; discriminate |].
          intros b _. exists (st_image st), pred. rewrite Hm. repeat split. exact Hd.
        * destruct (Hfull ltac:(discriminate))
            as (i2i & s & t & _ & Hs' & Hchain & _ & Hok & _).
          rewrite Hseed in Hs'. injection Hs' as <- <-.
          destruct (chain_seeds _ _ _ _ _ _ _ Hchain) as [Hseeds Hsubseeds].
          split.
          { intros k job Hk.
            assert ((seed <$> calls.*1) !! k = Some (seed job) /\
                    (subseed <$> calls.*1) !! k = Some (subseed job)) as [Hks Hkss].
            { split; rewrite list_lookup_fmap, Hk; reflexivity. }
            rewrite Hseeds in Hks. rewrite Hsubseeds in Hkss.
            rewrite list_lookup_fmap in Hks, Hkss.
            destruct (seq 0 (length calls) !! k) as [k' |] eqn:Hseq; [| discriminate].
            apply lookup_seq in Hseq as [-> _]. simpl in Hks, Hkss.
            split; congruence. }
          intros b Hb. destruct (Hok b Hb) as (_ & Hlen & _).
          exists (st_image st), pred. rewrite Hm. split; [exact Hd |].
          split; [rewrite length_fmap; exact Hlen |].
          rewrite <- Hlen. split; [exact Hseeds | exact Hsubseeds].
      + destruct Hout as (-> & -> & _).
        split; [intros k job Hk; discriminate | discriminate]. }
  split; [exact Hjobs |]. split; [| exact Hall].
  intros k job next Hk Hnext.
  destruct (Hjobs _ _ Hk) as [Hs Hss]. destruct (Hjobs _ _ Hnext) as [Hs' Hss'].
  lia.
Qed.

(** Every job a stage hands to the engine is a regeneration job of that
    stage. *)
Lemma stage_jobs_regeneration args n st res st' :
  _postprocess_image args n st = (res, st') ->
  exists new,
    st_trace st' = st_trace st ++ new /\
    Forall (regeneration_job (st_p st) args) (engine_jobs new).
Proof.
  intros Hrun. apply stage_run in Hrun as (new & Ht & _ & Hshape).
  exists new. split; [exact Ht |]. unfold engine_jobs.
  apply stage_reading in Hshape
    as [(_ & _ & -> & _) | (d & out & calls & _ & _ & _ & -> & Hout)];
    [constructor |].
  destruct out as [pred | e]; [| destruct Hout as (_ & -> & _); constructor].
  cbv zeta in Hout. destruct Hout as [Hempty Hfull].
  destruct (mask_preprocess (masks pred)) as [| m0 ms].
  { destruct (Hempty eq_refl) as (_ & -> & _). constructor. }
  destruct (Hfull ltac:(discriminate)) as (i2i & s & t & Hb & _ & Hchain & _).
  apply Forall_lookup. intros k job Hk.
  rewrite list_lookup_fmap in Hk.
  destruct (calls !! k) as [[job' out] |] eqn:Hc; [| discriminate].
  injection Hk as <-.
  destruct (chain_lookup _ _ _ _ _ _ _ _ _ _ Hchain Hc) as (m & images_k & _ & ->).
  exists (st_image st), i2i. split; [assumption |]. right. eauto 10.
Qed.

(** C4.  The prompt of a built job is the stage's prompt when that is
    not empty; otherwise the entry of the parent's per-image list at
    [image index mod length], when the parent has such a list; otherwise
    the parent's single prompt.  The negative prompt follows the same
    rule over its own override and list, and the seed and the subseed are
    selected from their own lists the same way (they have no override). *)
Theorem prompt_and_seed_selection p args image job i :
  built p args image job ->
  _idx p = Some i ->
  let at_index {A} (l : list A) (x : A) :=
    l !! Z.to_nat (i `mod` Z.of_nat (length l)) = Some x in
  ((ad_prompt args <> EmptyString -> prompt job = ad_prompt args) /\
   (ad_prompt args = EmptyString ->
    (forall l, all_prompts p = Some l -> l <> [] -> at_index l (prompt job)) /\
    (all_prompts p = None \/ all_prompts p = Some [] -> prompt job = prompt p))) /\
  ((ad_negative_prompt args <> EmptyString ->
    negative_prompt job = ad_negative_prompt args) /\
   (ad_negative_prompt args = EmptyString ->
    (forall l, all_negative_prompts p = Some l -> l <> [] ->
               at_index l (negative_prompt job)) /\
    (all_negative_prompts p = None \/ all_negative_prompts p = Some [] ->
     negative_prompt job = negative_prompt p))) /\
  ((forall l, all_seeds p = Some l -> l <> [] -> at_index l (seed job)) /\
   (all_seeds p = None \/ all_seeds p = Some [] -> seed job = seed p)) /\
  ((forall l, all_subseeds p = Some l -> l <> [] -> at_index l (subseed job)) /\
   (all_subseeds p = None \/ all_subseeds p = Some [] -> subseed job = subseed p)).
Proof.
  intros (st & st' & Hrun) Hidx. cbv zeta.
  apply get_i2i_p_run in Hrun as [_ Hfields].
  destruct (Hfields job eq_refl)
    as (pr & npr & sd & ssd & sr & Hprompt & Hseed & _ & -> & -> & -> & -> & _).
  clear Hfields.
  assert (forall {A} (all_ : option (list A)) (base x : A),
    per_image all_ base i = Ok x ->
    (forall l, all_ = Some l -> l <> [] ->
       l !! Z.to_nat (i `mod` Z.of_nat (length l)) = Some x) /\
    (all_ = None \/ all_ = Some [] -> x = base)) as Hsel.
  { intros A all_ base x Hx. apply per_image_selects in Hx as [Hbase Hlist].
    split; [exact Hlist |]. intros [-> | ->]; apply Hbase; reflexivity. }
  unfold get_prompt, get_seed, read_idx in Hprompt, Hseed.
  rewrite Hidx in Hprompt, Hseed. simpl rbind in Hprompt, Hseed.
  apply rbind_Ok_inv in Hprompt as (pr' & Hpr & Hprompt).
  apply rbind_Ok_inv in Hprompt as (npr' & Hnpr & Hprompt).
  injection Hprompt as <- <-.
  apply rbind_Ok_inv in Hseed as (sd' & Hsd & Hseed).
  apply rbind_Ok_inv in Hseed as (ssd' & Hssd & Hseed).
  injection Hseed as <- <-.
  unfold str_truthy in Hpr, Hnpr.
  split; [| split; [| split; apply Hsel; assumption]].
  - destruct (String.eqb_spec (ad_prompt args) EmptyString) as [He | Hne];
      simpl negb in Hpr; cbv iota in Hpr.
    + split; [congruence | intros _; apply Hsel; assumption].
    + injection Hpr as <-. split; [reflexivity | congruence].
  - destruct (String.eqb_spec (ad_negative_prompt args) EmptyString) as [He | Hne];
      simpl negb in Hnpr; cbv iota in Hnpr.
    + split; [congruence | intros _; apply Hsel; assumption].
    + injection Hnpr as <-. split; [reflexivity | congruence].
Qed.

Lemma regeneration_job_marker p args job :
  regeneration_job p args job -> _disable_adetailer job = Some true.
Proof.
  intros (image & i2i & (st0 & st1 & Hrun) & Hjob).
  apply get_i2i_p_run in Hrun as [_ Hfields].
  destruct (Hfields i2i eq_refl)
    as (pr & npr & sd & ssd & sr & _ & _ & _ & _ & _ & _ & _ & _ & _ & Hmark & _).
  destruct Hjob as [-> | (s & t & imgs & m & j & ->)]; exact Hmark.
Qed.

(** The jobs handed to the engine during a stage, whatever part of the
    trace the stage is said to have added. *)
Lemma stage_engine_jobs args n st res st' new :
  _postprocess_image args n st = (res, st') ->
  st_trace st' = st_trace st ++ new ->
  Forall (regeneration_job (st_p st) args) (engine_jobs new).
Proof.
  intros Hrun Hnew.
  apply stage_jobs_regeneration in Hrun as (new' & Ht & Hall).
  rewrite Ht in Hnew. apply app_inv_head in Hnew. subst new'. exact Hall.
Qed.

(** C5.  Every job [get_i2i_p] builds carries [_disable_adetailer = True],
    and so does every job a stage hands to the engine; and on a job that
    carries the marker both entry points return at once, leaving the job,
    the working image, the outside world and the trace as they were. *)
Theorem sub_jobs_do_not_recurse :
  (forall p args image job,
     built p args image job -> _disable_adetailer job = Some true) /\
  (forall args n st res st' new,
     _postprocess_image args n st = (res, st') ->
     st_trace st' = st_trace st ++ new ->
     Forall (fun job => _disable_adetailer job = Some true) (engine_jobs new)) /\
  (forall args_ st,
     adetailer_disabled (st_p st) = true ->
     process args_ st = (Ok tt, st) /\ postprocess_image args_ st = (Ok tt, st)).
Proof.
  split; [| split].
  - intros p args image job Hb. apply (regeneration_job_marker p args).
    exists image, job. auto.
  - intros args n st res st' new Hrun Hnew.
    eapply Forall_impl; [eapply stage_engine_jobs; eassumption |].
    intros job. apply regeneration_job_marker.
  - intros args_ st Hflag. unfold process, postprocess_image, bind, get_p.
    rewrite Hflag. split; reflexivity.
Qed.

Lemma regeneration_job_sampler p args job :
  regeneration_job p args job ->
  (sampler_name p = "PLMS" \/ sampler_name p = "UniPC" ->
   sampler_name job = "Euler") /\
  (sampler_name p <> "PLMS" -> sampler_name p <> "UniPC" ->
   sampler_name job = sampler_name p) /\
  sampler_name job <> "PLMS" /\ sampler_name job <> "UniPC".
Proof.
  intros (image & i2i & (st0 & st1 & Hrun) & Hjob).
  apply get_i2i_p_run in Hrun as [_ Hfields].
  destruct (Hfields i2i eq_refl)
    as (pr & npr & sd & ssd & sr & _ & _ & _ & _ & _ & _ & _ & _ & Hsampler & _).
  assert (sampler_name job = sampler_name i2i) as ->.
  { destruct Hjob as [-> | (s & t & imgs & m & j & ->)]; reflexivity. }
  rewrite Hsampler. case_bool_decide as Hin.
  - repeat split; try discriminate.
    intros Hn1 Hn2. apply elem_of_cons in Hin as [? | Hin]; [contradiction |].
    apply list_elem_of_singleton in Hin. contradiction.
  - assert (sampler_name p <> "PLMS" /\ sampler_name p <> "UniPC") as [Hn1 Hn2].
    { split; intros Heq; apply Hin; rewrite Heq.
      - apply elem_of_cons. left. reflexivity.
      - apply elem_of_cons. right. apply list_elem_of_singleton. reflexivity. }
    repeat split; try assumption.
    intros [? | ?]; contradiction.
Qed.

(** C7.  The sampler of a built job is "Euler" when the parent's is
    "PLMS" or "UniPC", and the parent's otherwise; it is never one of
    those two.  The same holds of every job a stage hands to the engine. *)
Theorem sampler_substitution p args :
  let substituted job :=
    (sampler_name p = "PLMS" \/ sampler_name p = "UniPC" ->
     sampler_name job = "Euler") /\
    (sampler_name p <> "PLMS" -> sampler_name p <> "UniPC" ->
     sampler_name job = sampler_name p) /\
    sampler_name job <> "PLMS" /\ sampler_name job <> "UniPC" in
  (forall image job, built p args image job -> substituted job) /\
  (forall n st res st' new,
     st_p st = p ->
     _postprocess_image args n st = (res, st') ->
     st_trace st' = st_trace st ++ new ->
     Forall substituted (engine_jobs new)).
Proof.
  cbv zeta. split.
  - intros image job Hb. apply (regeneration_job_sampler p args).
    exists image, job. auto.
  - intros n st res st' new <- Hrun Hnew.
    eapply Forall_impl; [eapply stage_engine_jobs; eassumption |].
    intros job. apply regeneration_job_sampler.
Qed.

Lemma filter_by_stem (names : gset string) (l : list Script) :
  (list_to_set
     (map (fun s => Str.path_stem (filename s))
          (List.filter
             (fun s => bool_decide (Str.path_stem (filename s) ∈ names)) l))
   : gset string)
  = list_to_set (map (fun s => Str.path_stem (filename s)) l) ∩ names.
Proof.
  induction l as [| s l IH]; simpl.
  - set_solver.
  - case_bool_decide as Hin; simpl; rewrite IH; set_solver.
Qed.

Lemma script_names_wildcards : script_names "wildcards" = {[ "wildcards" ]}.
Proof.
  unfold script_names.
  change (Str.split "," "wildcards") with ["wildcards"]. simpl flat_map.
  change (Str.strip "wildcards") with "wildcards". set_solver.
Qed.

(** C6, as amended.  With the allow-list "wildcards" and a ControlNet
    model selected, the always-on scripts of a built job are those of the
    parent whose file stem is "wildcards" or "controlnet", in the parent's
    order: the active set is the parent's cut down to these two names, and
    a name the parent did not have is not added. *)
Theorem allow_list_filter p args image job :
  built p args image job ->
  truthy (opts_get "ad_only_seleted_scripts" (PyBool true)) = true ->
  opts_data !! "ad_script_names" = Some (PyStr "wildcards") ->
  ad_controlnet_model args <> "None" ->
  (exists runner,
     scripts p = Some runner /\
     scripts job =
       Some {| alwayson_scripts :=
                 List.filter
                   (fun s => bool_decide (Str.path_stem (filename s)
                                          ∈ ({[ "wildcards"; "controlnet" ]} : gset string)))
                   (alwayson_scripts runner) |}) /\
  active_extensions job = active_extensions p ∩ {[ "wildcards"; "controlnet" ]}.
Proof.
  intros (st & st' & Hrun) Honly Hnames Hcn.
  apply get_i2i_p_run in Hrun as [_ Hfields].
  destruct (Hfields job eq_refl)
    as (pr & npr & sd & ssd & sr & _ & _ & Hfilter & _ & _ & _ & _ & Hscripts & _).
  clear Hfields. unfold script_filter in Hfilter.
  rewrite Honly in Hfilter. simpl negb in Hfilter. cbv iota in Hfilter.
  unfold opts_get at 1 in Hfilter. rewrite Hnames in Hfilter.
  simpl default in Hfilter. cbv iota in Hfilter.
  destruct (String.eqb_spec (ad_controlnet_model args) "None") as [? | _];
    [contradiction |].
  simpl negb in Hfilter. cbv iota in Hfilter.
  rewrite script_names_wildcards in Hfilter.
  assert (({[ "controlnet" ]} ∪ {[ "wildcards" ]} : gset string)
          = {[ "wildcards"; "controlnet" ]}) as Hset by set_solver.
  rewrite Hset in Hfilter.
  destruct (scripts p) as [runner |] eqn:Hp; [| discriminate].
  injection Hfilter as <-.
  split; [exists runner; split; [reflexivity | exact Hscripts] |].
  unfold active_extensions. rewrite Hscripts, Hp. simpl alwayson_scripts.
  apply filter_by_stem.
Qed.

(** C9.  A model name that does not select the mediapipe backend and is
    not a key of [model_mapping] makes the model lookup [get_ad_model] fail
    with the error of the unknown detector name (in Python a
    [ValueError]), whose message holds the [repr] of the requested name and
    the list of all registered names.  The detection step of a stage fails
    with that error from every state, without calling a backend; and the
    stage raises with neither a detector nor an engine call made and the
    working image as it was. *)
Theorem unknown_model_raises_ValueError args n st :
  Str.startswith (Str.lower (ad_model args)) "mediapipe" = false ->
  dict_contains model_mapping (ad_model args) = false ->
  exists msg,
    get_ad_model (ad_model args) = Raise (Exn CValueError msg) /\
    occurs (Repr (PyStr (ad_model args))) msg /\
    occurs (Str (PyList (PyStr <$> dict_keys model_mapping))) msg /\
    (forall image st0,
       (if Str.startswith (Str.lower (ad_model args)) "mediapipe" then
          call (mediapipe_predict (ad_model args) image (ad_conf args))
               (EvMediapipe (ad_model args) image (ad_conf args))
        else
          let* ad_model_ := lift (get_ad_model (ad_model args)) in
          call (ultralytics_predict ad_model_ image (ad_conf args) ultralytics_device)
               (EvUltralytics ad_model_ image (ad_conf args) ultralytics_device)) st0
       = (Raise (Exn CValueError msg), st0)) /\
    exists e st',
      _postprocess_image args n st = (Raise e, st') /\
      (exists new, st_trace st' = st_trace st ++ new /\ core new = []) /\
      st_image st' = st_image st /\
      (forall i2i st1,
         get_i2i_p (st_p st) args (st_image st) st = (Ok i2i, st1) ->
         e = Exn CValueError msg).
Proof.
  intros Hmp Hreg.
  unfold get_ad_model. rewrite Hreg. simpl negb. cbv iota.
  eexists. split; [reflexivity |].
  split; [simpl; auto 10 |]. split; [simpl; auto 10 |].
  split.
  { intros image st0. rewrite Hmp. unfold bind, lift. reflexivity. }
  destruct (_postprocess_image args n st) as [res st'] eqn:Hrun.
  pose proof Hrun as Hshape. apply stage_run in Hshape as (new & Ht & _ & Hshape).
  apply stage_reading in Hshape
    as [(_ & Hcore & _ & (e & ->) & Himage)
       | (d & out & calls & Hd & _)].
  2: { destruct d; simpl in Hd; try contradiction.
       - destruct Hd as (Hmp' & _). congruence.
       - destruct Hd as (_ & Hget & _). unfold dict_contains in Hreg.
         rewrite Hget in Hreg. discriminate. }
  exists e, st'. split; [reflexivity |]. split; [eauto |]. split; [exact Himage |].
  intros i2i st1 Hbuild. unfold _postprocess_image in Hrun.
  unfold bind at 1 in Hrun. unfold get_p at 1 in Hrun.
  pose proof Hbuild as Hfields. apply get_i2i_p_run in Hfields as [_ Hfields].
  destruct (Hfields i2i eq_refl)
    as (pr & npr & sd & ssd & sr & Hprompt & Hseed & _).
  assert (exists i, read_idx (st_p st) = Ok i) as [i Hi].
  { unfold get_seed in Hseed. destruct (read_idx (st_p st)); [eauto | discriminate]. }
  unfold bind at 1 in Hrun. unfold lift at 1 in Hrun. rewrite Hi in Hrun.
  unfold bind at 1 in Hrun. unfold get_image at 1 in Hrun.
  unfold bind at 1 in Hrun. rewrite Hbuild in Hrun.
  unfold bind at 1 in Hrun. unfold lift at 1 in Hrun. rewrite Hseed in Hrun.
  rewrite Hmp in Hrun.
  unfold bind at 1 in Hrun. unfold bind at 1 in Hrun. unfold lift at 1 in Hrun.
  unfold get_ad_model in Hrun. rewrite Hreg in Hrun. simpl negb in Hrun.
  cbv iota in Hrun. injection Hrun as <- _. reflexivity.
Qed.

(** C10.  Called with no argument at all, or with the enable flag alone,
    [is_ad_enabled] raises a [ValueError] whose message says that not
    enough arguments were passed and shows the arguments; it does not
    answer [False]. *)
Theorem is_ad_enabled_not_enough_arguments (args_ : list pyval) :
  args_ = [] \/ (exists b, args_ = [PyBool b]) ->
  exists msg,
    is_ad_enabled args_ = Raise (Exn CValueError msg) /\
    (exists before after,
       occurs (Lit (before +:+ "Not enough arguments passed to ADetailer."
                    +:+ after)) msg) /\
    occurs (Repr (PyTuple args_)) msg /\
    is_ad_enabled args_ <> Ok false.
Proof.
  intros Hargs.
  assert ((Z.of_nat (length args_) =? 0) ||
          ((Z.of_nat (length args_) =? 1) &&
           from_option isinstance_bool false (args_ !! 0%nat)) = true) as Hcond.
  { destruct Hargs as [-> | [b ->]]; reflexivity. }
  unfold is_ad_enabled. cbv zeta. rewrite Hcond.
  eexists. split; [reflexivity |]. split; [| split; [simpl; auto 10 | discriminate]].
  exists (nl +:+ "                       [-] ADetailer: "),
         (nl +:+ "                           input: ").
  simpl. right. right. left. left. reflexivity.
Qed.

End Claims.

(** ** The whole pipeline *)

Section Pipeline.
Context `{Host}.

Lemma stdout_lines_app (tr1 tr2 : list event) :
  stdout_lines (tr1 ++ tr2) = stdout_lines tr1 ++ stdout_lines tr2.
Proof. apply omap_app. Qed.

Lemma saved_images_app (tr1 tr2 : list event) :
  saved_images (tr1 ++ tr2) = saved_images tr1 ++ saved_images tr2.
Proof. apply omap_app. Qed.

Lemma stderr_prints_read (pre : list event) :
  Forall is_stderr_print pre -> stdout_lines pre = [] /\ saved_images pre = [].
Proof.
  induction 1 as [| ev pre Hev _ [IH1 IH2]]; [split; reflexivity |].
  destruct ev as [[] ? | | | | |]; simpl in Hev; try contradiction.
  split; assumption.
Qed.

Lemma detection_logs args image out d :
  is_detection args image out d -> stdout_lines [d] = [] /\ saved_images [d] = [].
Proof. destruct d; simpl; try contradiction; split; reflexivity. Qed.

Lemma every_exception_is_Exception (e : exn) : isinstance_exn e CException = true.
Proof. destruct e as [[] msg]; reflexivity. Qed.

(** [postprocess_image] on an enabled job: the stages, then the snapshot
    of the image before (only when a stage changed it), then the
    parameter file, whose failure is swallowed. *)
Lemma postprocess_image_run args_ arg_list st res st' :
  adetailer_disabled (st_p st) = false ->
  is_ad_enabled args_ = Ok true ->
  get_args args_ = Ok arg_list ->
  postprocess_image args_ st = (res, st') ->
  exists res1 st1 tail,
    stage_loop 0 arg_list false (next_image st) = (res1, st1) /\
    st_trace st' = st_trace st1 ++ tail /\
    st_image st' = st_image st1 /\
    core tail = [] /\ stdout_lines tail = [] /\
    match res1 with
    | Raise e => res = Raise e /\ tail = []
    | Ok false => res = Ok tt /\ saved_images tail = []
    | Ok true => True
    end.
Proof.
  intros Hdis Hen Hargs Hrun. unfold postprocess_image in Hrun.
  unfold bind at 1 in Hrun. unfold get_p at 1 in Hrun. rewrite Hdis in Hrun.
  unfold bind at 1 in Hrun. unfold lift at 1 in Hrun. rewrite Hen in Hrun.
  simpl negb in Hrun. cbv iota in Hrun.
  unfold bind at 1 in Hrun. unfold put_p at 1 in Hrun.
  fold (next_image st) in Hrun.
  unfold bind at 1 in Hrun. unfold get_image at 1 in Hrun.
  unfold bind at 1 in Hrun. unfold lift at 1 in Hrun. rewrite Hargs in Hrun.
  bind_cases Hrun is_processed st1 Hloop.
  2: { exists (Raise x), st', []. rewrite app_nil_r. repeat split. exact Hloop. }
  exists (Ok is_processed), st1.
  assert (forall st2, exists tail2,
    let r := try_except
      (let* p := get_p in
       let* i := lift (read_idx p) in
       let* n := lift (len_opt (all_prompts p)) in
       if i =? n - 1 then write_params_txt p else ret tt)
      CException (fun _ => ret tt) st2 in
    r.1 = Ok tt /\ st_trace r.2 = st_trace st2 ++ tail2 /\
    st_image r.2 = st_image st2 /\
    core tail2 = [] /\ stdout_lines tail2 = [] /\ saved_images tail2 = [])
    as Hfile.
  { intros st2. unfold try_except.
    match goal with |- context [?m st2] =>
      match m with bind _ _ => destruct (m st2) as [r2 st3] eqn:Hm end end.
    assert (exists tail2, st_trace st3 = st_trace st2 ++ tail2 /\
              st_image st3 = st_image st2 /\
              core tail2 = [] /\ stdout_lines tail2 = [] /\ saved_images tail2 = [])
      as (tail2 & Ht2 & Hi2 & Hc2 & Hs2 & Hv2).
    { assert (exists tail2, st_trace st2 = st_trace st2 ++ tail2 /\
                st_image st2 = st_image st2 /\
                core tail2 = [] /\ stdout_lines tail2 = [] /\ saved_images tail2 = [])
        as Hsame by (exists []; rewrite app_nil_r; repeat split).
      bind_cases Hm p st4 Hp; [| inversion Hp].
      inversion Hp; subst p st4; clear Hp.
      bind_cases Hm i st4 Hi; lift_cases Hi; [| exact Hsame].
      bind_cases Hm n st4 Hn; lift_cases Hn; [| exact Hsame].
      destruct (i =? n - 1); [| inversion Hm; subst; exact Hsame].
      unfold write_params_txt in Hm.
      bind_cases Hm info st4 Hinfo; lift_cases Hinfo; [| exact Hsame].
      apply call_run in Hm as (_ & Hi4 & Ht4).
      eexists [_]. repeat split; eassumption || reflexivity. }
    exists tail2. destruct r2 as [[] | e]; simpl.
    - repeat split; assumption.
    - rewrite every_exception_is_Exception. simpl. repeat split; assumption. }
  bind_cases Hrun u st2 Hsave.
  - destruct (Hfile st2) as (tail2 & Hf). cbv zeta in Hf. rewrite Hrun in Hf.
    simpl in Hf. destruct Hf as (-> & Ht2 & Hi2 & Hc2 & Hs2 & Hv2).
    destruct is_processed.
    + bind_cases Hsave p st3 Hp.
      inversion Hp; subst p st3; clear Hp.
      apply save_image_run in Hsave as (_ & Hi3 & diag & Ht3 & Hc3 & Hs3).
      exists (diag ++ tail2).
      split; [exact Hloop |].
      split; [rewrite Ht2, Ht3, app_assoc; reflexivity |].
      split; [congruence |].
      split; [rewrite core_app, Hc3, Hc2; reflexivity |].
      split; [rewrite stdout_lines_app, Hs3, Hs2; reflexivity | exact I].
    + inversion Hsave; subst u st2; clear Hsave.
      exists tail2. repeat split; assumption.
  - destruct is_processed; [| inversion Hsave].
    bind_cases Hsave p st3 Hp; [| inversion Hp].
    inversion Hp; subst p st3; clear Hp.
    apply save_image_run in Hsave as (_ & Hi3 & diag & Ht3 & Hc3 & Hs3).
    exists diag. repeat split; assumption.
Qed.

(** A stage whose detector found nothing (or that never reached its
    detector) leaves no engine call, no saved image, and the working image
    as it was; it prints one line exactly when the detector answered. *)
Lemma stage_nothing args p image res final new :
  stage_shape args p image res final new ->
  (length (detections new) <= 1)%nat /\
  (forall b, res = Ok b -> length (detections new) = 1%nat) /\
  (Forall empty_detection (detections new) ->
   engine_calls new = [] /\ saved_images new = [] /\ final = image /\
   length (stdout_lines new) = length (detections new) /\
   (length (detections new) = 1%nat -> res = Ok false)).
Proof.
  intros Hshape. destruct Hshape as
    [e pre Hpre | e pre d Hpre Hd | pre d pred msg Hpre Hd Hm
    | res final pre d pred diag i2i seed_ subseed_ calls Hpre Hd Hm Hdiag Hb Hs Hc Hl Hok Hraise].
  - destruct (stderr_prints_read _ Hpre) as [Hs Hv].
    apply stderr_prints_core in Hpre. destruct (core_nil_read _ Hpre) as [He Hdt].
    rewrite Hdt, He, Hs, Hv. simpl. repeat split; try lia; discriminate.
  - destruct (stderr_prints_read _ Hpre) as [Hs Hv].
    apply stderr_prints_core in Hpre. destruct (core_nil_read _ Hpre) as [He Hdt].
    destruct (detection_read _ _ _ _ Hd) as (_ & He1 & Hd1).
    destruct (detection_logs _ _ _ _ Hd) as (Hs1 & Hv1).
    rewrite detections_app, engine_calls_app, stdout_lines_app, saved_images_app,
      Hdt, He, Hs, Hv, He1, Hd1, Hs1, Hv1. simpl.
    split; [lia |]. split; [discriminate |].
    intros Hall. apply Forall_cons in Hall as [(pred & Hout & _) _]. discriminate.
  - destruct (stderr_prints_read _ Hpre) as [Hs Hv].
    apply stderr_prints_core in Hpre. destruct (core_nil_read _ Hpre) as [He Hdt].
    destruct (detection_read _ _ _ _ Hd) as (_ & He1 & Hd1).
    destruct (detection_logs _ _ _ _ Hd) as (Hs1 & Hv1).
    change [d; EvPrint false msg] with ([d] ++ [EvPrint false msg]).
    rewrite !detections_app, !engine_calls_app, !stdout_lines_app, !saved_images_app,
      Hdt, He, Hs, Hv, He1, Hd1, Hs1, Hv1. simpl.
    repeat split; lia.
  - apply stderr_prints_core in Hpre. destruct (core_nil_read _ Hpre) as [He Hdt].
    destruct (detection_read _ _ _ _ Hd) as (_ & He1 & Hd1).
    destruct (core_nil_read _ Hdiag) as [He2 Hd2].
    destruct (engine_events_read calls) as (_ & He3 & Hd3).
    change (d :: diag ++ engine_events calls)
      with ([d] ++ diag ++ engine_events calls).
    rewrite !detections_app, Hdt, Hd1, Hd2, Hd3. simpl.
    split; [lia |]. split; [reflexivity |].
    intros Hall. apply Forall_cons in Hall as [(pred' & Hout & Hempty) _].
    simpl in Hout. injection Hout as <-. contradiction.
Qed.

Lemma active_stages_cons args rest :
  active_stages (args :: rest) =
  if String.eqb (ad_model args) "None" then active_stages rest
  else args :: active_stages rest.
Proof.
  unfold active_stages. simpl. destruct (String.eqb (ad_model args) "None"); reflexivity.
Qed.

(** The loop over the stages, as long as the detectors find nothing. *)
Lemma stage_loop_nothing arg_list :
  forall n b st res st',
    stage_loop n arg_list b st = (res, st') ->
    exists new,
      st_trace st' = st_trace st ++ new /\ st_p st' = st_p st /\
      (length (detections new) <= length (active_stages arg_list))%nat /\
      (Forall empty_detection (detections new) ->
       engine_calls new = [] /\ saved_images new = [] /\
       st_image st' = st_image st /\
       length (stdout_lines new) = length (detections new) /\
       (length (detections new) = length (active_stages arg_list) -> res = Ok b)).
Proof.
  induction arg_list as [| args rest IH]; intros n b st res st' Hrun.
  - inversion Hrun; subst. exists []. rewrite app_nil_r. simpl. repeat split. lia.
  - simpl in Hrun. rewrite active_stages_cons.
    destruct (String.eqb (ad_model args) "None"); [eapply IH; exact Hrun |].
    bind_cases Hrun done_ st1 Hstage;
      apply stage_run in Hstage as (new1 & Ht1 & Hp1 & Hshape);
      apply stage_nothing in Hshape as (Hle1 & Hok1 & Hnothing1).
    + apply IH in Hrun as (new2 & Ht2 & Hp2 & Hle2 & Hnothing2).
      exists (new1 ++ new2).
      split; [rewrite Ht2, Ht1, app_assoc; reflexivity |].
      split; [congruence |].
      rewrite detections_app, length_app. specialize (Hok1 _ eq_refl).
      split; [simpl; lia |].
      intros Hall. apply Forall_app in Hall as [Hall1 Hall2].
      destruct (Hnothing1 Hall1) as (He1 & Hv1 & Hi1 & Hs1 & Hres1).
      destruct (Hnothing2 Hall2) as (He2 & Hv2 & Hi2 & Hs2 & Hres2).
      specialize (Hres1 Hok1). injection Hres1 as ->.
      rewrite orb_false_r in Hres2.
      rewrite engine_calls_app, saved_images_app, stdout_lines_app, length_app,
        He1, He2, Hv1, Hv2, Hs1, Hs2.
      repeat split; try congruence.
      intros Hlen. apply Hres2. simpl in Hlen. lia.
    + exists new1. split; [exact Ht1 |]. split; [exact Hp1 |].
      split; [simpl; lia |].
      intros Hall. destruct (Hnothing1 Hall) as (He1 & Hv1 & Hi1 & Hs1 & Hres1).
      repeat split; try assumption.
      intros Hlen. simpl in Hlen.
      assert (length (detections new1) = 1%nat) as Hone by lia.
      specialize (Hres1 Hone). discriminate.
Qed.

(** A stage whose detection yields nothing: it returns [False], having
    made its one detector call and printed its one line. *)
Lemma stage_finds_nothing args n st :
  can_be_built (st_p st) args ->
  finds_nothing args (st_image st) ->
  exists st' pre d pred msg,
    _postprocess_image args n st = (Ok false, st') /\
    st_trace st' = st_trace st ++ pre ++ [d; EvPrint false msg] /\
    Forall is_stderr_print pre /\
    is_detection args (st_image st) (Ok pred) d /\
    mask_preprocess (masks pred) = [] /\
    st_p st' = st_p st /\ st_image st' = st_image st.
Proof.
  intros Hbuild Hnothing.
  destruct (Hbuild (st_image st) st) as (job & st1 & Hjob).
  pose proof (get_i2i_p_run _ _ _ _ _ _ Hjob)
    as [(Hp1 & Hi1 & pre & Ht1 & Hpre) Hfields].
  destruct (Hfields job eq_refl)
    as (pr & npr & sd & ssd & sr & _ & Hseed & _).
  assert (exists i, read_idx (st_p st) = Ok i) as [i Hi].
  { unfold get_seed in Hseed. destruct (read_idx (st_p st)); [eauto | discriminate]. }
  specialize (Hnothing (st_ext st1)).
  destruct (_postprocess_image args n st) as [res st'] eqn:Hrun.
  unfold _postprocess_image in Hrun.
  unfold bind at 1 in Hrun. unfold get_p at 1 in Hrun.
  unfold bind at 1 in Hrun. unfold lift at 1 in Hrun. rewrite Hi in Hrun.
  unfold bind at 1 in Hrun. unfold get_image at 1 in Hrun.
  unfold bind at 1 in Hrun. rewrite Hjob in Hrun.
  unfold bind at 1 in Hrun. unfold lift at 1 in Hrun. rewrite Hseed in Hrun.
  unfold bind at 1 in Hrun.
  destruct (Str.startswith (Str.lower (ad_model args)) "mediapipe") eqn:Hmp.
  - destruct Hnothing as (pred & e' & Hcall & Hempty).
    unfold call at 1 in Hrun. rewrite Hcall in Hrun. rewrite Hempty in Hrun.
    unfold bind, print, emit, ret in Hrun. simpl in Hrun.
    injection Hrun as <- <-. simpl.
    eexists _, pre, _, pred, _. split; [reflexivity |].
    split; [simpl; rewrite Ht1, <- !app_assoc; reflexivity |].
    split; [exact Hpre |].
    split; [simpl; rewrite Hmp; auto |]. auto.
  - destruct Hnothing as (path & pred & e' & Hpath & Hcall & Hempty).
    unfold bind at 1 in Hrun. unfold lift at 1 in Hrun.
    unfold get_ad_model, dict_contains in Hrun. rewrite Hpath in Hrun.
    simpl negb in Hrun. cbv iota in Hrun.
    unfold call at 1 in Hrun. rewrite Hcall in Hrun. rewrite Hempty in Hrun.
    unfold bind, print, emit, ret in Hrun. simpl in Hrun.
    injection Hrun as <- <-. simpl.
    eexists _, pre, _, pred, _. split; [reflexivity |].
    split; [simpl; rewrite Ht1, <- !app_assoc; reflexivity |].
    split; [exact Hpre |].
    split; [simpl; rewrite Hmp; auto 10 |]. auto.
Qed.

(** The stages one after the other, when the detection of each yields
    nothing: every stage with a model is run. *)
Lemma stage_loop_finds_nothing (rest : list ADetailerArgs) :
  forall n b st,
    (forall args, args ∈ active_stages rest ->
       can_be_built (st_p st) args /\ finds_nothing args (st_image st)) ->
    exists st' new,
      stage_loop n rest b st = (Ok b, st') /\
      st_trace st' = st_trace st ++ new /\
      st_p st' = st_p st /\ st_image st' = st_image st /\
      engine_calls new = [] /\ saved_images new = [] /\
      length (detections new) = length (active_stages rest) /\
      Forall (fun d => d.1 = st_image st /\ empty_detection d) (detections new) /\
      length (stdout_lines new) = length (active_stages rest).
Proof.
  induction rest as [| args rest IH]; intros n b st Hstages.
  - exists st, []. rewrite app_nil_r. simpl. repeat split. constructor.
  - rewrite active_stages_cons in Hstages. rewrite active_stages_cons.
    cbn [stage_loop].
    destruct (String.eqb (ad_model args) "None").
    { apply IH. exact Hstages. }
    destruct (Hstages args ltac:(left)) as [Hbuild Hnothing].
    destruct (stage_finds_nothing args n st Hbuild Hnothing)
      as (st1 & pre & d & pred & msg & Hrun & Ht1 & Hpre & Hd & Hempty & Hp1 & Hi1).
    destruct (IH (n + 1) b st1) as (st2 & new2 & Hloop & Ht2 & Hp2 & Hi2 & He2
                                    & Hv2 & Hlen2 & Hall2 & Hout2).
    { intros a Ha. rewrite Hp1, Hi1. apply Hstages. right. exact Ha. }
    exists st2, ((pre ++ [d; EvPrint false msg]) ++ new2).
    unfold bind. rewrite Hrun. rewrite orb_false_r.
    split; [exact Hloop |].
    split; [rewrite Ht2, Ht1, <- !app_assoc; reflexivity |].
    split; [congruence |]. split; [congruence |].
    destruct (stderr_prints_read _ Hpre) as [Hpre_out Hpre_saved].
    destruct (core_nil_read _ (stderr_prints_core _ Hpre)) as [Hpre_calls Hpre_det].
    destruct (detection_read _ _ _ _ Hd) as (_ & Hd_calls & Hd_det).
    destruct (detection_logs _ _ _ _ Hd) as [Hd_out Hd_saved].
    change [d; EvPrint false msg] with ([d] ++ [EvPrint false msg]).
    rewrite !engine_calls_app, !saved_images_app, !detections_app, !stdout_lines_app.
    rewrite Hpre_out, Hpre_saved, Hpre_calls, Hpre_det, Hd_calls, Hd_det, Hd_out,
      Hd_saved, He2, Hv2.
    simpl. rewrite Hlen2, Hout2.
    repeat split.
    constructor.
    + split; [reflexivity |]. exists pred. auto.
    + rewrite Hi1 in Hall2. exact Hall2.
Qed.

(** C3.  When, for every stage of an image that has a model (every stage
    whose model is not "None"), the job of the stage can be built and
    detection on the image yields an empty mask sequence, then
    [postprocess_image] returns without an error, the working image is the
    one it was given, no call to the regeneration engine is made and no
    image is saved; every such stage is run, each on the image as it was
    given, and each prints its one line: after a stage that found nothing
    the next stage goes on. *)
Theorem nothing_detected_is_a_no_op args_ arg_list st :
  adetailer_disabled (st_p st) = false ->
  is_ad_enabled args_ = Ok true ->
  get_args args_ = Ok arg_list ->
  (forall args, args ∈ active_stages arg_list ->
     can_be_built (st_p (next_image st)) args /\
     finds_nothing args (st_image st)) ->
  exists st' new,
    postprocess_image args_ st = (Ok tt, st') /\
    st_trace st' = st_trace st ++ new /\
    st_image st' = st_image st /\
    engine_calls new = [] /\
    saved_images new = [] /\
    length (detections new) = length (active_stages arg_list) /\
    Forall (fun d => d.1 = st_image st /\ empty_detection d) (detections new) /\
    length (stdout_lines new) = length (active_stages arg_list).
Proof.
  intros Hdis Hen Hargs Hstages.
  destruct (stage_loop_finds_nothing arg_list 0 false (next_image st) Hstages)
    as (st2 & new1 & Hloop2 & Ht2 & _ & Hi2 & He2 & Hv2 & Hlen2 & Hall2 & Hout2).
  destruct (postprocess_image args_ st) as [res st'] eqn:Hrun.
  destruct (postprocess_image_run _ _ _ _ _ Hdis Hen Hargs Hrun)
    as (res1 & st1 & tail & Hloop & Ht & Hi & Hc & Hs & Hres).
  rewrite Hloop2 in Hloop. injection Hloop as <- <-.
  destruct Hres as [-> Hv].
  destruct (core_nil_read _ Hc) as [He Hd].
  exists st', (new1 ++ tail). split; [reflexivity |].
  split; [rewrite Ht, Ht2, <- app_assoc; reflexivity |].
  split; [rewrite Hi, Hi2; reflexivity |].
  rewrite engine_calls_app, saved_images_app, detections_app, stdout_lines_app,
    He, He2, Hv, Hv2, Hd, Hs, !app_nil_r.
  repeat split; assumption.
Qed.

Lemma call_ok_inv (job : Processing) (out : result Processed) :
  call_ok (job, out) ->
  exists r image,
    out = Ok r /\ head (images r) = Some image /\ output_image out = Some image.
Proof.
  unfold call_ok. simpl. intros [image Himage].
  destruct out as [r | e]; [| discriminate]. exists r, image. auto.
Qed.



End Pipeline.

(** ** The properties on the small host *)

(** C1 on the small host: one stage on image 1 of the batch, two masks,
    two jobs, seeds 1001 and 1002, subseeds 2001 and 2002. *)
Lemma seed_advancement_witness :
  get_seed (Demo.parent_at 1) = Ok (1001, 2001) /\
  Demo.stage_run1.1 = Ok true /\
  length (mask_preprocess (Host := Demo.host ∅) (masks (Demo.detect_mediapipe 5)))
    = 2%nat /\
  length (engine_jobs (st_trace Demo.stage_run1.2)) = 2%nat /\
  seed <$> engine_jobs (st_trace Demo.stage_run1.2) = [1001; 1002] /\
  subseed <$> engine_jobs (st_trace Demo.stage_run1.2) = [2001; 2002].
Proof.
  split; [reflexivity |]. split; [vm_compute; reflexivity |].
  split; [reflexivity |].
  destruct (@seed_advancement Demo.types (Demo.host ∅) Demo.mediapipe_stage 0
              (Demo.start (Demo.parent_at 1) 5) Demo.stage_run1.1 Demo.stage_run1.2
              1001 2001 eq_refl (surjective_pairing _))
    as (new & Ht & _ & _ & Hall).
  change (st_trace Demo.stage_run1.2 = new) in Ht. subst new.
  destruct (Hall true) as (image & pred & Hd & Hlen & Hseeds & Hsubseeds);
    [vm_compute; reflexivity |].
  assert (pred = Demo.detect_mediapipe 5) as ->.
  { vm_compute in Hd. injection Hd as _ <-. reflexivity. }
  split; [exact Hlen |]. split; [exact Hseeds | exact Hsubseeds].
Defined.


(** C3 on the small host: two stages on a model that finds nothing. *)
Lemma nothing_detected_witness :
  Demo.pipeline_empty.1 = Ok tt /\
  st_image Demo.pipeline_empty.2 = 5 /\
  engine_calls (st_trace Demo.pipeline_empty.2) = [] /\
  saved_images (st_trace Demo.pipeline_empty.2) = [] /\
  length (detections (st_trace Demo.pipeline_empty.2)) = 2%nat /\
  length (stdout_lines (st_trace Demo.pipeline_empty.2)) = 2%nat.
Proof.
  destruct (@nothing_detected_is_a_no_op Demo.types (Demo.host ∅) Demo.empty_stages
              [Demo.args_of_dict [("ad_model", PyStr "hand_yolov8n.pt")];
               Demo.args_of_dict [("ad_model", PyStr "hand_yolov8n.pt");
                                  ("ad_prompt", PyStr "a hand")]]
              (Demo.start Demo.parent 5))
    as (st' & new & Hrun & Ht & Himage & Hcalls & Hsaved & Hdet & _ & Hout).
  - reflexivity.
  - reflexivity.
  - reflexivity.
  - intros args Hin.
    assert (args = Demo.args_of_dict [("ad_model", PyStr "hand_yolov8n.pt")] \/
            args = Demo.args_of_dict [("ad_model", PyStr "hand_yolov8n.pt");
                                      ("ad_prompt", PyStr "a hand")]) as Hargs.
    { vm_compute in Hin.
      repeat (apply elem_of_cons in Hin as [Hin | Hin]; [auto |]).
      apply elem_of_nil in Hin. contradiction. }
    destruct Hargs as [-> | ->]; split.
    + intros image st. eexists _, _. reflexivity.
    + intros e. simpl. eexists _, _, _. repeat split.
    + intros image st. eexists _, _. reflexivity.
    + intros e. simpl. eexists _, _, _. repeat split.
  - change (postprocess_image (H0 := Demo.host ∅) Demo.empty_stages
              (Demo.start Demo.parent 5)) with Demo.pipeline_empty in Hrun.
    rewrite Hrun. simpl fst. simpl snd.
    change (st_trace st' = new) in Ht. subst new.
    repeat split; assumption.
Defined.

Lemma built_job5 :
  built (H0 := Demo.host ∅) (Demo.parent_at 5) Demo.mediapipe_stage 5 Demo.job5.
Proof.
  exists (Demo.start (Demo.parent_at 5) 5), Demo.build5.2. vm_compute. reflexivity.
Defined.

(** C4 on the small host: image index 5 and a list of three prompts
    select the entry at index 2; the seeds likewise. *)
Lemma prompt_and_seed_selection_witness :
  [("a portrait" : string); "a portrait, smiling"; "a portrait, profile"] !! 2%nat
    = Some (prompt Demo.job5) /\
  [1000; 1001; 1002] !! 2%nat = Some (seed Demo.job5) /\
  [2000; 2001; 2002] !! 2%nat = Some (subseed Demo.job5).
Proof.
  destruct (@prompt_and_seed_selection Demo.types (Demo.host ∅) (Demo.parent_at 5)
              Demo.mediapipe_stage 5 Demo.job5 5 built_job5 eq_refl)
    as ((_ & Hprompt) & _ & (Hseed & _) & (Hsubseed & _)).
  destruct (Hprompt eq_refl) as [Hlist _].
  split; [apply (Hlist _ eq_refl); discriminate |].
  split; [apply (Hseed _ eq_refl); discriminate
         | apply (Hsubseed _ eq_refl); discriminate].
Defined.

(** C5 on the small host: the built job carries the marker, and both
    entry points leave a state holding that job untouched. *)
Lemma sub_jobs_do_not_recurse_witness :
  _disable_adetailer Demo.job5 = Some true /\
  process (H0 := Demo.host ∅) Demo.two_stages (Demo.start Demo.job5 5)
    = (Ok tt, Demo.start Demo.job5 5) /\
  postprocess_image (H0 := Demo.host ∅) Demo.two_stages (Demo.start Demo.job5 5)
    = (Ok tt, Demo.start Demo.job5 5).
Proof.
  destruct (@sub_jobs_do_not_recurse Demo.types (Demo.host ∅))
    as (Hbuilt & _ & Hentry).
  split; [exact (Hbuilt _ _ _ _ built_job5) |].
  apply Hentry. reflexivity.
Defined.

(** C7 on the small host: the parent samples with "UniPC", the job with
    "Euler". *)
Lemma sampler_substitution_witness :
  sampler_name (Demo.parent_at 5) = "UniPC" /\ sampler_name Demo.job5 = "Euler".
Proof.
  split; [reflexivity |].
  destruct (@sampler_substitution Demo.types (Demo.host ∅) (Demo.parent_at 5)
              Demo.mediapipe_stage) as [Hbuilt _].
  apply (Hbuilt 5 Demo.job5 built_job5). right. reflexivity.
Defined.

Lemma built_job_cn (p : Processing) :
  (Demo.build_cn p).1 = Ok (Demo.job_cn p) ->
  built (H0 := Demo.host Demo.wildcards_only) p Demo.controlnet_stage 5
    (Demo.job_cn p).
Proof.
  intros Hok. exists (Demo.start p 5), (Demo.build_cn p).2.
  rewrite <- Hok. apply surjective_pairing.
Defined.

(** C6, as amended, on the small host: the parent runs four always-on
    scripts, wildcards and controlnet among them; the job keeps these two. *)
Lemma allow_list_filter_witness :
  active_extensions (Demo.job_cn (Demo.parent_at 0))
    = active_extensions (Demo.parent_at 0) ∩ {[ "wildcards"; "controlnet" ]}.
Proof.
  apply (@allow_list_filter Demo.types (Demo.host Demo.wildcards_only)
           (Demo.parent_at 0) Demo.controlnet_stage 5 (Demo.job_cn (Demo.parent_at 0))).
  - apply built_job_cn. vm_compute. reflexivity.
  - reflexivity.
  - reflexivity.
  - discriminate.
Defined.

(** C6, as stated, fails on a host without the wildcards extension: with
    the allow-list "wildcards" and a ControlNet model selected, the only
    always-on script of the built job is controlnet. *)
Lemma allow_list_does_not_add_wildcards :
  (Demo.build_cn Demo.parent_without_wildcards).1
    = Ok (Demo.job_cn Demo.parent_without_wildcards) /\
  active_extensions (Demo.job_cn Demo.parent_without_wildcards) = {[ "controlnet" ]} /\
  active_extensions (Demo.job_cn Demo.parent_without_wildcards)
    <> {[ "wildcards"; "controlnet" ]}.
Proof.
  split; [vm_compute; reflexivity |].
  assert (active_extensions (Demo.job_cn Demo.parent_without_wildcards)
          = {[ "controlnet" ]}) as Hactive.
  { unfold active_extensions.
    change (scripts (Demo.job_cn Demo.parent_without_wildcards))
      with (Some {| alwayson_scripts :=
                      [ {| filename := "/ext/sd-webui-controlnet/scripts/controlnet.py" |} ] |}).
    simpl map.
    change (Str.path_stem "/ext/sd-webui-controlnet/scripts/controlnet.py")
      with "controlnet".
    set_solver. }
  split; [exact Hactive |].
  rewrite Hactive. intros Heq.
  assert ("wildcards" ∈ ({[ "controlnet" ]} : gset string)) as Hin
    by (rewrite Heq; set_solver).
  apply elem_of_singleton in Hin. discriminate.
Qed.

(** C9 on the small host: the model "eyes_yolov8n.pt" is not registered;
    the stage raises the error of the lookup and calls nothing. *)
Lemma unknown_model_raises_ValueError_witness :
  exists msg,
    get_ad_model (H0 := Demo.host ∅) "eyes_yolov8n.pt" = Raise (Exn CValueError msg) /\
    occurs (Repr (PyStr "eyes_yolov8n.pt")) msg /\
    occurs (Str (PyList [PyStr "face_yolov8n.pt"; PyStr "hand_yolov8n.pt"])) msg /\
    Demo.stage_unknown.1 = Raise (Exn CValueError msg) /\
    core (st_trace Demo.stage_unknown.2) = [] /\
    st_image Demo.stage_unknown.2 = 5.
Proof.
  destruct (@unknown_model_raises_ValueError Demo.types (Demo.host ∅)
              Demo.unknown_stage 0 (Demo.start (Demo.parent_at 0) 5)
              eq_refl eq_refl)
    as (msg & Hget & Hname & Hkeys & _ & e & st' & Hrun & (new & Ht & Hcore)
        & Himage & Herr).
  exists msg. split; [exact Hget |]. split; [exact Hname |]. split; [exact Hkeys |].
  change (_postprocess_image (H0 := Demo.host ∅) Demo.unknown_stage 0
            (Demo.start (Demo.parent_at 0) 5)) with Demo.stage_unknown in Hrun.
  rewrite Hrun. simpl fst. simpl snd. simpl in Ht. rewrite Ht.
  split; [| split; [exact Hcore | exact Himage]].
  f_equal. eapply Herr. vm_compute. reflexivity.
Defined.

(** C10 on the small host: the enable flag alone. *)
Lemma is_ad_enabled_not_enough_arguments_witness :
  exists msg,
    is_ad_enabled (H0 := Demo.host ∅) [PyBool true] = Raise (Exn CValueError msg) /\
    occurs (Repr (PyTuple [PyBool true])) msg.
Proof.
  destruct (@is_ad_enabled_not_enough_arguments Demo.types (Demo.host ∅)
              [PyBool true] (or_intror (ex_intro _ true eq_refl)))
    as (msg & Hraise & _ & Hshown & _).
  exists msg. split; assumption.
Defined.

(** * Further properties of the script *)

(** ** Tab names and parameter suffixes: [ordinal], [suffix] *)

Lemma string_app_length (a b : string) :
  String.length (a +:+ b) = (String.length a + String.length b)%nat.
Proof.
  induction a as [| c a IH]; [reflexivity |].
  change (String c a +:+ b) with (String c (a +:+ b)). simpl. rewrite IH.
  reflexivity.
Qed.

Lemma string_app_inj_tail (a b s t : string) :
  String.length s = String.length t -> a +:+ s = b +:+ t -> a = b.
Proof.
  intros Hlen. revert b. induction a as [| c a IH]; intros [| c' b] Heq.
  - reflexivity.
  - change (s = String c' (b +:+ t)) in Heq. rewrite Heq in Hlen.
    simpl in Hlen. rewrite string_app_length in Hlen. lia.
  - change (String c (a +:+ s) = t) in Heq. rewrite <- Heq in Hlen.
    simpl in Hlen. rewrite string_app_length in Hlen. lia.
  - change (String c (a +:+ s) = String c' (b +:+ t)) in Heq.
    injection Heq as -> Heq. f_equal. apply IH. exact Heq.
Qed.

Lemma ordinal_ending (n : Z) :
  exists ending, ordinal n = pretty n +:+ ending /\ String.length ending = 2%nat.
Proof.
  unfold ordinal. eexists. split; [reflexivity |].
  destruct ((11 <=? n `mod` 100) && (n `mod` 100 <=? 13)); [reflexivity |].
  destruct (n `mod` 10) as [| [[| |] | [| |] |] |]; reflexivity.
Qed.

Lemma ordinal_inj (n m : Z) : ordinal n = ordinal m -> n = m.
Proof.
  destruct (ordinal_ending n) as (en & -> & Hn).
  destruct (ordinal_ending m) as (em & -> & Hm).
  intros Heq. apply string_app_inj_tail in Heq; [| congruence].
  apply (inj pretty). exact Heq.
Qed.

Lemma ordinal_not_empty (n : Z) : ordinal n <> EmptyString.
Proof.
  destruct (ordinal_ending n) as (en & -> & Hn). intros Heq.
  apply (f_equal String.length) in Heq. rewrite string_app_length in Heq.
  simpl in Heq. lia.
Qed.

(** X1.  Two different stage numbers never share a suffix: the keys each
    stage writes into the generation parameters and the names of its
    preview files stay apart, whatever the separator. *)
Theorem suffix_distinct (n m : Z) (c : string) :
  n <> m -> suffix n c <> suffix m c.
Proof.
  intros Hnm. unfold suffix.
  destruct (Z.eqb_spec n 0) as [-> | Hn], (Z.eqb_spec m 0) as [-> | Hm].
  - congruence.
  - intros Heq. symmetry in Heq. apply (f_equal String.length) in Heq.
    rewrite string_app_length in Heq. simpl in Heq.
    pose proof (ordinal_not_empty (m + 1)) as Hne.
    destruct (ordinal (m + 1)); [congruence | simpl in Heq; lia].
  - intros Heq. apply (f_equal String.length) in Heq.
    rewrite string_app_length in Heq. simpl in Heq.
    pose proof (ordinal_not_empty (n + 1)) as Hne.
    destruct (ordinal (n + 1)); [congruence | simpl in Heq; lia].
  - intros Heq. apply (inj (String.app c)) in Heq. apply ordinal_inj in Heq. lia.
Qed.

Lemma suffix_distinct_witness :
  (0 <> 1) /\ suffix 0 " " <> suffix 1 " ".
Proof.
  split; [discriminate | apply (suffix_distinct 0 1 " "); discriminate].
Defined.

(** ** The UI state handlers *)

Section HandlerFacts.
Context `{Host}.

Lemma dict_get_set {A} (d : list (string * A)) (k k' : string) (v : A) :
  dict_get (dict_set d k v) k' =
  if String.eqb k k' then Some v else dict_get d k'.
Proof.
  induction d as [| [k0 v0] d IH]; simpl.
  - destruct (String.eqb k k'); reflexivity.
  - destruct (String.eqb_spec k0 k) as [-> | Hk0]; simpl.
    + destruct (String.eqb k k'); reflexivity.
    + rewrite IH. destruct (String.eqb_spec k0 k') as [-> | Hk0'].
      * destruct (String.eqb_spec k k'); [congruence | reflexivity].
      * reflexivity.
Qed.

Lemma on_generate_click_from_frame (attrs : list string) :
  forall values state attr,
    attr ∉ take (length values) attrs ->
    dict_get (on_generate_click_from attrs values state) attr = dict_get state attr.
Proof.
  induction attrs as [| a attrs IH]; intros values state attr Hnot;
    [destruct values; reflexivity |].
  destruct values as [| v values]; [reflexivity |].
  simpl in *. apply not_elem_of_cons in Hnot as [Hne Hnot].
  rewrite IH by exact Hnot. rewrite dict_get_set.
  destruct (String.eqb_spec a attr); [congruence | reflexivity].
Qed.

Lemma on_generate_click_from_sets (attrs : list string) :
  forall values state k attr value,
    NoDup attrs ->
    attrs !! k = Some attr -> values !! k = Some value ->
    dict_get (on_generate_click_from attrs values state) attr = Some value.
Proof.
  induction attrs as [| a attrs IH]; intros values state k attr value Hnd Ha Hv;
    [discriminate |].
  destruct values as [| v values]; [discriminate |].
  apply NoDup_cons in Hnd as [Hnotin Hnd].
  destruct k as [| k]; simpl in *.
  - injection Ha as ->. injection Hv as ->.
    rewrite on_generate_click_from_frame.
    + rewrite dict_get_set, String.eqb_refl. reflexivity.
    + intros Hin. apply Hnotin. apply elem_of_take in Hin as (i & Hi & _).
      eapply list_elem_of_lookup_2. exact Hi.
  - eapply IH; eassumption.
Qed.

(** X2.  Pressing Generate copies the widget values into the tab's state
    under the attribute names, position by position: afterwards the state
    holds the k-th value under the k-th attribute; an attribute that got no
    value (fewer values than attributes) and every other key of the state
    keep what they had; and the outcome is the same as reporting the
    widget changes one by one through [on_widget_change]. *)
Theorem on_generate_click_updates (state : list (string * pyval))
    (values : list pyval) :
  NoDup ALL_ARGS_attrs ->
  (forall k attr value,
     ALL_ARGS_attrs !! k = Some attr -> values !! k = Some value ->
     dict_get (on_generate_click state values) attr = Some value) /\
  (forall attr,
     attr ∉ take (length values) ALL_ARGS_attrs ->
     dict_get (on_generate_click state values) attr = dict_get state attr) /\
  on_generate_click state values =
    fold_left (fun st av => on_widget_change st av.2 av.1)
              (zip ALL_ARGS_attrs values) state.
Proof.
  intros Hnd. unfold on_generate_click. split; [| split].
  - intros k attr value Ha Hv. eapply on_generate_click_from_sets; eassumption.
  - intros attr Hnot. apply on_generate_click_from_frame. exact Hnot.
  - generalize ALL_ARGS_attrs as attrs. intros attrs. clear Hnd.
    revert values state. induction attrs as [| a attrs IH]; intros values state;
      [destruct values; reflexivity |].
    destruct values as [| v values]; [reflexivity |].
    simpl. apply IH.
Qed.

End HandlerFacts.

Lemma on_generate_click_updates_witness :
  NoDup ["ad_model"; "ad_prompt"; "ad_negative_prompt"] /\
  dict_get Demo2.clicked "ad_model" = Some (PyStr "face_yolov8n.pt") /\
  dict_get Demo2.clicked "ad_prompt" = Some (PyStr "new") /\
  dict_get Demo2.clicked "ad_negative_prompt" = None /\
  dict_get Demo2.clicked "is_api" = Some (PyBool false).
Proof.
  assert (NoDup ["ad_model"; "ad_prompt"; "ad_negative_prompt"]) as Hnd.
  { apply (bool_decide_unpack _). vm_compute. exact I. }
  destruct (@on_generate_click_updates Demo.types (Demo.host ∅) Demo2.tab_state
              [PyStr "face_yolov8n.pt"; PyStr "new"] Hnd)
    as (Hset & Hframe & _).
  split; [exact Hnd |].
  split; [apply (Hset 0%nat); reflexivity |].
  split; [apply (Hset 1%nat); reflexivity |].
  split; [apply (Hframe "ad_negative_prompt") | apply (Hframe "is_api")];
    vm_compute; intros Hin;
    repeat (apply elem_of_cons in Hin as [Hin | Hin]; [discriminate |]);
    apply elem_of_nil in Hin; exact Hin.
Defined.

(** ** Validation of the stage arguments: [get_args] *)

Lemma occurs_refl (t : text) : occurs t t.
Proof. destruct t; left; reflexivity. Qed.

Ltac find_occurs :=
  simpl;
  solve [reflexivity | apply occurs_refl | left; find_occurs | right; find_occurs].

Section GetArgs.
Context `{Host}.

Lemma getitem_head {A} (a0 : A) (rest : list A) : getitem (a0 :: rest) 0 = Ok a0.
Proof.
  destruct (getitem (a0 :: rest) 0) as [x | e] eqn:Hget;
    apply getitem_0 in Hget; simpl in Hget; congruence.
Qed.

Lemma get_args_from_Ok (args : list pyval) :
  forall n l,
    get_args_from n args = Ok l <->
    Forall2 (fun arg inp => construct_args arg = Ok inp) args l.
Proof.
  induction args as [| arg rest IH]; intros n l; simpl.
  - split; [intros [= <-]; constructor | intros Hall; inversion Hall; reflexivity].
  - split.
    + intros Hrun. apply rbind_Ok_inv in Hrun as (inp & Hinp & Hrun).
      apply rbind_Ok_inv in Hrun as (all & Hall & [= <-]).
      constructor; [| apply (IH (n + 1)); exact Hall].
      destruct (construct_args arg) as [inp0 | e]; [congruence |].
      destruct (isinstance_exn e CValueError); [discriminate |].
      destruct (isinstance_exn e CTypeError); discriminate.
    + intros Hall. inversion Hall as [| ? inp ? all Hinp Hrest]; subst.
      rewrite Hinp. simpl. apply (IH (n + 1)) in Hrest. rewrite Hrest.
      reflexivity.
Qed.

(** X3.  [get_args] returns exactly when there is a first argument and
    every stage argument (all of them, or all but a leading bool) is a
    mapping that validates; the result then holds the validated stages one
    for one, in the order they were given. *)
Theorem get_args_validates_every_stage (args_ : list pyval)
    (l : list ADetailerArgs) :
  get_args args_ = Ok l <->
  exists a0 rest,
    args_ = a0 :: rest /\
    Forall2 (fun arg inp =>
               exists d, arg = PyDict d /\ ADetailerArgs_init d = Ok inp)
            (if isinstance_bool a0 then rest else a0 :: rest) l.
Proof.
  assert (forall args,
            Forall2 (fun arg inp => construct_args arg = Ok inp) args l <->
            Forall2 (fun arg inp =>
                       exists d, arg = PyDict d /\ ADetailerArgs_init d = Ok inp)
                    args l) as Hsame.
  { intros args. split; intros Hall; eapply Forall2_impl; try exact Hall;
      simpl; intros arg inp.
    - destruct arg; simpl; try discriminate. eauto.
    - intros (d & -> & Hd). exact Hd. }
  unfold get_args. destruct args_ as [| a0 rest].
  - split; [discriminate | intros (? & ? & [=] & _)].
  - rewrite getitem_head. simpl.
    rewrite get_args_from_Ok, Hsame.
    split.
    + intros Hall. exists a0, rest. split; [reflexivity | exact Hall].
    + intros (a & r & [= <- <-] & Hall). exact Hall.
Qed.

Lemma get_args_from_first_bad (pre : list pyval) :
  forall n bad rest e,
    Forall (fun arg => exists inp, construct_args arg = Ok inp) pre ->
    construct_args bad = Raise e ->
    get_args_from n (pre ++ bad :: rest) =
    get_args_from (n + Z.of_nat (length pre)) (bad :: []).
Proof.
  induction pre as [| arg pre IH]; intros n bad rest e Hpre Hbad.
  - simpl. rewrite Z.add_0_r, Hbad.
    destruct (isinstance_exn e CValueError); [reflexivity |].
    destruct (isinstance_exn e CTypeError); reflexivity.
  - apply Forall_cons in Hpre as [(inp & Hinp) Hpre].
    change ((arg :: pre) ++ bad :: rest) with (arg :: (pre ++ bad :: rest)).
    cbn [get_args_from]. rewrite Hinp. cbn [rbind].
    rewrite (IH (n + 1) bad rest e Hpre Hbad).
    replace (n + Z.of_nat (length (arg :: pre))) with (n + 1 + Z.of_nat (length pre))
      by (simpl length; lia).
    cbn [get_args_from]. rewrite Hbad.
    destruct (isinstance_exn e CValueError); [reflexivity |].
    destruct (isinstance_exn e CTypeError); reflexivity.
Qed.

(** X4.  A stage argument that is not a mapping stops [get_args] with a
    TypeError that names the position of the argument among the stages
    (as an ordinal, from 1) and shows the argument; the arguments after it
    are not looked at.  The stage arguments are all the arguments, or all
    but the first when that is a bool. *)
Theorem get_args_rejects_non_mapping (a0 : pyval) (tail pre : list pyval)
    (bad : pyval) (rest : list pyval) :
  (if isinstance_bool a0 then tail else a0 :: tail) = pre ++ bad :: rest ->
  Forall (fun arg => exists inp, construct_args arg = Ok inp) pre ->
  (forall d, bad <> PyDict d) ->
  exists msg,
    get_args (a0 :: tail) = Raise (Exn CTypeError msg) /\
    occurs (Repr bad) msg /\
    exists before after,
      occurs (Lit (before +:+ ordinal (Z.of_nat (length pre) + 1) +:+ after)) msg.
Proof.
  intros Hstages Hpre Hbad.
  assert (construct_args bad
          = Raise (Exn CTypeError (Lit "argument after ** must be a mapping")))
    as Hc.
  { destruct bad; try reflexivity. exfalso. eapply Hbad. reflexivity. }
  unfold get_args. rewrite getitem_head. cbn [rbind].
  change (drop 1 (a0 :: tail)) with tail. rewrite Hstages.
  erewrite get_args_from_first_bad by eassumption.
  cbn [get_args_from]. rewrite Hc. cbn.
  rewrite (Z.add_comm 1).
  eexists. split; [reflexivity |]. split.
  - find_occurs.
  - exists "[-] ADetailer: ", " - Non-mapping arguments are sent: ".
    find_occurs.
Qed.

(** X5.  A mapping that fails validation stops [get_args] with a plain
    ValueError (whatever subclass the validation raised) whose message is
    a head line with the position of the stage and the validation message,
    followed by one line per attribute of [ALL_ARGS], in order: the name,
    the value sent (DEFAULT when the mapping has none) and its type.  The
    stage arguments are all the arguments, or all but the first when that
    is a bool. *)
Theorem get_args_validation_error (a0 : pyval) (tail pre : list pyval)
    (d : list (string * pyval)) (rest : list pyval) (e : exn) :
  (if isinstance_bool a0 then tail else a0 :: tail) = pre ++ PyDict d :: rest ->
  Forall (fun arg => exists inp, construct_args arg = Ok inp) pre ->
  ADetailerArgs_init d = Raise e ->
  isinstance_exn e CValueError = true ->
  exists head lines,
    get_args (a0 :: tail)
      = Raise (Exn CValueError (Join nl (head :: lines))) /\
    occurs (exn_msg e) head /\
    (exists before after,
       occurs (Lit (before +:+ ordinal (Z.of_nat (length pre) + 1) +:+ after)) head) /\
    length lines = length ALL_ARGS_attrs /\
    forall k attr,
      ALL_ARGS_attrs !! k = Some attr ->
      exists line,
        lines !! k = Some line /\
        (exists before after, occurs (Lit (before +:+ attr +:+ after)) line) /\
        match dict_get d attr with
        | None | Some PyNone =>
            occurs (Lit "DEFAULT") line /\ occurs (TypeOf PyNone) line
        | Some v => occurs (Repr v) line /\ occurs (TypeOf v) line
        end.
Proof.
  intros Hstages Hpre Hd Hcls.
  unfold get_args. rewrite getitem_head. cbn [rbind].
  change (drop 1 (a0 :: tail)) with tail. rewrite Hstages.
  erewrite get_args_from_first_bad by (try eassumption; exact Hd).
  cbn [get_args_from construct_args]. rewrite Hd, Hcls. cbn [rbind].
  unfold validation_message. rewrite (Z.add_comm 1).
  eexists _, _. split; [reflexivity |]. split; [| split; [| split]].
  - find_occurs.
  - exists "[-] ADetailer: ValidationError when validating ", " arguments: ".
    find_occurs.
  - rewrite length_map. reflexivity.
  - intros k attr Hk. rewrite list_lookup_fmap, Hk. simpl.
    eexists. split; [reflexivity |]. split.
    + exists "    ", ": ". find_occurs.
    + destruct (dict_get d attr) as [[] |]; simpl; split; find_occurs.
Qed.

End GetArgs.

Lemma get_args_rejects_non_mapping_witness :
  (exists msg,
     get_args (H0 := Demo.host ∅)
       [PyBool true; PyDict [("ad_model", PyStr "face_yolov8n.pt")]; PyInt 3]
       = Raise (Exn CTypeError msg) /\
     occurs (Repr (PyInt 3)) msg /\
     exists before after, occurs (Lit (before +:+ "2nd" +:+ after)) msg) /\
  (exists msg,
     get_args (H0 := Demo.host ∅)
       [PyDict [("ad_model", PyStr "face_yolov8n.pt")]; PyInt 3]
       = Raise (Exn CTypeError msg) /\
     occurs (Repr (PyInt 3)) msg /\
     exists before after, occurs (Lit (before +:+ "2nd" +:+ after)) msg).
Proof.
  split.
  - apply (@get_args_rejects_non_mapping Demo.types (Demo.host ∅) (PyBool true)
             [PyDict [("ad_model", PyStr "face_yolov8n.pt")]; PyInt 3]
             [PyDict [("ad_model", PyStr "face_yolov8n.pt")]] (PyInt 3) []).
    + reflexivity.
    + repeat constructor. eexists. reflexivity.
    + discriminate.
  - apply (@get_args_rejects_non_mapping Demo.types (Demo.host ∅)
             (PyDict [("ad_model", PyStr "face_yolov8n.pt")]) [PyInt 3]
             [PyDict [("ad_model", PyStr "face_yolov8n.pt")]] (PyInt 3) []).
    + reflexivity.
    + repeat constructor. eexists. reflexivity.
    + discriminate.
Defined.

Lemma get_args_validation_error_witness :
  (exists head lines,
     get_args (H0 := Demo2.strict_host)
       [PyBool true; PyDict [("ad_model", PyStr "face_yolov8n.pt")];
        PyDict [("ad_prompt", PyStr "a hand")]]
       = Raise (Exn CValueError (Join nl (head :: lines))) /\
     occurs (Lit "ad_model: field required") head /\
     length lines = 3%nat) /\
  (exists head lines,
     get_args (H0 := Demo2.strict_host) [PyDict [("ad_prompt", PyStr "a hand")]]
       = Raise (Exn CValueError (Join nl (head :: lines))) /\
     occurs (Lit "ad_model: field required") head /\
     length lines = 3%nat).
Proof.
  split.
  - destruct (@get_args_validation_error Demo.types Demo2.strict_host (PyBool true)
                [PyDict [("ad_model", PyStr "face_yolov8n.pt")];
                 PyDict [("ad_prompt", PyStr "a hand")]]
                [PyDict [("ad_model", PyStr "face_yolov8n.pt")]]
                [("ad_prompt", PyStr "a hand")] []
                (Exn CValidationError (Lit "ad_model: field required")))
      as (head & lines & Hrun & Hmsg & _ & Hlen & _).
    + reflexivity.
    + repeat constructor. eexists. reflexivity.
    + reflexivity.
    + reflexivity.
    + exists head, lines. split; [exact Hrun |]. split; [exact Hmsg | exact Hlen].
  - destruct (@get_args_validation_error Demo.types Demo2.strict_host
                (PyDict [("ad_prompt", PyStr "a hand")]) [] []
                [("ad_prompt", PyStr "a hand")] []
                (Exn CValidationError (Lit "ad_model: field required")))
      as (head & lines & Hrun & Hmsg & _ & Hlen & _).
    + reflexivity.
    + constructor.
    + reflexivity.
    + reflexivity.
    + exists head, lines. split; [exact Hrun |]. split; [exact Hmsg | exact Hlen].
Defined.

(** ** The generation parameters: [extra_params], [process] *)

Section ExtraParams.
Context `{Host}.

Lemma extra_params_from_none (arg_list : list ADetailerArgs) (k : string) :
  forall n params,
    (forall i args, arg_list !! i = Some args ->
       args_extra_params args (suffix (n + Z.of_nat i) " ") !! k = None) ->
    extra_params_from n arg_list params !! k = params !! k.
Proof.
  induction arg_list as [| args rest IH]; intros n params Hnone; [reflexivity |].
  simpl. rewrite IH.
  - rewrite lookup_union_r; [reflexivity |].
    specialize (Hnone 0%nat args eq_refl). rewrite Z.add_0_r in Hnone. exact Hnone.
  - intros i a Hi. specialize (Hnone (S i) a Hi).
    replace (n + 1 + Z.of_nat i) with (n + Z.of_nat (S i)) by lia. exact Hnone.
Qed.

Lemma extra_params_from_last (arg_list : list ADetailerArgs) (k : string)
    (v : pyval) :
  forall n params i args,
    arg_list !! i = Some args ->
    args_extra_params args (suffix (n + Z.of_nat i) " ") !! k = Some v ->
    (forall j later, (i < j)%nat -> arg_list !! j = Some later ->
       args_extra_params later (suffix (n + Z.of_nat j) " ") !! k = None) ->
    extra_params_from n arg_list params !! k = Some v.
Proof.
  induction arg_list as [| a rest IH]; intros n params i args Hi Hv Hlater;
    [discriminate |].
  destruct i as [| i]; simpl in Hi.
  - injection Hi as ->. simpl. rewrite extra_params_from_none.
    + rewrite Z.add_0_r in Hv. apply lookup_union_Some_l. exact Hv.
    + intros j later Hj. specialize (Hlater (S j) later ltac:(lia) Hj).
      replace (n + 1 + Z.of_nat j) with (n + Z.of_nat (S j)) by lia. exact Hlater.
  - simpl. apply (IH (n + 1) _ i args Hi).
    + replace (n + 1 + Z.of_nat i) with (n + Z.of_nat (S i)) by lia. exact Hv.
    + intros j later Hij Hj. specialize (Hlater (S j) later ltac:(lia) Hj).
      replace (n + 1 + Z.of_nat j) with (n + Z.of_nat (S j)) by lia. exact Hlater.
Qed.

(** X6.  The parameters [extra_params] collects: the version of the
    extension is always recorded under its own key and no stage can
    override it; every other key comes from a stage, asked with the suffix
    of its position; when several stages give the same key the last one
    wins. *)
Theorem extra_params_keys (arg_list : list ADetailerArgs) :
  let stage_params i args := args_extra_params args (suffix (Z.of_nat i) " ") in
  extra_params arg_list !! "ADetailer version" = Some (PyStr version) /\
  (forall k,
     k <> "ADetailer version" ->
     (forall i args, arg_list !! i = Some args -> stage_params i args !! k = None) ->
     extra_params arg_list !! k = None) /\
  (forall k v i args,
     k <> "ADetailer version" ->
     arg_list !! i = Some args ->
     stage_params i args !! k = Some v ->
     (forall j later, (i < j)%nat -> arg_list !! j = Some later ->
        stage_params j later !! k = None) ->
     extra_params arg_list !! k = Some v).
Proof.
  intros stage_params. unfold extra_params. split; [| split].
  - apply lookup_insert_eq.
  - intros k Hk Hnone. rewrite lookup_insert_ne by congruence.
    rewrite extra_params_from_none; [apply lookup_empty |].
    intros i args Hi. rewrite Z.add_0_l. apply Hnone. exact Hi.
  - intros k v i args Hk Hi Hv Hlater. rewrite lookup_insert_ne by congruence.
    eapply extra_params_from_last.
    + exact Hi.
    + rewrite Z.add_0_l. exact Hv.
    + intros j later Hij Hj. rewrite Z.add_0_l. eapply Hlater; eassumption.
Qed.

(** X7.  [process] touches nothing but the generation parameters of the
    job: the image, the ControlNet object, the outside world and the trace
    stay as they were, and so does every other attribute of the job.  When
    it raises, or the script is not enabled, the job is unchanged too.
    When the script is enabled and the arguments validate, the collected
    parameters are merged into the job's: the version is recorded, a
    collected key replaces the job's, and the job keeps every other key. *)
Theorem process_only_updates_params (args_ : list pyval) (st : State)
    (res : result unit) (st' : State) :
  process args_ st = (res, st') ->
  (st_image st' = st_image st /\ st_cn st' = st_cn st /\
   st_ext st' = st_ext st /\ st_trace st' = st_trace st /\
   st_p st' =
     set_extra_generation_params (extra_generation_params (st_p st')) (st_p st)) /\
  ((forall e, res = Raise e -> st' = st) /\
   (is_ad_enabled args_ = Ok false -> st' = st)) /\
  (forall arg_list,
     adetailer_disabled (st_p st) = false ->
     is_ad_enabled args_ = Ok true ->
     get_args args_ = Ok arg_list ->
     let params := extra_generation_params (st_p st') in
     res = Ok tt /\
     params !! "ADetailer version" = Some (PyStr version) /\
     (forall k v, extra_params arg_list !! k = Some v -> params !! k = Some v) /\
     (forall k, extra_params arg_list !! k = None ->
                params !! k = extra_generation_params (st_p st) !! k)).
Proof.
  assert (forall p : Processing,
            p = set_extra_generation_params (extra_generation_params p) p)
    as Hsame by (intros []; reflexivity).
  unfold process. intros Hrun.
  bind_cases Hrun p st1 Hp; [| inversion Hp].
  inversion Hp; subst p st1; clear Hp.
  destruct (adetailer_disabled (st_p st)) eqn:Hdis.
  { inversion Hrun; subst. split; [auto |]. split; [auto | discriminate]. }
  bind_cases Hrun enabled st1 Hen; lift_cases Hen.
  2: { split; [auto |]. split; [auto | intros; congruence]. }
  destruct enabled.
  2: { inversion Hrun; subst. split; [auto |]. split; [auto | intros; congruence]. }
  bind_cases Hrun arg_list st1 Hargs; lift_cases Hargs.
  2: { split; [auto |]. split; [auto | intros; congruence]. }
  inversion Hrun; subst; clear Hrun. simpl.
  split; [repeat split; reflexivity |].
  split; [split; [discriminate | congruence] |].
  intros l _ _ Hl. rewrite Hargs in Hl. injection Hl as <-.
  split; [reflexivity |].
  split; [| split].
  - apply lookup_union_Some_l. unfold extra_params. apply lookup_insert_eq.
  - intros k v Hk. apply lookup_union_Some_l. exact Hk.
  - intros k Hk. apply lookup_union_r. exact Hk.
Qed.

End ExtraParams.

Lemma process_only_updates_params_witness :
  (Demo2.process_two.1 = Ok tt /\
   extra_generation_params (st_p Demo2.process_two.2) !! "ADetailer version"
     = Some (PyStr "23.6.2")) /\
  st_trace Demo2.process_two.2 = [] /\ st_image Demo2.process_two.2 = 5.
Proof.
  destruct (@process_only_updates_params Demo.types (Demo.host ∅) Demo.two_stages
              (Demo.start Demo.parent 5) Demo2.process_two.1 Demo2.process_two.2
              (surjective_pairing _))
    as ((Himage & _ & _ & Htrace & _) & _ & Hmerge).
  destruct (Hmerge [Demo.mediapipe_stage; Demo.face_stage] eq_refl eq_refl eq_refl)
    as (Hres & Hversion & _).
  split; [split; [exact Hres | exact Hversion] |].
  split; [exact Htrace | exact Himage].
Defined.

(** ** Per-image selection never fails on the images the script counts *)

Section Selection.
Context `{HostTypes}.

Lemma getitem_in_range {A} (l : list A) (i : Z) :
  0 <= i < Z.of_nat (length l) -> exists x, getitem l i = Ok x.
Proof.
  intros Hi. unfold getitem.
  destruct (Z.ltb_spec i 0) as [? | _]; [lia |].
  destruct (Z.ltb_spec i 0) as [? | _]; [lia |].
  destruct (Z.leb_spec (Z.of_nat (length l)) i) as [? | _]; [lia |]. simpl.
  destruct (l !! Z.to_nat i) as [x |] eqn:Hx; [eauto |].
  apply lookup_ge_None in Hx. lia.
Qed.

Lemma per_image_total {A} (all_ : option (list A)) (base : A) (i : Z) :
  0 <= i -> exists x, per_image all_ base i = Ok x.
Proof.
  intros Hi. unfold per_image.
  destruct all_ as [[| a l] |]; simpl; eauto.
  set (len := Z.of_nat (S (length l))).
  assert (0 < len) as Hlen by (unfold len; lia).
  destruct (Z.ltb_spec i len) as [Hlt | Hge].
  - apply (getitem_in_range (a :: l)). simpl length. fold len. lia.
  - apply (getitem_in_range (a :: l)). simpl length. fold len.
    apply Z.mod_pos_bound. exact Hlen.
Qed.

(** X8.  Once the job carries an image index that is not negative,
    [get_prompt] and [get_seed] return for every stage, however short the
    per-image lists are (an empty or missing list falls back to the base
    value, a short one is read modulo its length): no stage fails on the
    selection of its prompt or seed. *)
Theorem selection_never_fails (p : Processing) (i : Z) :
  _idx p = Some i ->
  0 <= i ->
  (exists seed_ subseed_, get_seed p = Ok (seed_, subseed_)) /\
  (forall args, exists prompt_ negative_prompt_,
     get_prompt p args = Ok (prompt_, negative_prompt_)).
Proof.
  intros Hidx Hi. split.
  - unfold get_seed, read_idx. rewrite Hidx. simpl.
    destruct (per_image_total (all_seeds p) (seed p) i Hi) as [s ->].
    destruct (per_image_total (all_subseeds p) (subseed p) i Hi) as [t ->].
    simpl. eauto.
  - intros args. unfold get_prompt, read_idx. rewrite Hidx. simpl.
    destruct (per_image_total (all_prompts p) (prompt p) i Hi) as [s Hs].
    destruct (per_image_total (all_negative_prompts p) (negative_prompt p) i Hi)
      as [t Ht].
    destruct (str_truthy (ad_prompt args)), (str_truthy (ad_negative_prompt args));
      simpl; rewrite ?Hs, ?Ht; simpl; rewrite ?Ht; simpl; eauto.
Qed.

End Selection.

Lemma selection_never_fails_witness :
  (Demo.parent_at 7).(_idx) = Some 7 /\
  (exists seed_ subseed_, get_seed (Demo.parent_at 7) = Ok (seed_, subseed_)) /\
  (forall args, exists prompt_ negative_prompt_,
     get_prompt (Demo.parent_at 7) args = Ok (prompt_, negative_prompt_)).
Proof.
  split; [reflexivity |].
  apply (@selection_never_fails Demo.types (Demo.parent_at 7) 7);
    [reflexivity | lia].
Defined.

(** ** The model registry: [get_ad_model] *)

Section Registry.
Context `{Host}.

(** X9.  [get_ad_model] returns the file registered under the name, and
    only for registered names; for every other name it raises ValueError.
    The lookup behind the membership test never raises a KeyError of its
    own. *)
Theorem get_ad_model_registry (name : string) :
  (forall path,
     get_ad_model name = Ok path <-> dict_get model_mapping name = Some path) /\
  (forall e,
     get_ad_model name = Raise e ->
     exn_class e = CValueError /\ dict_get model_mapping name = None /\
     name ∉ dict_keys model_mapping) /\
  (forall path, get_ad_model name = Ok path -> (name, path) ∈ model_mapping).
Proof.
  assert (forall (d : list (string * string)) k v,
            dict_get d k = Some v -> (k, v) ∈ d) as Hin.
  { induction d as [| [k0 v0] d IH]; intros k v; simpl; [discriminate |].
    destruct (String.eqb_spec k0 k) as [-> | Hne].
    - intros [= ->]. left.
    - intros Hk. right. apply IH. exact Hk. }
  assert (forall (d : list (string * string)) k,
            dict_get d k = None -> k ∉ dict_keys d) as Hnotin.
  { induction d as [| [k0 v0] d IH]; intros k; simpl; [intros _; apply not_elem_of_nil |].
    destruct (String.eqb_spec k0 k) as [-> | Hne]; [discriminate |].
    intros Hk. apply not_elem_of_cons. split; [congruence | apply IH; exact Hk]. }
  unfold get_ad_model, dict_contains.
  destruct (dict_get model_mapping name) as [path0 |] eqn:Hget; simpl.
  - split; [| split].
    + intros path. split; congruence.
    + discriminate.
    + intros path [= <-]. apply Hin. exact Hget.
  - split; [| split].
    + intros path. split; discriminate.
    + intros e [= <-]. simpl. split; [reflexivity |]. split; [reflexivity |].
      apply Hnotin. exact Hget.
    + discriminate.
Qed.

End Registry.

(** ** The regeneration job: overrides, fixed settings, scripts *)

Section BuiltJobs.
Context `{Host}.

Lemma built_stage_settings p args image job :
  built p args image job -> stage_settings p args job.
Proof.
  intros (st & st' & Hrun). unfold get_i2i_p in Hrun.
  bind_cases Hrun pr st1 Hp; lift_cases Hp.
  destruct pr as [prompt_ negative_prompt_].
  bind_cases Hrun sd st1 Hs; lift_cases Hs.
  destruct sd as [seed_ subseed_].
  unfold stage_settings.
  destruct (get_width_height p args) as [width_ height_].
  bind_cases Hrun sr st1 Hf; lift_cases Hf.
  match type of Hrun with context [set_disable_adetailer _ ?j] =>
    set (i2i := set_disable_adetailer (Some true) j) in * end.
  assert (job = i2i \/ exists sa, job = set_script_args sa i2i) as Hjob.
  { destruct (negb (String.eqb (ad_controlnet_model args) "None")).
    - apply update_controlnet_args_run in Hrun as [_ Hjob]. apply Hjob. reflexivity.
    - inversion Hrun. auto. }
  destruct Hjob as [-> | [sa ->]]; repeat split; reflexivity.
Qed.

Lemma regeneration_job_settings p args job :
  regeneration_job p args job -> stage_settings p args job.
Proof.
  intros (image & i2i & Hbuilt & Hjob).
  apply built_stage_settings in Hbuilt.
  destruct Hjob as [-> | (seed_ & subseed_ & images_in & m & j & ->)];
    [exact Hbuilt |].
  exact Hbuilt.
Qed.

(** X10.  The three overrides of a stage reach the job it builds and
    every job its mask loop hands to the engine: width and height are the
    stage's when its size switch is on and the parent's otherwise, and the
    same holds, switch by switch, for the steps and for the CFG scale;
    denoising strength, mask blur and the two inpaint-area settings are
    always the stage's. *)
Theorem stage_overrides_apply (p : Processing) (args : ADetailerArgs) :
  let overridden job :=
    (if ad_use_inpaint_width_height args
     then width job = ad_inpaint_width args /\ height job = ad_inpaint_height args
     else width job = width p /\ height job = height p) /\
    steps job = (if ad_use_steps args then ad_steps args else steps p) /\
    cfg_scale job = (if ad_use_cfg_scale args then ad_cfg_scale args else cfg_scale p) /\
    denoising_strength job = Some (ad_denoising_strength args) /\
    mask_blur job = ad_mask_blur args /\
    inpaint_full_res job = ad_inpaint_full_res args /\
    inpaint_full_res_padding job = ad_inpaint_full_res_padding args in
  (forall image job, built p args image job -> overridden job) /\
  (forall n st res st' new,
     st_p st = p ->
     _postprocess_image args n st = (res, st') ->
     st_trace st' = st_trace st ++ new ->
     Forall overridden (engine_jobs new)).
Proof.
  intros overridden.
  assert (forall job, stage_settings p args job -> overridden job) as Hover.
  { intros job ((Hw & Hh & Hs & Hc) & (Hd & Hb & Hf & Hpad) & _).
    unfold overridden. unfold get_width_height in Hw, Hh.
    unfold get_steps in Hs. unfold get_cfg_scale in Hc.
    destruct (ad_use_inpaint_width_height args); simpl in Hw, Hh; auto 10. }
  split.
  - intros image job Hbuilt. apply Hover. eapply built_stage_settings. exact Hbuilt.
  - intros n st res st' new <- Hrun Htrace.
    eapply Forall_impl; [eapply stage_engine_jobs; eassumption |].
    intros job Hjob. apply Hover. apply regeneration_job_settings. exact Hjob.
Qed.

(** X11.  Whatever the parent job is set to, a regeneration job asks the
    engine for one image in one iteration, saves neither samples nor
    grids, has [inpainting_fill] 1 and inverts no mask; it runs on the
    parent's checkpoint, output directories, styles and generation
    parameters, and carries no per-image list and no image index of its
    own.  This holds for the built job and for every job of
    the mask loop. *)
Theorem sub_jobs_are_single_and_unsaved (p : Processing) (args : ADetailerArgs) :
  let fixed job :=
    (batch_size job = 1 /\ n_iter job = 1 /\
     do_not_save_samples job = true /\ do_not_save_grid job = true /\
     inpainting_fill job = 1 /\ inpainting_mask_invert job = 0 /\
     resize_mode job = 0 /\ mask job = None) /\
    (sd_model job = sd_model p /\ outpath_samples job = outpath_samples p /\
     outpath_grids job = outpath_grids p /\ styles job = styles p /\
     tiling job = tiling p /\
     extra_generation_params job = extra_generation_params p) /\
    (all_prompts job = None /\ all_negative_prompts job = None /\
     all_seeds job = None /\ all_subseeds job = None /\ _idx job = None) in
  (forall image job, built p args image job -> fixed job) /\
  (forall n st res st' new,
     st_p st = p ->
     _postprocess_image args n st = (res, st') ->
     st_trace st' = st_trace st ++ new ->
     Forall fixed (engine_jobs new)).
Proof.
  intros fixed.
  assert (forall job, stage_settings p args job -> fixed job) as Hfixed.
  { intros job (_ & _ & Hone & Hparent & Hlists). unfold fixed.
    destruct Hone as (? & ? & ? & ? & ? & ? & ? & ?).
    destruct Hparent as (? & ? & ? & ? & ? & ? & ? & ? & ?).
    auto 20. }
  split.
  - intros image job Hbuilt. apply Hfixed. eapply built_stage_settings. exact Hbuilt.
  - intros n st res st' new <- Hrun Htrace.
    eapply Forall_impl; [eapply stage_engine_jobs; eassumption |].
    intros job Hjob. apply Hfixed. apply regeneration_job_settings. exact Hjob.
Qed.

Lemma filter_sublist {A} (f : A -> bool) (l : list A) :
  sublist (List.filter f l) l.
Proof.
  induction l as [| a l IH]; simpl; [constructor |].
  destruct (f a); [apply sublist_skip | apply sublist_cons]; exact IH.
Qed.

Lemma built_scripts p args image job :
  built p args image job -> script_filter p args = Ok (scripts job).
Proof.
  intros (st & st' & Hrun). apply get_i2i_p_run in Hrun as [_ Hfields].
  destruct (Hfields job eq_refl)
    as (pr & npr & sd & ssd & sr & _ & _ & Hfilter & _ & _ & _ & _ & Hscripts & _).
  congruence.
Qed.

(** X12.  The script filter only ever removes: the always-on scripts of a
    built job are a sub-list of the parent's, in the parent's order, so
    every extension active on the job is active on the parent; with the
    option "ad_only_seleted_scripts" switched off the job gets the
    parent's scripts as they are. *)
Theorem script_filter_only_removes (p : Processing) (args : ADetailerArgs)
    (image : Image) (job : Processing) :
  built p args image job ->
  (truthy (opts_get "ad_only_seleted_scripts" (PyBool true)) = false ->
   scripts job = scripts p) /\
  (forall runner', scripts job = Some runner' ->
     exists runner,
       scripts p = Some runner /\
       sublist (alwayson_scripts runner') (alwayson_scripts runner)) /\
  active_extensions job ⊆ active_extensions p.
Proof.
  intros Hbuilt. apply built_scripts in Hbuilt. unfold script_filter in Hbuilt.
  assert (forall runner', scripts job = Some runner' ->
            exists runner,
              scripts p = Some runner /\
              sublist (alwayson_scripts runner') (alwayson_scripts runner)) as Hsub.
  { destruct (truthy (opts_get "ad_only_seleted_scripts" (PyBool true))).
    - simpl in Hbuilt.
      destruct (opts_get "ad_script_names" _); try discriminate.
      destruct (scripts p) as [runner |]; [| discriminate].
      injection Hbuilt as <-. intros runner' [= <-]. exists runner.
      split; [reflexivity | apply filter_sublist].
    - simpl in Hbuilt. injection Hbuilt as <-. intros runner' ->.
      exists runner'. split; [reflexivity | reflexivity]. }
  split; [| split; [exact Hsub |]].
  - intros Hoff. rewrite Hoff in Hbuilt. simpl in Hbuilt. congruence.
  - unfold active_extensions. destruct (scripts job) as [runner' |]; [| set_solver].
    destruct (Hsub runner' eq_refl) as (runner & -> & Hl).
    intros name Hin. apply elem_of_list_to_set in Hin.
    apply elem_of_list_to_set.
    apply list_elem_of_fmap in Hin as (s & -> & Hs).
    apply list_elem_of_fmap. exists s. split; [reflexivity |].
    eapply elem_of_sublist; eassumption.
Qed.

Lemma script_names_shipped :
  script_names "dynamic_prompting,dynamic_thresholding,wildcards,wildcard_recursive"
  = {[ "dynamic_prompting"; "dynamic_thresholding"; "wildcards"; "wildcard_recursive" ]}.
Proof.
  unfold script_names.
  change (Str.split "," "dynamic_prompting,dynamic_thresholding,wildcards,wildcard_recursive")
    with ["dynamic_prompting"; "dynamic_thresholding"; "wildcards"; "wildcard_recursive"].
  simpl flat_map.
  change (Str.strip "dynamic_prompting") with "dynamic_prompting".
  change (Str.strip "dynamic_thresholding") with "dynamic_thresholding".
  change (Str.strip "wildcards") with "wildcards".
  change (Str.strip "wildcard_recursive") with "wildcard_recursive".
  set_solver.
Qed.

(** X13.  On a host where neither filter option was ever set, a built job
    keeps exactly those extensions of the parent that are on the shipped
    allow-list (dynamic_prompting, dynamic_thresholding, wildcards,
    wildcard_recursive), and controlnet when the stage selects a ControlNet
    model; the script itself (file stem "!adetailer") is never among
    them. *)
Theorem shipped_allow_list (p : Processing) (args : ADetailerArgs)
    (image : Image) (job : Processing) :
  built p args image job ->
  opts_data !! "ad_only_seleted_scripts" = None ->
  opts_data !! "ad_script_names" = None ->
  let shipped : gset string :=
    {[ "dynamic_prompting"; "dynamic_thresholding"; "wildcards"; "wildcard_recursive" ]} in
  active_extensions job =
    active_extensions p ∩
    (if String.eqb (ad_controlnet_model args) "None" then shipped
     else {[ "controlnet" ]} ∪ shipped) /\
  "!adetailer" ∉ active_extensions job.
Proof.
  intros Hbuilt Honly Hnames shipped.
  apply built_scripts in Hbuilt. unfold script_filter, opts_get in Hbuilt.
  rewrite Honly, Hnames in Hbuilt. simpl default in Hbuilt.
  simpl truthy in Hbuilt. simpl negb in Hbuilt. cbv iota in Hbuilt.
  rewrite script_names_shipped in Hbuilt. fold shipped in Hbuilt.
  destruct (scripts p) as [runner |] eqn:Hp; [| discriminate].
  injection Hbuilt as Hjob.
  assert (active_extensions job =
          active_extensions p ∩
          (if String.eqb (ad_controlnet_model args) "None" then shipped
           else {[ "controlnet" ]} ∪ shipped)) as Hactive.
  { unfold active_extensions. rewrite <- Hjob, Hp. simpl alwayson_scripts.
    rewrite filter_by_stem.
    destruct (String.eqb (ad_controlnet_model args) "None"); reflexivity. }
  split; [exact Hactive |].
  rewrite Hactive. intros Hin. apply elem_of_intersection in Hin as [_ Hin].
  unfold shipped in Hin.
  destruct (String.eqb (ad_controlnet_model args) "None");
    repeat (apply elem_of_union in Hin as [Hin | Hin]);
    apply elem_of_singleton in Hin; discriminate.
Qed.

End BuiltJobs.

Lemma script_filter_only_removes_witness :
  (forall runner', scripts Demo.job5 = Some runner' ->
     exists runner,
       scripts (Demo.parent_at 5) = Some runner /\
       sublist (alwayson_scripts runner') (alwayson_scripts runner)) /\
  active_extensions (H := Demo.types) Demo.job5
    ⊆ active_extensions (H := Demo.types) (Demo.parent_at 5).
Proof.
  destruct (@script_filter_only_removes Demo.types (Demo.host ∅) (Demo.parent_at 5)
              Demo.mediapipe_stage 5 Demo.job5 built_job5) as (_ & Hsub & Hactive).
  split; [exact Hsub | exact Hactive].
Defined.

Lemma shipped_allow_list_witness :
  active_extensions (H := Demo.types) Demo.job5 =
    active_extensions (H := Demo.types) (Demo.parent_at 5) ∩
    {[ "dynamic_prompting"; "dynamic_thresholding"; "wildcards"; "wildcard_recursive" ]} /\
  "!adetailer" ∉ active_extensions (H := Demo.types) Demo.job5.
Proof.
  apply (@shipped_allow_list Demo.types (Demo.host ∅) (Demo.parent_at 5)
           Demo.mediapipe_stage 5 Demo.job5 built_job5); reflexivity.
Defined.

(** ** The ControlNet extension: [init_controlnet_ext],
    [update_controlnet_args] *)

Section ControlNet.
Context `{Host}.

Lemma init_controlnet_ext_sets (st : State) :
  is_Some (st_cn (init_controlnet_ext st).2).
Proof.
  unfold init_controlnet_ext, bind, get_cn.
  destruct (st_cn st) as [c |] eqn:Hc; [simpl; rewrite Hc; eauto |].
  unfold put_cn. destruct controlnet_exists; [| simpl; eauto].
  unfold try_except, run_init_controlnet. simpl.
  destruct (init_controlnet _ (st_ext st)) as [[[u | e] c'] ext']; simpl;
    [eauto |].
  destruct (isinstance_exn e CImportError); simpl; eauto.
Qed.

(** X14.  The ControlNet extension is initialised at most once per script
    object: after [init_controlnet_ext] has run, with whatever outcome, the
    script holds a ControlNet object, and running it again does nothing at
    all, even when the first initialisation failed. *)
Theorem init_controlnet_ext_once (st : State) :
  let after := (init_controlnet_ext st).2 in
  is_Some (st_cn after) /\
  init_controlnet_ext after = (Ok tt, after) /\
  (is_Some (st_cn st) -> init_controlnet_ext st = (Ok tt, st)).
Proof.
  assert (forall s, is_Some (st_cn s) -> init_controlnet_ext s = (Ok tt, s))
    as Hset.
  { intros s [c Hc]. unfold init_controlnet_ext, bind, get_cn. rewrite Hc.
    reflexivity. }
  intros after.
  assert (is_Some (st_cn after)) as Hafter by apply init_controlnet_ext_sets.
  split; [exact Hafter |]. split; [apply Hset; exact Hafter | apply Hset].
Qed.

(** X15.  When the import of the ControlNet extension fails,
    [init_controlnet_ext] still returns: the ImportError is caught, its
    traceback goes to [stderr] in one message, and the script keeps the
    ControlNet object as the failed call left it.  Any other kind of
    error is raised to the caller, and nothing is printed. *)
Theorem controlnet_import_error_is_swallowed (st : State) (e : exn)
    (c' : ControlNetExt) (ext' : Ext) :
  st_cn st = None ->
  controlnet_exists = true ->
  init_controlnet {| cn_available := false |} (st_ext st) = ((Raise e, c'), ext') ->
  let after trace :=
    {| st_p := st_p st; st_image := st_image st; st_cn := Some c';
       st_ext := ext'; st_trace := trace |} in
  (isinstance_exn e CImportError = true ->
   exists msg,
     init_controlnet_ext st = (Ok tt, after (st_trace st ++ [EvPrint true msg])) /\
     occurs (Traceback (exn_class e) (exn_msg e)) msg) /\
  (isinstance_exn e CImportError = false ->
   init_controlnet_ext st = (Raise e, after (st_trace st))).
Proof.
  intros Hcn Hexists Hinit after.
  unfold init_controlnet_ext, bind, get_cn. rewrite Hcn. unfold put_cn.
  rewrite Hexists. unfold try_except, run_init_controlnet. simpl.
  rewrite Hinit. split; intros ->.
  - eexists. split; [reflexivity | find_occurs].
  - reflexivity.
Qed.

Lemma get_i2i_p_controlnet p args image st job st' :
  get_i2i_p p args image st = (Ok job, st') ->
  exists i2i,
    script_args i2i = script_args p /\
    if negb (String.eqb (ad_controlnet_model args) "None")
    then update_controlnet_args i2i args st = (Ok job, st')
    else job = i2i /\ st' = st.
Proof.
  unfold get_i2i_p. intros Hrun.
  bind_cases Hrun pr st1 Hp; lift_cases Hp.
  destruct pr as [prompt_ negative_prompt_].
  bind_cases Hrun sd st1 Hs; lift_cases Hs.
  destruct sd as [seed_ subseed_].
  destruct (get_width_height p args) as [width_ height_].
  bind_cases Hrun sr st1 Hf; lift_cases Hf.
  match type of Hrun with context [set_disable_adetailer _ ?j] =>
    set (i2i := set_disable_adetailer (Some true) j) in * end.
  exists i2i. split; [reflexivity |].
  destruct (negb (String.eqb (ad_controlnet_model args) "None"));
    [exact Hrun | inversion Hrun; auto].
Qed.

(** X16.  The job's [script_args] are the parent's unless ControlNet has
    worked on them: for a stage without a ControlNet model, building the
    job changes nothing at all (no call, no message, no ControlNet
    object); for a stage with one, the script holds a ControlNet object
    afterwards, and when that object is not available the job still
    carries the parent's [script_args]. *)
Theorem script_args_change_only_through_controlnet (p : Processing)
    (args : ADetailerArgs) (image : Image) (st : State) (job : Processing)
    (st' : State) :
  get_i2i_p p args image st = (Ok job, st') ->
  (ad_controlnet_model args = "None" ->
   st' = st /\ script_args job = script_args p) /\
  (ad_controlnet_model args <> "None" -> is_Some (st_cn st')) /\
  (forall c, st_cn st' = Some c -> cn_available c = false ->
     script_args job = script_args p).
Proof.
  intros Hrun. apply get_i2i_p_controlnet in Hrun as (i2i & Hsa & Hrun).
  destruct (String.eqb_spec (ad_controlnet_model args) "None") as [Hnone | Hcn];
    simpl in Hrun.
  - destruct Hrun as [-> ->]. split; [auto |]. split; [contradiction |]. auto.
  - split; [contradiction |].
    unfold update_controlnet_args in Hrun.
    bind_cases Hrun cn st1 Hget.
    inversion Hget; subst cn st1; clear Hget.
    bind_cases Hrun u st1 Hinit.
    assert (is_Some (st_cn st1)) as [c1 Hc1].
    { destruct (st_cn st) as [c |] eqn:Hc.
      - inversion Hinit; subst. rewrite Hc. eauto.
      - pose proof (init_controlnet_ext_sets st) as Hsome.
        rewrite Hinit in Hsome. exact Hsome. }
    clear Hinit.
    bind_cases Hrun cn st2 Hget.
    inversion Hget; subst cn st2; clear Hget.
    rewrite Hc1 in Hrun.
    destruct (String.eqb_spec (ad_controlnet_model args) "None") as [? | _];
      [contradiction |].
    rewrite andb_true_r in Hrun.
    destruct (cn_available c1) eqn:Havail.
    + bind_cases Hrun sa st2 Hcall.
      inversion Hrun; subst; clear Hrun.
      unfold call_silent in Hcall.
      destruct (update_scripts_args _ _ _ _ _) as [r ext'].
      inversion Hcall; subst; clear Hcall. simpl.
      split; [rewrite Hc1; eauto |].
      intros c Hc Hfalse. congruence.
    + inversion Hrun; subst; clear Hrun.
      split; [rewrite Hc1; eauto | intros; exact Hsa].
Qed.

End ControlNet.

Lemma controlnet_import_error_is_swallowed_witness :
  exists msg,
    init_controlnet_ext (H0 := Demo2.strict_host) (Demo.start Demo.parent 5)
    = (Ok tt,
       {| st_p := Demo.parent; st_image := 5;
          st_cn := Some {| cn_available := false |}; st_ext := 1%nat;
          st_trace := [EvPrint true msg] |}).
Proof.
  destruct (@controlnet_import_error_is_swallowed Demo.types Demo2.strict_host
              (Demo.start Demo.parent 5)
              (Exn CImportError (Lit "No module named 'scripts.external_code'"))
              {| cn_available := false |} 1%nat eq_refl eq_refl eq_refl)
    as [Hcaught _].
  destruct (Hcaught eq_refl) as (msg & Hrun & _).
  exists msg. exact Hrun.
Defined.

Lemma script_args_change_only_through_controlnet_witness :
  Demo.build5.2 = Demo.start (Demo.parent_at 5) 5 /\
  script_args Demo.job5 = script_args (Demo.parent_at 5).
Proof.
  destruct (@script_args_change_only_through_controlnet Demo.types (Demo.host ∅)
              (Demo.parent_at 5) Demo.mediapipe_stage 5
              (Demo.start (Demo.parent_at 5) 5) Demo.job5 Demo.build5.2)
    as (Hnone & _).
  - vm_compute. reflexivity.
  - apply Hnone. reflexivity.
Defined.

(** ** What a run leaves in the trace *)

Section TracedMonad.
Context `{Host}.
Variable Pev : event -> Prop.

Lemma fits_Ok {A B} (a : A) (r : result B) (ev : event) :
  fits Pev (Ok a) ev -> fits Pev r ev.
Proof.
  intros [Hp Hok]. split; [exact Hp |].
  destruct r; [exact Hok | intros e' Hf; destruct (Hok e' Hf)].
Qed.

Lemma traced_silent {A} (m : M A) (st : State) :
  (forall r st', m st = (r, st') -> st_trace st' = st_trace st) ->
  traced Pev m st.
Proof.
  intros Hm r st' Hrun. exists []. rewrite app_nil_r.
  split; [eapply Hm; exact Hrun | constructor].
Qed.

Lemma traced_lift {A} (r : result A) (st : State) : traced Pev (lift r) st.
Proof. apply traced_silent. intros r0 st' [= _ <-]. reflexivity. Qed.

Lemma traced_ret {A} (a : A) (st : State) : traced Pev (ret a) st.
Proof. apply traced_silent. intros r0 st' [= _ <-]. reflexivity. Qed.

Lemma traced_bind {A B} (m : M A) (k : A -> M B) (st : State) :
  traced Pev m st ->
  (forall a st1, m st = (Ok a, st1) -> traced Pev (k a) st1) ->
  traced Pev (bind m k) st.
Proof.
  intros Hm Hk r st' Hrun.
  apply bind_inv in Hrun as [(a & st1 & Hma & Hka) | (e & Hme & ->)].
  - destruct (Hm _ _ Hma) as (new1 & Ht1 & Hf1).
    destruct (Hk a st1 Hma _ _ Hka) as (new2 & Ht2 & Hf2).
    exists (new1 ++ new2). split; [rewrite Ht2, Ht1, app_assoc; reflexivity |].
    apply Forall_app. split; [| exact Hf2].
    eapply Forall_impl; [exact Hf1 |]. intros ev. apply fits_Ok.
  - destruct (Hm _ _ Hme) as (new & Ht & Hf). exists new.
    split; [exact Ht | exact Hf].
Qed.

Lemma traced_emit (ev : event) (st : State) :
  Pev ev -> (forall e, ~ failed ev e) -> traced Pev (emit ev) st.
Proof.
  intros Hp Hok r st' Hrun. apply emit_run in Hrun as (-> & _ & _ & Ht).
  exists [ev]. split; [exact Ht |]. repeat constructor; assumption.
Qed.

Lemma traced_call {A} (f : Ext -> result A * Ext) (record : result A -> event)
    (st : State) :
  (forall r, fits Pev r (record r)) -> traced Pev (call f record) st.
Proof.
  intros Hfits r st' Hrun. apply call_run in Hrun as (_ & _ & Ht).
  exists [record r]. split; [exact Ht |].
  constructor; [apply Hfits | constructor].
Qed.

Lemma traced_save_image p image condition sfx (st : State) :
  (forall kw out, save_call p image condition sfx kw -> Pev (EvSaveImage kw out)) ->
  traced Pev (save_image p image condition sfx) st.
Proof.
  intros Hshape. unfold save_image.
  apply traced_bind; [apply traced_lift | intros i st1 Hi; lift_cases Hi].
  apply traced_bind; [apply traced_lift | intros [seed_ subseed_] st2 Hs; lift_cases Hs].
  destruct (truthy (opts_get condition (PyBool false))) eqn:Hcond;
    [| apply traced_ret].
  apply traced_bind; [apply traced_lift | intros prompt_ st3 Hp; lift_cases Hp].
  apply traced_bind; [apply traced_lift | intros info st4 Hinfo; lift_cases Hinfo].
  apply traced_call. intros r. split.
  - apply Hshape. unfold save_call. simpl. rewrite Hcond. eauto 10.
  - destruct r; simpl; [intros e [] | intros e' []].
Qed.

Lemma detection_outcome args image out d :
  is_detection args image out d ->
  (forall e, failed d e <-> out = Raise e) /\
  match d with
  | EvMediapipe _ _ _ _ | EvUltralytics _ _ _ _ _ => True
  | _ => False
  end.
Proof.
  destruct d; simpl; try contradiction.
  - intros (_ & _ & _ & _ & ->). split; [tauto | exact I].
  - intros (_ & _ & _ & _ & _ & ->). split; [tauto | exact I].
Qed.

Lemma traced_detector args image (st : State) :
  (forall out d, is_detection args image out d -> Pev d) ->
  traced Pev
    (if Str.startswith (Str.lower (ad_model args)) "mediapipe" then
       call (mediapipe_predict (ad_model args) image (ad_conf args))
            (EvMediapipe (ad_model args) image (ad_conf args))
     else
       let* ad_model_ := lift (get_ad_model (ad_model args)) in
       call (ultralytics_predict ad_model_ image (ad_conf args) ultralytics_device)
            (EvUltralytics ad_model_ image (ad_conf args) ultralytics_device)) st.
Proof.
  intros Hdet r st' Hrun.
  apply detector_call_run in Hrun as [(d & Ht & _ & _ & Hd) | (-> & _)].
  - exists [d]. split; [exact Ht |]. repeat constructor.
    + eapply Hdet. exact Hd.
    + apply detection_outcome in Hd as [Hfail _].
      destruct r as [pred | e].
      * intros e He. apply Hfail in He. discriminate.
      * intros e' He. apply Hfail in He. congruence.
  - exists []. rewrite app_nil_r. split; [reflexivity | constructor].
Qed.

Lemma traced_mask_loop i2i seed_ subseed_ masks_ (js : list Z) :
  (forall job out, Pev (EvProcessImages job out)) ->
  forall p2 processed st,
    traced Pev (mask_loop i2i seed_ subseed_ masks_ js p2 processed) st.
Proof.
  intros Hengine. induction js as [| j js IH]; intros p2 processed st; simpl.
  - apply traced_ret.
  - apply traced_bind; [apply traced_lift | intros m st1 _].
    apply traced_bind.
    + apply traced_call. intros r. split; [apply Hengine |].
      destruct r; simpl; [discriminate | congruence].
    + intros done_ st2 _.
      apply traced_bind; [apply traced_lift | intros image0 st3 _]. apply IH.
Qed.

Lemma traced_get_i2i_p p args image (st : State) :
  (forall t, Pev (EvPrint true t)) -> traced Pev (get_i2i_p p args image) st.
Proof.
  intros Hprint r st' Hrun.
  apply get_i2i_p_run in Hrun as [(_ & _ & pre & Ht & Hpre) _].
  exists pre. split; [exact Ht |].
  eapply Forall_impl; [exact Hpre |]. intros ev Hev.
  destruct ev as [[] t | | | | |]; try contradiction.
  split; [apply Hprint | destruct r; simpl; [intros e [] | intros e' []]].
Qed.

(** One stage, for any kind of events that holds the messages, the
    detector call of the stage, the engine calls and the preview of the
    stage. *)
Lemma traced_stage args n (st : State) :
  (forall b t, Pev (EvPrint b t)) ->
  (forall out d, is_detection args (st_image st) out d -> Pev d) ->
  (forall job out, Pev (EvProcessImages job out)) ->
  (forall kw out preview_,
     save_call (st_p st) preview_ "ad_save_previews"
               ("-ad-preview" +:+ suffix n "-") kw ->
     Pev (EvSaveImage kw out)) ->
  traced Pev (_postprocess_image args n) st.
Proof.
  intros Hprint Hdet Hengine Hpreview. unfold _postprocess_image.
  apply traced_bind;
    [apply traced_silent; intros ? ? [= _ <-]; reflexivity | intros p st1 Hp].
  inversion Hp; subst p st1; clear Hp.
  apply traced_bind; [apply traced_lift | intros i st1 Hi; lift_cases Hi].
  apply traced_bind;
    [apply traced_silent; intros ? ? [= _ <-]; reflexivity | intros image st1 Him].
  inversion Him; subst image st1; clear Him.
  apply traced_bind; [apply traced_get_i2i_p; apply Hprint | intros i2i st1 _].
  apply traced_bind; [apply traced_lift | intros [seed_ subseed_] st2 _].
  apply traced_bind; [apply traced_detector; exact Hdet | intros pd st3 _].
  destruct (mask_preprocess (masks pd)) as [| m ms].
  - apply traced_bind; [| intros; apply traced_ret].
    apply traced_emit; [apply Hprint | intros e []].
  - apply traced_bind; [apply traced_save_image; intros; eapply Hpreview; eassumption |].
    intros _ st4 _.
    apply traced_bind.
    { destruct (Str.startswith _ _); [| apply traced_ret].
      apply traced_emit; [apply Hprint | intros e []]. }
    intros _ st5 _.
    apply traced_bind; [apply traced_mask_loop; exact Hengine |].
    intros [processed |] st6 _; [| apply traced_ret].
    apply traced_bind; [apply traced_lift | intros img st7 _].
    apply traced_bind; [| intros; apply traced_ret].
    apply traced_silent. intros ? ? [= _ <-]. reflexivity.
Qed.

End TracedMonad.

(** ** One stage: what it returns and the calls it makes *)

Section StageFacts.
Context `{Host}.

Lemma stage_new args n st res st' new :
  _postprocess_image args n st = (res, st') ->
  st_trace st' = st_trace st ++ new ->
  st_p st' = st_p st /\
  stage_shape args (st_p st) (st_image st) res (st_image st') new.
Proof.
  intros Hrun Ht. apply stage_run in Hrun as (new0 & Ht0 & Hp & Hshape).
  rewrite Ht in Ht0. apply app_inv_head in Ht0 as ->. auto.
Qed.

Lemma last_call_ok (calls : list (Processing * result Processed)) (image : Image) :
  calls <> [] -> Forall call_ok calls ->
  exists job r,
    last calls = Some (job, Ok r) /\
    head (images r) = Some (final_image image calls).
Proof.
  intros Hne Hall. destruct (last calls) as [[job out] |] eqn:Hlast.
  - assert (call_ok (job, out)) as Hok.
    { eapply Forall_forall; [exact Hall |].
      apply last_Some in Hlast as (l' & ->). set_solver. }
    apply call_ok_inv in Hok as (r & img & -> & Hhead & Hout).
    exists job, r. split; [reflexivity |].
    unfold final_image. rewrite Hlast. simpl. rewrite Hhead. reflexivity.
  - apply last_None in Hlast. contradiction.
Qed.

(** X17.  The value a stage returns says whether it changed the image:
    it returns [True] exactly when it called the engine, and [pp.image] is
    then the first image of the last engine call; when it returns [False]
    no engine call was made and [pp.image] is what it was. *)
Theorem stage_returns_whether_processed args n st b st' new :
  _postprocess_image args n st = (Ok b, st') ->
  st_trace st' = st_trace st ++ new ->
  (b = true <-> engine_calls new <> []) /\
  (b = false -> st_image st' = st_image st) /\
  (b = true ->
   exists job r,
     last (engine_calls new) = Some (job, Ok r) /\
     head (images r) = Some (st_image st')).
Proof.
  intros Hrun Ht. destruct (stage_new _ _ _ _ _ _ Hrun Ht) as [_ Hshape].
  apply stage_reading in Hshape
    as [(_ & _ & _ & (e & [=]) & _) | (d & out & calls & _ & _ & _ & He & Hout)].
  rewrite He. destruct out as [pred | e]; [| destruct Hout as ([=] & _)].
  cbv zeta in Hout. destruct Hout as [Hempty Hfull].
  destruct (mask_preprocess (masks pred)) as [| m0 ms] eqn:Hm.
  - destruct (Hempty eq_refl) as ([= ->] & -> & ->).
    split; [split; [discriminate | intros Hne; congruence] |].
    split; [reflexivity | discriminate].
  - destruct (Hfull ltac:(discriminate)) as (i2i & s & t & _ & _ & _ & _ & Hok & _).
    destruct (Hok b eq_refl) as (-> & Hlen & Hall & ->).
    assert (calls <> []) as Hne by (destruct calls; [discriminate | congruence]).
    split; [split; [intros _; exact Hne | reflexivity] |].
    split; [discriminate |]. intros _. apply last_call_ok; assumption.
Qed.

(** X18.  A stage that raises leaves [pp.image] as it found it, also
    when the error comes after engine calls that succeeded: the working
    image is only replaced once every mask has been processed, so the
    images those calls returned are dropped. *)
Theorem stage_failure_keeps_image args n st e st' :
  _postprocess_image args n st = (Raise e, st') ->
  st_image st' = st_image st.
Proof.
  intros Hrun. apply stage_run in Hrun as (new & _ & _ & Hshape).
  apply stage_reading in Hshape
    as [(_ & _ & _ & _ & Hfinal) | (d & out & calls & _ & _ & _ & _ & Hout)];
    [exact Hfinal |].
  destruct out as [pred | e0]; [| destruct Hout as (_ & _ & Hfinal); exact Hfinal].
  cbv zeta in Hout. destruct Hout as [Hempty Hfull].
  destruct (mask_preprocess (masks pred)) as [| m0 ms] eqn:Hm.
  - destruct (Hempty eq_refl) as ([=] & _).
  - destruct (Hfull ltac:(discriminate)) as (i2i & s & t & _ & _ & _ & _ & _ & Hraise).
    eapply Hraise. reflexivity.
Qed.

Lemma chain_threading i2i seed_ subseed_ masks_ calls :
  forall j images_in,
    chain i2i seed_ subseed_ masks_ j images_in calls ->
    forall k job out,
      calls !! k = Some (job, out) ->
      image_mask job = masks_ !! (j + k)%nat /\
      (k = 0%nat -> init_images job = images_in) /\
      (forall k', k = S k' ->
         exists prev r image,
           calls !! k' = Some (prev, Ok r) /\ head (images r) = Some image /\
           init_images job = [image]).
Proof.
  induction calls as [| [job0 out0] rest IH]; intros j images_in Hchain k job out Hk;
    [discriminate |].
  destruct Hchain as [(m & Hm & Hjob0) Hrest].
  destruct k as [| k]; simpl in Hk.
  - injection Hk as <- <-. subst job0. rewrite Nat.add_0_r, Hm.
    split; [reflexivity |]. split; [reflexivity | discriminate].
  - destruct (output_image out0) as [image |] eqn:Hout;
      [| subst rest; discriminate].
    destruct (IH _ _ Hrest k job out Hk) as (Hmask & Hfirst & Hlater).
    split; [rewrite Hmask; f_equal; lia |]. split; [discriminate |].
    intros k' [= <-]. destruct k as [| k''].
    + destruct out0 as [r |]; [| discriminate]. simpl in Hout.
      exists job0, r, image. split; [reflexivity |]. split; [exact Hout |].
      apply Hfirst. reflexivity.
    + destruct (Hlater k'' eq_refl) as (prev & r & img & Hprev & Hhead & Hinit).
      exists prev, r, img. auto.
Qed.

(** X19.  The calls of one stage, for any number of masks: one detector
    call, on [pp.image], by the backend the model name selects, and after
    it the engine calls, one per processed mask in the order of the masks,
    the first on [pp.image] and each later one on the first image the call
    before it returned; a call is only made when the one before it
    returned an image, and all masks are processed when the stage
    returns. *)
Theorem stage_call_sequence args n st res st' new :
  _postprocess_image args n st = (res, st') ->
  st_trace st' = st_trace st ++ new ->
  (core new = [] /\ exists e, res = Raise e) \/
  exists d out,
    is_detection args (st_image st) out d /\
    core new = d :: engine_events (engine_calls new) /\
    match out with
    | Raise e => engine_calls new = [] /\ res = Raise e
    | Ok pred =>
        let masks_ := mask_preprocess (masks pred) in
        (length (engine_calls new) <= length masks_)%nat /\
        (forall b, res = Ok b -> length (engine_calls new) = length masks_) /\
        forall k job out_k,
          engine_calls new !! k = Some (job, out_k) ->
          image_mask job = masks_ !! k /\
          (k = 0%nat -> init_images job = [st_image st]) /\
          (forall k', k = S k' ->
             exists prev r image,
               engine_calls new !! k' = Some (prev, Ok r) /\
               head (images r) = Some image /\ init_images job = [image])
    end.
Proof.
  intros Hrun Ht. destruct (stage_new _ _ _ _ _ _ Hrun Ht) as [_ Hshape].
  apply stage_reading in Hshape
    as [(_ & Hcore & _ & Hres & _) | (d & out & calls & Hd & _ & Hcore & He & Hout)];
    [left; auto |].
  right. exists d, out. rewrite He. split; [exact Hd |]. split; [exact Hcore |].
  destruct out as [pred | e]; [| destruct Hout as (-> & -> & _); auto].
  cbv zeta in *. destruct Hout as [Hempty Hfull].
  destruct (mask_preprocess (masks pred)) as [| m0 ms] eqn:Hm.
  - destruct (Hempty eq_refl) as (_ & -> & _).
    split; [simpl; lia |]. split; [reflexivity | intros k job out_k [=]].
  - destruct (Hfull ltac:(discriminate))
      as (i2i & s & t & _ & _ & Hchain & Hle & Hok & _).
    split; [exact Hle |]. split; [intros b Hb; apply (Hok b Hb) |].
    intros k job out_k Hk.
    apply (chain_threading _ _ _ _ _ _ _ Hchain k job out_k Hk).
Qed.

End StageFacts.

(** ** The whole run: [postprocess_image] *)

Section Runs.
Context `{Host}.

Lemma traced_stage_loop p image0 arg_list :
  forall rest pre n b st,
    arg_list = pre ++ rest -> n = Z.of_nat (length pre) -> st_p st = p ->
    traced (stage_event p image0 arg_list) (stage_loop n rest b) st.
Proof.
  induction rest as [| args rest IH]; intros pre n b st Hlist Hn Hp; simpl.
  - apply traced_ret.
  - assert (arg_list = (pre ++ [args]) ++ rest) as Hlist'
      by (rewrite <- app_assoc; exact Hlist).
    assert (n + 1 = Z.of_nat (length (pre ++ [args]))) as Hn'
      by (rewrite length_app; simpl; lia).
    destruct (String.eqb_spec (ad_model args) "None") as [| Hmodel];
      [eapply IH; eassumption |].
    apply traced_bind.
    + apply traced_stage.
      * intros; exact I.
      * intros out d Hd. pose proof (detection_outcome _ _ _ _ Hd) as [_ Hkind].
        destruct d; try contradiction; simpl; exists args, (st_image st), out;
          (split; [rewrite Hlist; set_solver | split; [exact Hmodel | exact Hd]]).
      * intros; exact I.
      * intros kw out preview_ Hsave. simpl. right.
        exists (length pre), preview_.
        split; [rewrite Hlist, length_app; simpl; lia |].
        rewrite Hp in Hsave. rewrite <- Hn. exact Hsave.
    + intros done_ st1 Hstage. apply stage_run in Hstage as (new & _ & Hp1 & _).
      eapply IH; try eassumption. congruence.
Qed.

Lemma stage_loop_run arg_list b st res st' :
  stage_loop 0 arg_list b st = (res, st') ->
  st_p st' = st_p st /\
  exists new,
    st_trace st' = st_trace st ++ new /\
    Forall (fits (stage_event (st_p st) (st_image st) arg_list) res) new.
Proof.
  intros Hrun. split.
  - apply stage_loop_nothing in Hrun as (new & _ & Hp & _). exact Hp.
  - apply (traced_stage_loop (st_p st) (st_image st) arg_list arg_list [] 0 b st
             eq_refl eq_refl eq_refl) in Hrun.
    exact Hrun.
Qed.

(** The end of [postprocess_image]: the attempt to write [params.txt]. *)
Lemma params_txt_run st res st' :
  try_except
    (let* p := get_p in
     let* i := lift (read_idx p) in
     let* n := lift (len_opt (all_prompts p)) in
     if i =? n - 1 then write_params_txt p else ret tt)
    CException (fun _ => ret tt) st = (res, st') ->
  res = Ok tt /\ st_p st' = st_p st /\ st_image st' = st_image st /\
  (st_trace st' = st_trace st \/
   exists content out l,
     st_trace st' =
       st_trace st ++ [EvWriteText (Str.path_under data_path "params.txt") content out] /\
     infotext (st_p st) = Ok content /\
     all_prompts (st_p st) = Some l /\
     _idx (st_p st) = Some (Z.of_nat (length l) - 1)).
Proof.
  unfold try_except.
  match goal with |- context [?m st] =>
    match m with bind _ _ => destruct (m st) as [r2 st2] eqn:Hm end end.
  assert (st_p st2 = st_p st /\ st_image st2 = st_image st /\
          (st_trace st2 = st_trace st \/
           exists content out l,
             st_trace st2 =
               st_trace st ++ [EvWriteText (Str.path_under data_path "params.txt") content out] /\
             infotext (st_p st) = Ok content /\
             all_prompts (st_p st) = Some l /\
             _idx (st_p st) = Some (Z.of_nat (length l) - 1))) as Hbody.
  { bind_cases Hm p st3 Hp; [| inversion Hp].
    inversion Hp; subst p st3; clear Hp.
    bind_cases Hm i st3 Hi; lift_cases Hi; [| auto].
    bind_cases Hm n st3 Hn; lift_cases Hn; [| auto].
    destruct (Z.eqb_spec i (n - 1)) as [-> | _]; [| inversion Hm; subst; auto].
    unfold write_params_txt in Hm.
    bind_cases Hm info st3 Hinfo; lift_cases Hinfo; [| auto].
    apply call_run in Hm as (Hp3 & Hi3 & Ht3).
    split; [exact Hp3 |]. split; [exact Hi3 |]. right.
    unfold read_idx in Hi. unfold len_opt in Hn.
    destruct (all_prompts (st_p st)) as [l |]; [| discriminate].
    injection Hn as <-.
    destruct (_idx (st_p st)) as [i |]; [| discriminate]. injection Hi as ->.
    exists info, r2, l. auto. }
  destruct r2 as [[] | e].
  - intros [= <- <-]. split; [reflexivity | exact Hbody].
  - rewrite every_exception_is_Exception. intros [= <- <-].
    split; [reflexivity | exact Hbody].
Qed.

(** The ways [postprocess_image] can go: it does nothing; the arguments
    do not validate; or the stages run, perhaps the image before them is
    saved, and the parameters file is perhaps written. *)
Lemma postprocess_image_trace args_ st res st' :
  postprocess_image args_ st = (res, st') ->
  ((adetailer_disabled (st_p st) = true \/ is_ad_enabled args_ <> Ok true) /\
   st' = st) \/
  (adetailer_disabled (st_p st) = false /\ is_ad_enabled args_ = Ok true /\
   st_p st' = st_p (next_image st) /\
   ((exists e, get_args args_ = Raise e /\ res = Raise e /\ st' = next_image st) \/
    (exists arg_list body tail,
       get_args args_ = Ok arg_list /\
       st_trace st' = st_trace st ++ body ++ tail /\
       Forall (fits (stage_event (st_p (next_image st)) (st_image st) arg_list) res)
              body /\
       (tail = [] \/
        res = Ok tt /\
        exists content out l,
          tail = [EvWriteText (Str.path_under data_path "params.txt") content out] /\
          infotext (st_p st') = Ok content /\
          all_prompts (st_p st') = Some l /\
          _idx (st_p st') = Some (Z.of_nat (length l) - 1))))).
Proof.
  intros Hrun. unfold postprocess_image in Hrun.
  unfold bind at 1 in Hrun. unfold get_p at 1 in Hrun.
  destruct (adetailer_disabled (st_p st)) eqn:Hdis.
  { inversion Hrun; subst. left. auto. }
  unfold bind at 1 in Hrun. unfold lift at 1 in Hrun.
  destruct (is_ad_enabled args_) as [[|] | e] eqn:Hen.
  2: { inversion Hrun; subst. left. split; [right; discriminate | reflexivity]. }
  2: { inversion Hrun; subst. left. split; [right; discriminate | reflexivity]. }
  simpl negb in Hrun. cbv iota in Hrun.
  unfold bind at 1 in Hrun. unfold put_p at 1 in Hrun.
  fold (next_image st) in Hrun.
  unfold bind at 1 in Hrun. unfold get_image at 1 in Hrun.
  unfold bind at 1 in Hrun. unfold lift at 1 in Hrun.
  right. split; [reflexivity |]. split; [reflexivity |].
  destruct (get_args args_) as [arg_list | e] eqn:Hargs.
  2: { inversion Hrun; subst. split; [reflexivity |]. left. eauto. }
  change (st_image (next_image st)) with (st_image st) in Hrun.
  bind_cases Hrun is_processed st1 Hloop.
  2: { apply stage_loop_run in Hloop as (Hp & new & Ht & Hfits).
       split; [exact Hp |]. right. exists arg_list, new, [].
       rewrite app_nil_r. auto. }
  apply stage_loop_run in Hloop as (Hp1 & new1 & Ht1 & Hfits1).
  change (st_p st1 = st_p (next_image st)) in Hp1.
  change (Forall (fits (stage_event (st_p (next_image st)) (st_image st) arg_list)
                       (Ok is_processed)) new1) in Hfits1.
  change (st_trace st1 = st_trace st ++ new1) in Ht1.
  assert (forall r2 st2,
            (if is_processed then
               let* p := get_p in
               save_image p (Some (st_image st)) "ad_save_images_before" "-ad-before"
             else ret tt) st1 = (r2, st2) ->
            st_p st2 = st_p st1 /\
            exists new2,
              st_trace st2 = st_trace st1 ++ new2 /\
              Forall (fits (stage_event (st_p (next_image st)) (st_image st) arg_list) r2)
                     new2) as Hsave.
  { intros r2 st2 Hsave. destruct is_processed.
    - bind_cases Hsave p st3 Hget; [| inversion Hget].
      inversion Hget; subst p st3; clear Hget. split.
      + apply save_image_run in Hsave as (Hp2 & _). exact Hp2.
      + eapply traced_save_image; [| exact Hsave].
        intros kw out Hkw. rewrite <- Hp1. simpl. left. exact Hkw.
    - inversion Hsave; subst. split; [reflexivity |].
      exists []. rewrite app_nil_r. split; [reflexivity | constructor]. }
  bind_cases Hrun u st2 Hs.
  - destruct (Hsave _ _ Hs) as (Hp2 & new2 & Ht2 & Hfits2).
    apply params_txt_run in Hrun as (-> & Hp3 & _ & Htail).
    split; [congruence |]. right.
    assert (Forall (fits (stage_event (st_p (next_image st)) (st_image st) arg_list)
                         (Ok tt)) (new1 ++ new2)) as Hbody.
    { apply Forall_app. split; [| exact Hfits2].
      eapply Forall_impl; [exact Hfits1 |]. intros ev. apply fits_Ok. }
    destruct Htail as [Ht3 | (content & out & l & Ht3 & Hinfo & Hall & Hidx)].
    + exists arg_list, (new1 ++ new2), []. rewrite app_nil_r.
      split; [reflexivity |].
      split; [rewrite Ht3, Ht2, Ht1, app_assoc; reflexivity |].
      split; [exact Hbody | left; reflexivity].
    + exists arg_list, (new1 ++ new2), [EvWriteText (Str.path_under data_path "params.txt") content out].
      split; [reflexivity |].
      split; [rewrite Ht3, Ht2, Ht1, !app_assoc; reflexivity |].
      split; [exact Hbody |]. right. split; [reflexivity |].
      exists content, out, l. rewrite Hp3. auto.
  - destruct (Hsave _ _ Hs) as (Hp2 & new2 & Ht2 & Hfits2).
    split; [congruence |]. right. exists arg_list, (new1 ++ new2), [].
    rewrite app_nil_r. split; [reflexivity |].
    split; [rewrite Ht2, Ht1, app_assoc; reflexivity |].
    split; [| left; reflexivity].
    apply Forall_app. split; [| exact Hfits2].
    eapply Forall_impl; [exact Hfits1 |]. intros ev. apply fits_Ok.
Qed.

End Runs.

Section RunFacts.
Context `{Host}.

(** X20.  [postprocess_image] counts the images it is given, and it does
    so first: unless the script is disabled on the job or not enabled (then
    nothing changes at all), the image index of the job is moved on by one,
    to 0 on the first image, before the arguments are validated.
    Arguments that do not validate stop the run there, with the error of
    [get_args] and only the index changed; otherwise the stages run on the
    job with the new index, and an error of theirs ends the run at once. *)
Theorem postprocess_image_counts_images args_ st res st' :
  postprocess_image args_ st = (res, st') ->
  (adetailer_disabled (st_p st) = true \/ is_ad_enabled args_ <> Ok true ->
   st' = st) /\
  (adetailer_disabled (st_p st) = false -> is_ad_enabled args_ = Ok true ->
   _idx (st_p (next_image st)) = Some (default (-1) (_idx (st_p st)) + 1) /\
   (forall e, get_args args_ = Raise e -> res = Raise e /\ st' = next_image st) /\
   (forall arg_list,
      get_args args_ = Ok arg_list ->
      exists res1 st1,
        stage_loop 0 arg_list false (next_image st) = (res1, st1) /\
        forall e, res1 = Raise e -> res = Raise e /\ st' = st1)).
Proof.
  intros Hrun. pose proof Hrun as Hcases.
  apply postprocess_image_trace in Hcases as [[Hoff ->] | (Hdis & Hen & _ & Hrest)].
  - split; [reflexivity |]. intros Hdis Hen. destruct Hoff; congruence.
  - split; [intros [Hoff | Hoff]; congruence |]. intros _ _.
    split; [reflexivity |]. split.
    + intros e He.
      destruct Hrest as [(e0 & He0 & -> & ->) | (arg_list & ? & ? & Hok & _)];
        [| congruence].
      split; [congruence | reflexivity].
    + intros arg_list Hargs.
      unfold postprocess_image in Hrun.
      unfold bind at 1 in Hrun. unfold get_p at 1 in Hrun. rewrite Hdis in Hrun.
      unfold bind at 1 in Hrun. unfold lift at 1 in Hrun. rewrite Hen in Hrun.
      simpl negb in Hrun. cbv iota in Hrun.
      unfold bind at 1 in Hrun. unfold put_p at 1 in Hrun.
      fold (next_image st) in Hrun.
      unfold bind at 1 in Hrun. unfold get_image at 1 in Hrun.
      unfold bind at 1 in Hrun. unfold lift at 1 in Hrun. rewrite Hargs in Hrun.
      bind_cases Hrun is_processed st1 Hloop.
      2: { exists (Raise x), st'. split; [exact Hloop |]. intros e [= <-]. auto. }
      exists (Ok is_processed), st1. split; [exact Hloop | discriminate].
Qed.

Lemma run_new args_ st res st' new :
  postprocess_image args_ st = (res, st') ->
  st_trace st' = st_trace st ++ new ->
  new = [] \/
  exists arg_list body tail,
    st_p st' = st_p (next_image st) /\
    get_args args_ = Ok arg_list /\ new = body ++ tail /\
    Forall (fits (stage_event (st_p (next_image st)) (st_image st) arg_list) res)
           body /\
    (tail = [] \/
     res = Ok tt /\
     exists content out l,
       tail = [EvWriteText (Str.path_under data_path "params.txt") content out] /\
       infotext (st_p st') = Ok content /\
       all_prompts (st_p st') = Some l /\
       _idx (st_p st') = Some (Z.of_nat (length l) - 1)).
Proof.
  intros Hrun Ht.
  assert (st_trace st' = st_trace st -> new = []) as Hnil.
  { intros Hsame. rewrite Hsame in Ht. rewrite <- (app_nil_r (st_trace st)) in Ht at 1.
    apply app_inv_head in Ht. congruence. }
  apply postprocess_image_trace in Hrun
    as [[_ ->] | (_ & _ & Hp & [(e & _ & _ & ->) | (arg_list & body & tail & Hargs & Ht' & Hrest)])].
  - left. apply Hnil. reflexivity.
  - left. apply Hnil. reflexivity.
  - right. exists arg_list, body, tail. split; [exact Hp |]. split; [exact Hargs |].
    split; [| exact Hrest]. rewrite Ht in Ht'. apply app_inv_head in Ht'. exact Ht'.
Qed.


(** X22.  The parameters file is written on a best-effort basis: when a
    run writes it, that is the last thing the run does, the file is the
    path that [Path(data_path, "params.txt")] denotes (the data directory
    without repeated or trailing separators, then [params.txt]), its
    content is the infotext of the job, the image just processed is the
    last one of the batch, and the run returns normally whether the write
    succeeded or not. *)
Theorem params_txt_is_best_effort args_ st res st' new path content out :
  postprocess_image args_ st = (res, st') ->
  st_trace st' = st_trace st ++ new ->
  EvWriteText path content out ∈ new ->
  res = Ok tt /\
  last new = Some (EvWriteText path content out) /\
  path = Str.path_under data_path "params.txt" /\
  infotext (st_p st') = Ok content /\
  exists l,
    all_prompts (st_p st') = Some l /\
    _idx (st_p st') = Some (Z.of_nat (length l) - 1).
Proof.
  intros Hrun Ht Hin.
  destruct (run_new _ _ _ _ _ Hrun Ht)
    as [-> | (arg_list & body & tail & _ & _ & -> & Hbody & Htail)];
    [apply elem_of_nil in Hin; contradiction |].
  apply elem_of_app in Hin as [Hin | Hin].
  - eapply Forall_forall in Hbody; [| exact Hin]. destruct Hbody as [[] _].
  - destruct Htail as [-> | (-> & content0 & out0 & l & -> & Hinfo & Hall & Hidx)];
      [apply elem_of_nil in Hin; contradiction |].
    apply list_elem_of_singleton in Hin. injection Hin as -> -> ->.
    split; [reflexivity |]. split; [apply last_snoc |]. split; [reflexivity |].
    split; [exact Hinfo |]. exists l. auto.
Qed.

(** X23.  No failure of a collaborator is hidden: when a detector call
    or an engine call of a run raised, the run raises that very exception
    (the write of the parameters file is the only call whose failure [postprocess_image]
    swallows). *)
Theorem collaborator_failures_propagate args_ st res st' new :
  postprocess_image args_ st = (res, st') ->
  st_trace st' = st_trace st ++ new ->
  (forall job e, (job, Raise e) ∈ engine_calls new -> res = Raise e) /\
  (forall image e, (image, Raise e) ∈ detections new -> res = Raise e).
Proof.
  intros Hrun Ht.
  assert (forall ev e, ev ∈ new -> failed ev e -> res = Raise e) as Hfailed.
  { intros ev e Hin Hfail.
    destruct (run_new _ _ _ _ _ Hrun Ht)
      as [-> | (arg_list & body & tail & _ & _ & -> & Hbody & Htail)];
      [apply elem_of_nil in Hin; contradiction |].
    apply elem_of_app in Hin as [Hin | Hin].
    - eapply Forall_forall in Hbody; [| exact Hin]. destruct Hbody as [_ Hfit].
      destruct res as [u | e0]; [destruct (Hfit e Hfail) |].
      rewrite (Hfit e Hfail). reflexivity.
    - destruct Htail as [-> | (_ & content & out & l & -> & _)];
        [apply elem_of_nil in Hin; contradiction |].
      apply list_elem_of_singleton in Hin. subst ev. destruct Hfail. }
  split.
  - intros job e Hin. apply list_elem_of_omap in Hin as (ev & Hev & Hsome).
    apply (Hfailed ev e Hev). destruct ev; try discriminate.
    injection Hsome as -> ->. reflexivity.
  - intros image e Hin. apply list_elem_of_omap in Hin as (ev & Hev & Hsome).
    apply (Hfailed ev e Hev). destruct ev; try discriminate;
      injection Hsome as -> ->; reflexivity.
Qed.

(** X24.  Every detector call of a run belongs to one of the validated
    stages, and never to a stage whose model is "None": the mediapipe
    backend is called under the stage's own model name, which starts with
    "mediapipe" whatever its case; the generic backend is called with the
    file the registry holds for the stage's model and with the device the
    script selected at start-up; both get the confidence threshold of the
    stage. *)
Theorem detector_routing args_ st res st' new :
  postprocess_image args_ st = (res, st') ->
  st_trace st' = st_trace st ++ new ->
  (forall model image conf out,
     EvMediapipe model image conf out ∈ new ->
     exists arg_list args,
       get_args args_ = Ok arg_list /\ args ∈ arg_list /\
       model = ad_model args /\ model <> "None" /\ conf = ad_conf args /\
       Str.startswith (Str.lower model) "mediapipe" = true) /\
  (forall path image conf device out,
     EvUltralytics path image conf device out ∈ new ->
     exists arg_list args,
       get_args args_ = Ok arg_list /\ args ∈ arg_list /\
       dict_get model_mapping (ad_model args) = Some path /\
       ad_model args <> "None" /\ conf = ad_conf args /\
       device = ultralytics_device /\
       Str.startswith (Str.lower (ad_model args)) "mediapipe" = false).
Proof.
  intros Hrun Ht.
  assert (forall ev,
            ev ∈ new ->
            match ev with
            | EvMediapipe _ _ _ _ | EvUltralytics _ _ _ _ _ =>
                exists arg_list args image out,
                  get_args args_ = Ok arg_list /\ args ∈ arg_list /\
                  ad_model args <> "None" /\ is_detection args image out ev
            | _ => True
            end) as Hdet.
  { intros ev Hin.
    destruct (run_new _ _ _ _ _ Hrun Ht)
      as [-> | (arg_list & body & tail & _ & Hargs & -> & Hbody & Htail)];
      [apply elem_of_nil in Hin; contradiction |].
    apply elem_of_app in Hin as [Hin | Hin].
    - eapply Forall_forall in Hbody; [| exact Hin]. destruct Hbody as [Hev _].
      destruct ev; try exact I;
        destruct Hev as (args & image0 & out0 & Hargs_in & Hmodel & Hd);
        exists arg_list, args, image0, out0; auto.
    - destruct Htail as [-> | (_ & content & out & l & -> & _)];
        [apply elem_of_nil in Hin; contradiction |].
      apply list_elem_of_singleton in Hin. subst ev. exact I. }
  split.
  - intros model image conf out Hin.
    destruct (Hdet _ Hin) as (arg_list & args & image0 & out0 & Hargs & Hargs_in
                              & Hmodel & (Hmp & -> & _ & -> & _)).
    exists arg_list, args. auto 10.
  - intros path image conf device out Hin.
    destruct (Hdet _ Hin) as (arg_list & args & image0 & out0 & Hargs & Hargs_in
                              & Hmodel & (Hmp & Hpath & _ & -> & -> & _)).
    exists arg_list, args. auto 10.
Qed.

End RunFacts.

(** ** The properties of the stages and of the run on the small hosts *)

Lemma stage_returns_whether_processed_witness :
  Demo.stage_run1.1 = Ok true /\
  exists job r,
    last (engine_calls (st_trace Demo.stage_run1.2)) = Some (job, Ok r) /\
    head (images r) = Some (st_image Demo.stage_run1.2).
Proof.
  split; [vm_compute; reflexivity |].
  destruct (@stage_returns_whether_processed Demo.types (Demo.host ∅)
              Demo.mediapipe_stage 0 (Demo.start (Demo.parent_at 1) 5) true
              Demo.stage_run1.2 (st_trace Demo.stage_run1.2))
    as (_ & _ & Hlast); [vm_compute; reflexivity | reflexivity |].
  apply Hlast. reflexivity.
Defined.

Lemma stage_failure_keeps_image_witness :
  length (engine_calls (st_trace Demo2.stage_oom.2)) = 2%nat /\
  st_image Demo2.stage_oom.2 = 5.
Proof.
  split; [vm_compute; reflexivity |].
  apply (@stage_failure_keeps_image Demo.types Demo2.oom_host
           Demo.mediapipe_stage 0 (Demo.start (Demo.parent_at 1) 5)
           (Exn (CExternal "OutOfMemoryError") (Lit "CUDA out of memory"))
           Demo2.stage_oom.2).
  vm_compute. reflexivity.
Defined.

Lemma stage_call_sequence_witness :
  exists d out,
    is_detection (H0 := Demo.host ∅) Demo.mediapipe_stage 5 out d /\
    core (st_trace Demo.stage_run1.2)
      = d :: engine_events (engine_calls (st_trace Demo.stage_run1.2)).
Proof.
  destruct (@stage_call_sequence Demo.types (Demo.host ∅) Demo.mediapipe_stage 0
              (Demo.start (Demo.parent_at 1) 5) Demo.stage_run1.1
              Demo.stage_run1.2 (st_trace Demo.stage_run1.2)
              (surjective_pairing _) eq_refl)
    as [[Hcore _] | (d & out & Hd & Hcore & _)].
  - apply (f_equal length) in Hcore. vm_compute in Hcore. discriminate.
  - exists d, out. split; [exact Hd | exact Hcore].
Defined.

Lemma postprocess_image_counts_images_witness :
  _idx (st_p (next_image (Demo.start Demo.parent 5))) = Some 0 /\
  exists res1 st1,
    stage_loop (H0 := Demo.host ∅) 0 [Demo.mediapipe_stage; Demo.face_stage] false
      (next_image (Demo.start Demo.parent 5)) = (res1, st1).
Proof.
  destruct (@postprocess_image_counts_images Demo.types (Demo.host ∅)
              Demo.two_stages (Demo.start Demo.parent 5) Demo.pipeline_two.1
              Demo.pipeline_two.2 (surjective_pairing _)) as [_ Hidx].
  destruct (Hidx eq_refl eq_refl) as (Hnext & _ & Hstages).
  split; [exact Hnext |].
  destruct (Hstages [Demo.mediapipe_stage; Demo.face_stage] eq_refl)
    as (res1 & st1 & Hloop & _).
  exists res1, st1. exact Hloop.
Defined.


Lemma params_txt_is_best_effort_witness :
  Demo2.pipeline_last.1 = Ok tt /\
  last (st_trace Demo2.pipeline_last.2)
    = Some (EvWriteText "/data/params.txt" "a portrait"
              (Raise (Exn (CExternal "PermissionError") (Lit "/data/params.txt")))).
Proof.
  destruct (@params_txt_is_best_effort Demo.types Demo2.strict_host Demo.two_stages
              (Demo.start (Demo.parent_at 1) 5) Demo2.pipeline_last.1
              Demo2.pipeline_last.2 (st_trace Demo2.pipeline_last.2)
              "/data/params.txt" "a portrait"
              (Raise (Exn (CExternal "PermissionError") (Lit "/data/params.txt")))
              (surjective_pairing _) eq_refl)
    as (Hres & Hlast & _).
  - apply list_elem_of_lookup_2
      with (i := pred (length (st_trace Demo2.pipeline_last.2))).
    vm_compute. reflexivity.
  - split; [exact Hres | exact Hlast].
Defined.

Lemma collaborator_failures_propagate_witness :
  Demo2.pipeline_oom.1
    = Raise (Exn (CExternal "OutOfMemoryError") (Lit "CUDA out of memory")) /\
  st_image Demo2.pipeline_oom.2 = 5.
Proof.
  destruct (@collaborator_failures_propagate Demo.types Demo2.oom_host
              Demo.two_stages (Demo.start Demo.parent 5) Demo2.pipeline_oom.1
              Demo2.pipeline_oom.2 (st_trace Demo2.pipeline_oom.2)
              (surjective_pairing _) eq_refl) as [Hengine _].
  split; [| vm_compute; reflexivity].
  eapply Hengine. eapply list_elem_of_lookup_2 with (i := 1%nat).
  vm_compute. reflexivity.
Defined.

Lemma detector_routing_witness :
  exists arg_list args,
    get_args (H0 := Demo.host ∅) Demo.two_stages = Ok arg_list /\
    args ∈ arg_list /\
    dict_get (model_mapping (Host := Demo.host ∅)) (ad_model args)
      = Some "/models/adetailer/face_yolov8n.pt".
Proof.
  destruct (@detector_routing Demo.types (Demo.host ∅) Demo.two_stages
              (Demo.start Demo.parent 5) Demo.pipeline_two.1 Demo.pipeline_two.2
              (st_trace Demo.pipeline_two.2) (surjective_pairing _) eq_refl)
    as [_ Hgeneric].
  destruct (Hgeneric "/models/adetailer/face_yolov8n.pt" 567 30 EmptyString
              (Ok (Demo.detect_ultralytics "/models/adetailer/face_yolov8n.pt" 567)))
    as (arg_list & args & Hargs & Hin & Hpath & _).
  - eapply list_elem_of_lookup_2 with (i := 4%nat). vm_compute. reflexivity.
  - exists arg_list, args. auto.
Defined.

(** ** The widgets and the settings *)

Section UiFacts.
Context `{host : Host}.

Lemma tolist_from_lookup {W} (w : list (string * W)) (attrs : list string) :
  forall widgets,
    tolist_from attrs w = Ok widgets ->
    length widgets = length attrs /\
    forall k attr,
      attrs !! k = Some attr ->
      exists widget, dict_get w attr = Some widget /\ widgets !! k = Some widget.
Proof.
  induction attrs as [| a attrs IH]; intros widgets Hrun; simpl in Hrun.
  - injection Hrun as <-. split; [reflexivity | intros k attr [=]].
  - destruct (dict_get w a) as [widget |] eqn:Ha; [| discriminate].
    apply rbind_Ok_inv in Hrun as (l & Hl & [= <-]).
    destruct (IH l Hl) as [Hlen Hall]. split; [simpl; congruence |].
    intros [| k] attr Hk; simpl in Hk.
    + injection Hk as <-. exists widget. auto.
    + apply Hall. exact Hk.
Qed.

(** X25.  The wiring of the Generate button: [tolist] hands over one
    widget per attribute of [ALL_ARGS], in that order, and fails when the
    tab lacks one; when the button is pressed with the values of these
    widgets, the state of the tab holds, under every attribute name, the
    value of the widget of that name. *)
Theorem generate_click_copies_every_widget {W} (value_of : W -> pyval)
    (w : list (string * W)) (widgets : list W) (state : list (string * pyval)) :
  NoDup ALL_ARGS_attrs ->
  tolist w = Ok widgets ->
  length widgets = length ALL_ARGS_attrs /\
  forall attr,
    attr ∈ ALL_ARGS_attrs ->
    exists widget,
      dict_get w attr = Some widget /\
      dict_get (on_generate_click state (value_of <$> widgets)) attr
        = Some (value_of widget).
Proof.
  intros Hnd Hlist. apply tolist_from_lookup in Hlist as [Hlen Hall].
  split; [exact Hlen |]. intros attr Hin.
  apply list_elem_of_lookup_1 in Hin as [k Hk].
  destruct (Hall k attr Hk) as (widget & Hw & Hwk).
  exists widget. split; [exact Hw |].
  unfold on_generate_click.
  apply (on_generate_click_from_sets _ _ state k attr (value_of widget) Hnd Hk).
  rewrite list_lookup_fmap, Hwk. reflexivity.
Qed.

Lemma opts_get_with_default (key : string) (v : pyval) (k : string) (d : pyval) :
  opts_data !! key = None ->
  (k = key -> d = v) ->
  opts_get (H0 := with_opts_data host (<[key := v]> opts_data)) k d
  = opts_get (H0 := host) k d.
Proof.
  intros Hnone Hd. unfold opts_get. simpl.
  destruct (decide (k = key)) as [-> | Hne].
  - rewrite lookup_insert_eq, Hnone, (Hd eq_refl). reflexivity.
  - rewrite lookup_insert_ne by congruence. reflexivity.
Qed.

(** X26.  The fallbacks in the script agree with the defaults it
    registers: for every option [on_ui_settings] registers, a host where
    the option was never saved behaves like a host where it is saved with
    its registered default, in the script filter, in both uses of
    [save_image], and in the number of tabs. *)
Theorem registered_defaults_are_the_fallbacks (key : string) (info : OptionInfo) :
  dict_get (on_ui_settings []) key = Some info ->
  opts_data (Host := host) !! key = None ->
  let saved :=
    with_opts_data host (<[key := oi_default info]> (opts_data (Host := host))) in
  (forall p args,
     script_filter (H0 := saved) p args = script_filter (H0 := host) p args) /\
  (forall p image condition sfx st,
     condition = "ad_save_previews" \/ condition = "ad_save_images_before" ->
     save_image (H0 := saved) p image condition sfx st
     = save_image (H0 := host) p image condition sfx st) /\
  ui_num_models (H0 := saved) = ui_num_models (H0 := host).
Proof.
  intros Hreg Hnone saved.
  assert (forall k d,
            (k = key -> d = oi_default info) ->
            opts_get (H0 := saved) k d = opts_get (H0 := host) k d) as Hget.
  { intros k d Hd. apply opts_get_with_default; assumption. }
  let l := eval vm_compute in (on_ui_settings []) in
  change (on_ui_settings []) with l in Hreg.
  cbn [dict_get] in Hreg.
  repeat match type of Hreg with
         | (if String.eqb ?a key then _ else _) = _ =>
             destruct (String.eqb_spec a key) as [<- | ?];
             [injection Hreg as <- |]
         end; try discriminate.
  all: split; [| split].
  all: try (intros p args; unfold script_filter;
            rewrite !Hget by (intros Heq; first [discriminate Heq | reflexivity]);
            reflexivity).
  all: try (intros p image condition sfx st [-> | ->]; unfold save_image;
            rewrite !Hget by (intros Heq; first [discriminate Heq | reflexivity]);
            reflexivity).
  all: unfold ui_num_models;
    rewrite !Hget by (intros Heq; first [discriminate Heq | reflexivity]);
    reflexivity.
Qed.

End UiFacts.

Lemma generate_click_copies_every_widget_witness :
  tolist (H0 := Demo.host ∅) Demo2.widgets = Ok [1%nat; 2%nat; 3%nat] /\
  exists widget,
    dict_get Demo2.widgets "ad_prompt" = Some widget /\
    dict_get (on_generate_click (H0 := Demo.host ∅) Demo2.tab_state
                (Demo2.value_of <$> [1%nat; 2%nat; 3%nat])) "ad_prompt"
      = Some (Demo2.value_of widget).
Proof.
  split; [reflexivity |].
  destruct (@generate_click_copies_every_widget Demo.types (Demo.host ∅) nat
              Demo2.value_of Demo2.widgets [1%nat; 2%nat; 3%nat] Demo2.tab_state)
    as [_ Hall].
  - apply (bool_decide_unpack _). vm_compute. exact I.
  - reflexivity.
  - apply (Hall "ad_prompt"). apply (bool_decide_unpack _). vm_compute. exact I.
Defined.

Lemma registered_defaults_are_the_fallbacks_witness :
  dict_get (on_ui_settings []) "ad_only_seleted_scripts"
    = Some {| oi_default := PyBool true;
              oi_label := "Apply only selected scripts to ADetailer" |} /\
  forall p args,
    script_filter
      (H0 := with_opts_data (Demo.host ∅) (<["ad_only_seleted_scripts" := PyBool true]> ∅))
      p args
    = script_filter (H0 := Demo.host ∅) p args.
Proof.
  split; [reflexivity |].
  destruct (@registered_defaults_are_the_fallbacks Demo.types (Demo.host ∅)
              "ad_only_seleted_scripts"
              {| oi_default := PyBool true;
                 oi_label := "Apply only selected scripts to ADetailer" |})
    as [Hfilter _]; [reflexivity | reflexivity | exact Hfilter].
Defined.
